(** * FitSocial run tracker: a shallow embedding of [app/tracker.tsx]

    The development follows the tracking screen of the application: the
    numeric helpers at the bottom of the file ([formatTime], [formatPace],
    [haversineMeters]), the React state and refs of [TrackerScreen], and the
    handlers [startRun], [pauseRun], [resumeRun] and [stopRun].

    JavaScript numbers are idealised as real numbers ([R]); the counters that
    only ever hold integers ([elapsedSec], clock readings) are [Z].  Every
    [await] of the source is a point where the event loop may run another
    handler, so the asynchronous handlers are split into the segments that
    run between two awaits. *)

From Stdlib Require Import Reals Lra Lia ZArith List String Ascii Bool.
From Stdlib Require Import Machin.
From Stdlib Require Import DecimalString.
From Stdlib Require DecimalPos DecimalZ.
Import ListNotations.

#[local] Open Scope R_scope.

(** ** JavaScript primitives used by the screen *)

Module JS.

(** [Math.floor] on a real number. *)
Definition Math_floor (x : R) : Z := Int_part x.

(** Truncation towards zero, the quotient behind the [%] operator. *)
Definition trunc (x : R) : Z :=
  if Rle_dec 0 x then Int_part x else (- Int_part (- x))%Z.

(** [x % y] on numbers: the remainder takes the sign of the dividend. *)
Definition rem (x y : R) : R := x - y * IZR (trunc (x / y)).

(** [Math.round]: the nearest integer, halves going up. *)
Definition Math_round (x : R) : Z := Int_part (x + / 2).

(** [Math.sqrt]; the argument is never negative where the screen calls it
    (see [haversine_chord_range]). *)
Definition Math_sqrt (x : R) : R := sqrt x.

(** [Math.atan2 (y, x)]: the angle of the point [(x, y)]. *)
Definition Math_atan2 (y x : R) : R :=
  if Rlt_dec 0 x then atan (y / x)
  else if Rlt_dec x 0 then
    (if Rle_dec 0 y then atan (y / x) + PI else atan (y / x) - PI)
  else if Rlt_dec 0 y then PI / 2
  else if Rlt_dec y 0 then - (PI / 2)
  else 0.

(** [n.toString()] and [String(n)] for an integral number (decimal
    digits, a leading minus sign for negatives). *)
Definition toString (n : Z) : string := NilZero.string_of_int (Z.to_int n).

Fixpoint repeat_string (n : nat) (fill : string) : string :=
  match n with
  | O => EmptyString
  | S k => append fill (repeat_string k fill)
  end.

(** [s.padStart(len, fill)] for a one-character [fill]. *)
Definition padStart (len : nat) (fill : string) (s : string) : string :=
  append (repeat_string (len - String.length s) fill) s.

(** [x.toFixed(2)]: the closest multiple of 1/100, ties going up in
    magnitude, printed with exactly two decimals. *)
Definition toFixed2 (x : R) : string :=
  let neg := if Rlt_dec x 0 then true else false in
  let n := Int_part (Rabs x * 100 + / 2) in
  let body :=
    append (toString (n / 100))
           (append "." (padStart 2 "0" (toString (n mod 100)))) in
  if neg then append "-" body else body.

Definition newline : string := String (ascii_of_nat 10) EmptyString.

End JS.

(** ** Coordinates and the helpers of the screen *)

(** [LatLng] of react-native-maps: degrees. *)
Record LatLng : Type := mkLatLng { latitude : R; longitude : R }.

(** [Region]: the viewport handed to the map. *)
Record Region : Type := mkRegion {
  rg_latitude : R;
  rg_longitude : R;
  latitudeDelta : R;
  longitudeDelta : R
}.

(** [toRad], the local arrow function of [haversineMeters]. *)
Definition toRad (deg : R) : R := (deg * PI) / 180.

Definition haversineMeters (a b : LatLng) : R :=
  let R0 := 6371000 in
  let dLat := toRad (latitude b - latitude a) in
  let dLon := toRad (longitude b - longitude a) in
  let lat1 := toRad (latitude a) in
  let lat2 := toRad (latitude b) in
  let sinDLat := sin (dLat / 2) in
  let sinDLon := sin (dLon / 2) in
  let c := sinDLat * sinDLat + cos lat1 * cos lat2 * sinDLon * sinDLon in
  let d := 2 * JS.Math_atan2 (JS.Math_sqrt c) (JS.Math_sqrt (1 - c)) in
  R0 * d.

(** The formula as the design document writes it, kept apart from the code
    so that the two can be compared: [a = sin²(Δlat/2) + cos lat1 · cos lat2 ·
    sin²(Δlon/2)], [c = 2 · atan2 (√a, √(1−a))], [distance = R · c]. *)
Module HaversineFormula.
Definition earth_radius : R := 6371000.
Definition radians (deg : R) : R := deg * (PI / 180).
Definition chord (p q : LatLng) : R :=
  (sin ((radians (latitude q) - radians (latitude p)) / 2)) ^ 2
  + cos (radians (latitude p)) * cos (radians (latitude q))
    * (sin ((radians (longitude q) - radians (longitude p)) / 2)) ^ 2.
Definition angle (p q : LatLng) : R :=
  2 * JS.Math_atan2 (sqrt (chord p q)) (sqrt (1 - chord p q)).
Definition distance (p q : LatLng) : R := earth_radius * angle p q.
End HaversineFormula.

Definition formatTime (totalSec : Z) : string :=
  let h := (totalSec / 3600)%Z in
  let m := (Z.rem totalSec 3600 / 60)%Z in
  let s := Z.rem totalSec 60 in
  let hh := JS.padStart 2 "0" (JS.toString h) in
  let mm := JS.padStart 2 "0" (JS.toString m) in
  let ss := JS.padStart 2 "0" (JS.toString s) in
  append hh (append ":" (append mm (append ":" ss))).

Definition formatPace (minPerKm : R) : string :=
  let totalSec := minPerKm * 60 in
  let m := JS.Math_floor (totalSec / 60) in
  let s := JS.Math_round (JS.rem totalSec 60) in
  let mm := JS.padStart 2 "0" (JS.toString m) in
  let ss := JS.padStart 2 "0" (JS.toString s) in
  append mm (append ":" ss).

(** [new Date(ms).toISOString()] for a clock reading in milliseconds since
    the epoch (years 0000 to 9999): the proleptic Gregorian calendar date of
    the day number, then the time of day. *)
Module ISODate.
#[local] Open Scope Z_scope.

Definition civil_from_days (days : Z) : Z * Z * Z :=
  let z := days + 719468 in
  let era := z / 146097 in
  let doe := z - era * 146097 in
  let yoe := (doe - doe / 1460 + doe / 36524 - doe / 146096) / 365 in
  let doy := doe - (365 * yoe + yoe / 4 - yoe / 100) in
  let mp := (5 * doy + 2) / 153 in
  let d := doy - (153 * mp + 2) / 5 + 1 in
  let m := if mp <? 10 then mp + 3 else mp - 9 in
  let y := yoe + era * 400 + (if m <=? 2 then 1 else 0) in
  (y, m, d).

Definition digits (width : nat) (n : Z) : string :=
  JS.padStart width "0" (JS.toString n).

Definition toISOString (ms : Z) : string :=
  let '(y, m, d) := civil_from_days (ms / 86400000) in
  let t := ms mod 86400000 in
  append (digits 4 y) (append "-" (append (digits 2 m) (append "-"
  (append (digits 2 d) (append "T" (append (digits 2 (t / 3600000))
  (append ":" (append (digits 2 (t / 60000 mod 60)) (append ":"
  (append (digits 2 (t / 1000 mod 60)) (append "."
  (append (digits 3 (t mod 1000)) "Z")))))))))))).
End ISODate.

(** ** The state of the tracking screen *)

Inductive TrackerStatus : Type := idle | running | paused.

(** [Run] of the application context. *)
Module Run.
Record t : Type := mk {
  id : string;
  dateISO : string;
  distanceMeters : R;
  durationSec : Z
}.
End Run.

(** Handles handed out by the runtime ([setInterval]) and by expo-location
    ([watchPositionAsync]). *)
Definition Handle : Type := nat.

(** Which handler installed a location callback. *)
Inductive Caller : Type := FromStartRun | FromResumeRun.

(** Where an asynchronous handler is suspended. *)
Inductive Pending : Type :=
| AwaitPermission (who : Caller)
| AwaitPosition
| AwaitWatch (who : Caller).

(** Result of [Location.requestForegroundPermissionsAsync]. *)
Inductive PermissionStatus : Type := granted | denied | undetermined.

Record AlertMessage : Type := mkAlert { title : string; message : string }.

(** The two-button alert of [stopRun]; its handlers close over the values
    the render of [stopRun] saw. *)
Record SaveDialog : Type := mkSaveDialog {
  dlg_summary : string;
  dlg_distanceMeters : R;
  dlg_elapsedSec : Z;
  dlg_routeCoords : list LatLng
}.

(** What [router.push] hands to the summary page (the values, before
    [String] and [JSON.stringify]). *)
Record SummaryParams : Type := mkParams {
  p_distanceMeters : R;
  p_durationSec : Z;
  p_coords : list LatLng
}.

Record Tracker : Type := mkTracker {
  (* useState *)
  status : TrackerStatus;
  routeCoords : list LatLng;
  elapsedSec : Z;
  distanceMeters : R;
  initialRegion : option Region;
  isRequestingPerms : bool;
  (* useRef *)
  watchSubRef : option Handle;
  timerRef : option Handle;
  (* application context *)
  runs : list Run.t;
  (* runtime: open location subscriptions, armed intervals, promises *)
  subscriptions : list (Handle * Caller);
  intervals : list Handle;
  nextHandle : Handle;
  inflight : list Pending;
  (* user interface *)
  alerts : list AlertMessage;
  dialog : option SaveDialog;
  pushed : list SummaryParams;
  mounted : bool
}.

Definition setStatus (v : TrackerStatus) (s : Tracker) : Tracker :=
  mkTracker v (routeCoords s) (elapsedSec s) (distanceMeters s)
    (initialRegion s) (isRequestingPerms s) (watchSubRef s) (timerRef s)
    (runs s) (subscriptions s) (intervals s) (nextHandle s) (inflight s)
    (alerts s) (dialog s) (pushed s) (mounted s).

Definition setRouteCoords (v : list LatLng) (s : Tracker) : Tracker :=
  mkTracker (status s) v (elapsedSec s) (distanceMeters s)
    (initialRegion s) (isRequestingPerms s) (watchSubRef s) (timerRef s)
    (runs s) (subscriptions s) (intervals s) (nextHandle s) (inflight s)
    (alerts s) (dialog s) (pushed s) (mounted s).

Definition setElapsedSec (v : Z) (s : Tracker) : Tracker :=
  mkTracker (status s) (routeCoords s) v (distanceMeters s)
    (initialRegion s) (isRequestingPerms s) (watchSubRef s) (timerRef s)
    (runs s) (subscriptions s) (intervals s) (nextHandle s) (inflight s)
    (alerts s) (dialog s) (pushed s) (mounted s).

Definition setDistanceMeters (v : R) (s : Tracker) : Tracker :=
  mkTracker (status s) (routeCoords s) (elapsedSec s) v
    (initialRegion s) (isRequestingPerms s) (watchSubRef s) (timerRef s)
    (runs s) (subscriptions s) (intervals s) (nextHandle s) (inflight s)
    (alerts s) (dialog s) (pushed s) (mounted s).

Definition setInitialRegion (v : option Region) (s : Tracker) : Tracker :=
  mkTracker (status s) (routeCoords s) (elapsedSec s) (distanceMeters s)
    v (isRequestingPerms s) (watchSubRef s) (timerRef s)
    (runs s) (subscriptions s) (intervals s) (nextHandle s) (inflight s)
    (alerts s) (dialog s) (pushed s) (mounted s).

Definition setIsRequestingPerms (v : bool) (s : Tracker) : Tracker :=
  mkTracker (status s) (routeCoords s) (elapsedSec s) (distanceMeters s)
    (initialRegion s) v (watchSubRef s) (timerRef s)
    (runs s) (subscriptions s) (intervals s) (nextHandle s) (inflight s)
    (alerts s) (dialog s) (pushed s) (mounted s).

Definition setWatchSubRef (v : option Handle) (s : Tracker) : Tracker :=
  mkTracker (status s) (routeCoords s) (elapsedSec s) (distanceMeters s)
    (initialRegion s) (isRequestingPerms s) v (timerRef s)
    (runs s) (subscriptions s) (intervals s) (nextHandle s) (inflight s)
    (alerts s) (dialog s) (pushed s) (mounted s).

Definition setTimerRef (v : option Handle) (s : Tracker) : Tracker :=
  mkTracker (status s) (routeCoords s) (elapsedSec s) (distanceMeters s)
    (initialRegion s) (isRequestingPerms s) (watchSubRef s) v
    (runs s) (subscriptions s) (intervals s) (nextHandle s) (inflight s)
    (alerts s) (dialog s) (pushed s) (mounted s).

Definition setRuns (f : list Run.t -> list Run.t) (s : Tracker) : Tracker :=
  mkTracker (status s) (routeCoords s) (elapsedSec s) (distanceMeters s)
    (initialRegion s) (isRequestingPerms s) (watchSubRef s) (timerRef s)
    (f (runs s)) (subscriptions s) (intervals s) (nextHandle s) (inflight s)
    (alerts s) (dialog s) (pushed s) (mounted s).

Definition setSubscriptions (v : list (Handle * Caller)) (s : Tracker) : Tracker :=
  mkTracker (status s) (routeCoords s) (elapsedSec s) (distanceMeters s)
    (initialRegion s) (isRequestingPerms s) (watchSubRef s) (timerRef s)
    (runs s) v (intervals s) (nextHandle s) (inflight s)
    (alerts s) (dialog s) (pushed s) (mounted s).

Definition setIntervals (v : list Handle) (s : Tracker) : Tracker :=
  mkTracker (status s) (routeCoords s) (elapsedSec s) (distanceMeters s)
    (initialRegion s) (isRequestingPerms s) (watchSubRef s) (timerRef s)
    (runs s) (subscriptions s) v (nextHandle s) (inflight s)
    (alerts s) (dialog s) (pushed s) (mounted s).

Definition setNextHandle (v : Handle) (s : Tracker) : Tracker :=
  mkTracker (status s) (routeCoords s) (elapsedSec s) (distanceMeters s)
    (initialRegion s) (isRequestingPerms s) (watchSubRef s) (timerRef s)
    (runs s) (subscriptions s) (intervals s) v (inflight s)
    (alerts s) (dialog s) (pushed s) (mounted s).

Definition setInflight (v : list Pending) (s : Tracker) : Tracker :=
  mkTracker (status s) (routeCoords s) (elapsedSec s) (distanceMeters s)
    (initialRegion s) (isRequestingPerms s) (watchSubRef s) (timerRef s)
    (runs s) (subscriptions s) (intervals s) (nextHandle s) v
    (alerts s) (dialog s) (pushed s) (mounted s).

Definition showAlert (a : AlertMessage) (s : Tracker) : Tracker :=
  mkTracker (status s) (routeCoords s) (elapsedSec s) (distanceMeters s)
    (initialRegion s) (isRequestingPerms s) (watchSubRef s) (timerRef s)
    (runs s) (subscriptions s) (intervals s) (nextHandle s) (inflight s)
    (a :: alerts s) (dialog s) (pushed s) (mounted s).

Definition setDialog (v : option SaveDialog) (s : Tracker) : Tracker :=
  mkTracker (status s) (routeCoords s) (elapsedSec s) (distanceMeters s)
    (initialRegion s) (isRequestingPerms s) (watchSubRef s) (timerRef s)
    (runs s) (subscriptions s) (intervals s) (nextHandle s) (inflight s)
    (alerts s) v (pushed s) (mounted s).

Definition routerPush (v : SummaryParams) (s : Tracker) : Tracker :=
  mkTracker (status s) (routeCoords s) (elapsedSec s) (distanceMeters s)
    (initialRegion s) (isRequestingPerms s) (watchSubRef s) (timerRef s)
    (runs s) (subscriptions s) (intervals s) (nextHandle s) (inflight s)
    (alerts s) (dialog s) (v :: pushed s) (mounted s).

Definition setMounted (v : bool) (s : Tracker) : Tracker :=
  mkTracker (status s) (routeCoords s) (elapsedSec s) (distanceMeters s)
    (initialRegion s) (isRequestingPerms s) (watchSubRef s) (timerRef s)
    (runs s) (subscriptions s) (intervals s) (nextHandle s) (inflight s)
    (alerts s) (dialog s) (pushed s) v.

(** The screen as first rendered, over the runs the application context
    already holds. *)
Definition initialTracker (stored : list Run.t) : Tracker :=
  mkTracker idle [] 0%Z 0 None false None None stored [] [] O [] [] None []
    true.

(** ** Helpers of the component *)

Definition clearInterval (h : Handle) (s : Tracker) : Tracker :=
  setIntervals (List.remove Nat.eq_dec h (intervals s)) s.

(** [sub.remove()]: the subscription stops delivering positions. *)
Definition removeSubscription (h : Handle) (s : Tracker) : Tracker :=
  setSubscriptions
    (filter (fun p => negb (Nat.eqb (fst p) h)) (subscriptions s)) s.

Definition clearTimer (s : Tracker) : Tracker :=
  match timerRef s with
  | Some h => setTimerRef None (clearInterval h s)
  | None => s
  end.

Definition stopLocationUpdates (s : Tracker) : Tracker :=
  match watchSubRef s with
  | Some h => setWatchSubRef None (removeSubscription h s)
  | None => s
  end.

Definition resetSession (s : Tracker) : Tracker :=
  setInitialRegion None
    (setDistanceMeters 0
      (setElapsedSec 0%Z
        (setRouteCoords []
          (setStatus idle s)))).

(** [setInterval (...)]: a fresh handle, armed from now on. *)
Definition setInterval (s : Tracker) : Handle * Tracker :=
  let h := nextHandle s in
  (h, setNextHandle (S h) (setIntervals (h :: intervals s) s)).

Definition startTimer (s : Tracker) : Tracker :=
  let s1 := clearTimer s in
  let '(h, s2) := setInterval s1 in
  setTimerRef (Some h) s2.

(** The body of the interval: [setElapsedSec (prev => prev + 1)]. *)
Definition onInterval (s : Tracker) : Tracker :=
  setElapsedSec (elapsedSec s + 1)%Z s.

(** [requestLocationPermission], up to its await and from it on. *)
Definition requestLocationPermission_begin (s : Tracker) : Tracker :=
  setIsRequestingPerms true s.

Definition requestLocationPermission_end (p : PermissionStatus) (s : Tracker)
  : bool * Tracker :=
  match p with
  | granted => (true, setIsRequestingPerms false s)
  | _ =>
      (false,
       setIsRequestingPerms false
         (showAlert
            (mkAlert "Permission needed"
               "Location permission is required to track your run.") s))
  end.

Definition requestLocationPermission (p : PermissionStatus) (s : Tracker)
  : bool * Tracker :=
  requestLocationPermission_end p (requestLocationPermission_begin s).

(** The callback [startRun] hands to [watchPositionAsync]: the updater of
    [setRouteCoords], with the nested [setDistanceMeters (d => d + increment)]. *)
Definition startRun_onLocation (coord : LatLng) (s : Tracker) : Tracker :=
  let prev := routeCoords s in
  if Nat.eqb (List.length prev) 0 then setRouteCoords [coord] s
  else
    let last := nth (List.length prev - 1) prev coord in
    let increment := haversineMeters last coord in
    let s1 :=
      if Rlt_dec 0 increment
      then setDistanceMeters (distanceMeters s + increment) s
      else s in
    setRouteCoords (prev ++ [coord]) s1.

(** The callback [resumeRun] hands to [watchPositionAsync]. *)
Definition resumeRun_onLocation (coord : LatLng) (s : Tracker) : Tracker :=
  let prev := routeCoords s in
  if Nat.eqb (List.length prev) 0 then setRouteCoords [coord] s
  else
    let last := nth (List.length prev - 1) prev coord in
    let increment := haversineMeters last coord in
    let s1 :=
      if Rlt_dec 0 increment
      then setDistanceMeters (distanceMeters s + increment) s
      else s in
    setRouteCoords (prev ++ [coord]) s1.

Definition onLocation (who : Caller) : LatLng -> Tracker -> Tracker :=
  match who with
  | FromStartRun => startRun_onLocation
  | FromResumeRun => resumeRun_onLocation
  end.

(** [watchPositionAsync (options, callback)] once it has resolved: a fresh
    subscription delivering to [callback]. *)
Definition watchPositionAsync (who : Caller) (s : Tracker) : Handle * Tracker :=
  let h := nextHandle s in
  (h, setNextHandle (S h) (setSubscriptions ((h, who) :: subscriptions s) s)).

(** ** The handlers, cut at their awaits *)

(** [startRun] between [getCurrentPositionAsync] and [watchPositionAsync]. *)
Definition startRun_positioned (current : LatLng) (s : Tracker) : Tracker :=
  let firstCoord := mkLatLng (latitude current) (longitude current) in
  setInitialRegion
    (Some (mkRegion (latitude firstCoord) (longitude firstCoord) 0.01 0.01))
    (setRouteCoords [firstCoord] s).

(** [startRun] from the resolution of [watchPositionAsync] on. *)
Definition startRun_subscribed (s : Tracker) : Tracker :=
  let '(sub, s1) := watchPositionAsync FromStartRun s in
  startTimer (setStatus running (setWatchSubRef (Some sub) s1)).

(** [resumeRun] from the resolution of [watchPositionAsync] on. *)
Definition resumeRun_subscribed (s : Tracker) : Tracker :=
  let '(sub, s1) := watchPositionAsync FromResumeRun s in
  startTimer (setStatus running (setWatchSubRef (Some sub) s1)).

(** [startRun] run from its first line to its last with nothing else
    scheduled in between. *)
Definition startRun (p : PermissionStatus) (current : LatLng) (s : Tracker)
  : Tracker :=
  let '(ok, s1) := requestLocationPermission p s in
  if negb ok then s1
  else startRun_subscribed (startRun_positioned current s1).

(** [pauseRun]; its only await is on a promise that is already settled. *)
Definition pauseRun (s : Tracker) : Tracker :=
  setStatus paused (clearTimer (stopLocationUpdates s)).

Definition resumeRun (p : PermissionStatus) (s : Tracker) : Tracker :=
  let '(ok, s1) := requestLocationPermission p s in
  if negb ok then s1 else resumeRun_subscribed s1.

Definition hasRoute (s : Tracker) : bool :=
  Nat.ltb 1 (List.length (routeCoords s)).

Definition distanceKm (s : Tracker) : R := distanceMeters s / 1000.

Definition paceMinPerKm (s : Tracker) : R :=
  if Rlt_dec 0 (distanceKm s)
  then IZR (elapsedSec s) / 60 / distanceKm s
  else 0.

Definition formattedTime (s : Tracker) : string := formatTime (elapsedSec s).

Definition formattedPace (s : Tracker) : string :=
  if Rlt_dec 0 (distanceKm s) then formatPace (paceMinPerKm s) else "--:--".

(** The text of the confirmation alert built by [stopRun]. *)
Definition stopRun_summary (s : Tracker) : string :=
  let distanceKm := distanceMeters s / 1000 in
  let pace :=
    if Rlt_dec 0 distanceKm then IZR (elapsedSec s) / 60 / distanceKm else 0 in
  append "Distance: " (append (JS.toFixed2 distanceKm)
  (append " km" (append JS.newline (append "Time: "
  (append (formattedTime s) (append JS.newline (append "Pace: "
  (append (if Rlt_dec 0 distanceKm then formatPace pace else "--:--")
  " /km")))))))).

Definition stopRun (s : Tracker) : Tracker :=
  match status s with
  | idle => resetSession s
  | _ =>
      let s1 := clearTimer (stopLocationUpdates s) in
      if orb (negb (hasRoute s)) (if Rlt_dec (distanceMeters s) 10 then true else false)
      then
        resetSession
          (showAlert
             (mkAlert "Run too short"
                "We need a bit more distance to save this run.") s1)
      else
        setDialog
          (Some (mkSaveDialog (stopRun_summary s) (distanceMeters s)
                   (elapsedSec s) (routeCoords s))) s1
  end.

(** [onPress] of the Discard button. *)
Definition onDiscard (s : Tracker) : Tracker :=
  resetSession (setDialog None s).

(** [onPress] of the Save button; [nowId] is what [Date.now ()] returns and
    [nowDate] the instant of [new Date ()]. *)
Definition onSave (nowId nowDate : Z) (d : SaveDialog) (s : Tracker) : Tracker :=
  let newRun :=
    Run.mk (JS.toString nowId) (ISODate.toISOString nowDate)
      (dlg_distanceMeters d) (dlg_elapsedSec d) in
  let s1 := setRuns (fun prev => newRun :: prev) (setDialog None s) in
  let coords := dlg_routeCoords d in
  let s2 := resetSession s1 in
  routerPush (mkParams (dlg_distanceMeters d) (dlg_elapsedSec d) coords) s2.

(** The cleanup of the unmount effect. *)
Definition unmount (s : Tracker) : Tracker :=
  setMounted false (clearTimer (stopLocationUpdates s)).

(** ** The event loop *)

(** Which buttons the render shows and enables; the confirmation alert of
    [stopRun] is modal. *)
Definition noDialog (s : Tracker) : bool :=
  match dialog s with None => true | Some _ => false end.

Definition canStart (s : Tracker) : bool :=
  mounted s && noDialog s && negb (isRequestingPerms s)
  && match status s with idle => true | _ => false end.

Definition canPause (s : Tracker) : bool :=
  mounted s && noDialog s
  && match status s with running => true | _ => false end.

Definition canResume (s : Tracker) : bool :=
  mounted s && noDialog s
  && match status s with paused => true | _ => false end.

Definition canStop (s : Tracker) : bool :=
  mounted s && noDialog s
  && match status s with idle => false | _ => true end.

(** What the event loop can deliver to the screen.  A promise is named by
    its position among those in flight. *)
Inductive Event : Type :=
| PressStart
| PressPause
| PressResume
| PressStop
| PressSave (nowId nowDate : Z)
| PressDiscard
| PermissionResult (task : nat) (p : PermissionStatus)
| PositionResult (task : nat) (current : LatLng)
| WatchResult (task : nat)
| LocationUpdate (sub : Handle) (coord : LatLng)
| Tick
| Unmount.

Fixpoint remove_nth {A : Type} (i : nat) (l : list A) : list A :=
  match l, i with
  | [], _ => []
  | _ :: tl, O => tl
  | x :: tl, S k => x :: remove_nth k tl
  end.

Fixpoint replace_nth {A : Type} (i : nat) (v : A) (l : list A) : list A :=
  match l, i with
  | [], _ => []
  | _ :: tl, O => v :: tl
  | x :: tl, S k => x :: replace_nth k v tl
  end.

Definition spawn (t : Pending) (s : Tracker) : Tracker :=
  setInflight (inflight s ++ [t]) s.

Definition subscriber (h : Handle) (s : Tracker) : option Caller :=
  match find (fun p => Nat.eqb (fst p) h) (subscriptions s) with
  | Some (_, who) => Some who
  | None => None
  end.

(** One second of wall-clock time: every armed interval fires once. *)
Definition tick (s : Tracker) : Tracker :=
  fold_right (fun _ acc => onInterval acc) s (intervals s).

Definition step (e : Event) (s : Tracker) : Tracker :=
  match e with
  | PressStart =>
      if canStart s
      then spawn (AwaitPermission FromStartRun)
             (requestLocationPermission_begin s)
      else s
  | PressPause => if canPause s then pauseRun s else s
  | PressResume =>
      if canResume s
      then spawn (AwaitPermission FromResumeRun)
             (requestLocationPermission_begin s)
      else s
  | PressStop => if canStop s then stopRun s else s
  | PressSave nowId nowDate =>
      match dialog s with
      | Some d => onSave nowId nowDate d s
      | None => s
      end
  | PressDiscard =>
      match dialog s with
      | Some _ => onDiscard s
      | None => s
      end
  | PermissionResult i p =>
      match nth_error (inflight s) i with
      | Some (AwaitPermission who) =>
          let '(ok, s1) := requestLocationPermission_end p s in
          if negb ok then setInflight (remove_nth i (inflight s1)) s1
          else
            match who with
            | FromStartRun =>
                setInflight (replace_nth i AwaitPosition (inflight s1)) s1
            | FromResumeRun =>
                setInflight
                  (replace_nth i (AwaitWatch FromResumeRun) (inflight s1)) s1
            end
      | _ => s
      end
  | PositionResult i current =>
      match nth_error (inflight s) i with
      | Some AwaitPosition =>
          let s1 := startRun_positioned current s in
          setInflight
            (replace_nth i (AwaitWatch FromStartRun) (inflight s1)) s1
      | _ => s
      end
  | WatchResult i =>
      match nth_error (inflight s) i with
      | Some (AwaitWatch who) =>
          let s1 := setInflight (remove_nth i (inflight s)) s in
          match who with
          | FromStartRun => startRun_subscribed s1
          | FromResumeRun => resumeRun_subscribed s1
          end
      | _ => s
      end
  | LocationUpdate h coord =>
      match subscriber h s with
      | Some who => onLocation who coord s
      | None => s
      end
  | Tick => tick s
  | Unmount => if mounted s then unmount s else s
  end.

Definition run (es : list Event) (s : Tracker) : Tracker :=
  fold_left (fun acc e => step e acc) es s.

(** ** Handlers run to completion *)

(** The same screen when every handler finishes before the next event is
    delivered. *)
Inductive Action : Type :=
| DoStart (p : PermissionStatus) (current : LatLng)
| DoPause
| DoResume (p : PermissionStatus)
| DoStop
| DoSave (nowId nowDate : Z)
| DoDiscard
| DoLocation (sub : Handle) (coord : LatLng)
| DoTick
| DoUnmount.

Definition act (a : Action) (s : Tracker) : Tracker :=
  match a with
  | DoStart p current => if canStart s then startRun p current s else s
  | DoPause => if canPause s then pauseRun s else s
  | DoResume p => if canResume s then resumeRun p s else s
  | DoStop => if canStop s then stopRun s else s
  | DoSave nowId nowDate => step (PressSave nowId nowDate) s
  | DoDiscard => step PressDiscard s
  | DoLocation h coord => step (LocationUpdate h coord) s
  | DoTick => tick s
  | DoUnmount => step Unmount s
  end.

Definition perform (l : list Action) (s : Tracker) : Tracker :=
  fold_left (fun acc a => act a acc) l s.

(** The events a completed handler stands for. *)
Definition events_of (a : Action) : list Event :=
  match a with
  | DoStart p current =>
      [PressStart; PermissionResult 0 p; PositionResult 0 current;
       WatchResult 0]
  | DoPause => [PressPause]
  | DoResume p => [PressResume; PermissionResult 0 p; WatchResult 0]
  | DoStop => [PressStop]
  | DoSave nowId nowDate => [PressSave nowId nowDate]
  | DoDiscard => [PressDiscard]
  | DoLocation h coord => [LocationUpdate h coord]
  | DoTick => [Tick]
  | DoUnmount => [Unmount]
  end.

(** The distances after each callback of a sequence of sampled positions,
    each delivered by the callback of one of the two handlers. *)
Fixpoint distances_along (cs : list (Caller * LatLng)) (s : Tracker)
  : list R :=
  match cs with
  | [] => []
  | (who, c) :: tl =>
      let s1 := onLocation who c s in
      distanceMeters s1 :: distances_along tl s1
  end.

Fixpoint nondecreasing_from (d : R) (l : list R) : Prop :=
  match l with
  | [] => True
  | x :: tl => d <= x /\ nondecreasing_from x tl
  end.

(** The quantity under the square roots of [haversineMeters], as the code
    computes it. *)
Definition haversine_chord (a b : LatLng) : R :=
  let sinDLat := sin (toRad (latitude b - latitude a) / 2) in
  let sinDLon := sin (toRad (longitude b - longitude a) / 2) in
  sinDLat * sinDLat
  + cos (toRad (latitude a)) * cos (toRad (latitude b)) * sinDLon * sinDLon.

(** Two digits, as [formatPace] and [formatTime] print a field. *)
Definition two_digits (n : Z) : string := JS.padStart 2 "0" (JS.toString n).

(** What holds between two handlers when each runs to completion: the
    refs name exactly the live subscription and the armed interval, and both
    are empty unless the session is running with no alert pending. *)
Definition handle_list (r : option Handle) : list Handle :=
  match r with Some h => [h] | None => [] end.

Record settled (s : Tracker) : Prop := mkSettled {
  settled_subscriptions :
    map fst (subscriptions s) = handle_list (watchSubRef s);
  settled_intervals : intervals s = handle_list (timerRef s);
  settled_watch_running : watchSubRef s <> None -> status s = running;
  settled_timer_running : timerRef s <> None -> status s = running;
  settled_dialog : dialog s <> None -> watchSubRef s = None /\ timerRef s = None
}.

Definition origin : LatLng := mkLatLng 0 0.

(** Start, ten seconds, pause, five seconds, resume, five seconds. *)
Definition pause_scenario : list Action :=
  [DoStart granted origin]
  ++ repeat DoTick 10 ++ [DoPause] ++ repeat DoTick 5
  ++ [DoResume granted] ++ repeat DoTick 5.

(** Resume pressed twice before the first press has got its subscription. *)
Definition double_resume : list Event :=
  [PressStart; PermissionResult 0 granted; PositionResult 0 origin;
   WatchResult 0; PressPause;
   PressResume; PressResume;
   PermissionResult 0 granted; PermissionResult 1 granted;
   WatchResult 0; WatchResult 0].

(** A session about to be stopped. *)
Definition session (st : TrackerStatus) (route : list LatLng) (elapsed : Z)
    (dist : R) (stored : list Run.t) : Tracker :=
  mkTracker st route elapsed dist None false None None stored [] [] O [] []
    None [] true.

(** A running session of two points and nine metres. *)
Definition short_session : Tracker :=
  mkTracker running [mkLatLng 0 0; mkLatLng 0 0.00008] 42%Z 9 None false
    (Some 0%nat) (Some 1%nat) [] [(0%nat, FromStartRun)] [1%nat] 2%nat [] []
    None [] true.

(** What an aborted start or resume must leave as it was. *)
Definition session_untouched (s s' : Tracker) : Prop :=
  status s' = status s
  /\ routeCoords s' = routeCoords s
  /\ distanceMeters s' = distanceMeters s
  /\ elapsedSec s' = elapsedSec s
  /\ subscriptions s' = subscriptions s
  /\ intervals s' = intervals s
  /\ watchSubRef s' = watchSubRef s
  /\ timerRef s' = timerRef s
  /\ nextHandle s' = nextHandle s.

(** The record [onSave] builds for a session at given clock readings. *)
Definition saved_run (nowId nowDate : Z) (s : Tracker) : Run.t :=
  Run.mk (JS.toString nowId) (ISODate.toISOString nowDate)
    (distanceMeters s) (elapsedSec s).

(** Stop, then Save in the alert. *)
Definition stop_and_save (nowId nowDate : Z) : list Event :=
  [PressStop; PressSave nowId nowDate].

(** A paused session of 1500 metres in ten minutes. *)
Definition ten_minute_session : Tracker :=
  session paused [origin; mkLatLng 0 0.0135] 600%Z 1500 [].

(** The text of the alert for that session. *)
Definition ten_minute_summary : string :=
  append "Distance: 1.50 km" (append JS.newline
  (append "Time: 00:10:00" (append JS.newline "Pace: 06:40 /km"))).

Definition one_degree_east : LatLng := mkLatLng 0 1.

(** A whole run with a single sampled position, saved at clock reading [t];
    [sub] is the handle its subscription gets. *)
Definition one_fix_run (sub : Handle) (t : Z) : list Event :=
  [PressStart; PermissionResult 0 granted; PositionResult 0 origin;
   WatchResult 0; LocationUpdate sub one_degree_east;
   PressStop; PressSave t t].

(** Two runs saved while the clock reads the same millisecond. *)
Definition two_saves_same_clock : list Event :=
  one_fix_run 0%nat 1700000000000%Z ++ one_fix_run 2%nat 1700000000000%Z.

(** The screen between two runs, and during a run started at [origin]
    whose subscription is [sub]. *)
Definition idle_screen (next : Handle) (stored : list Run.t)
    (pu : list SummaryParams) : Tracker :=
  mkTracker idle [] 0%Z 0 None false None None stored [] [] next [] []
    None pu true.

Definition running_screen (route : list LatLng) (dist : R) (sub : Handle)
    (stored : list Run.t) (pu : list SummaryParams) : Tracker :=
  mkTracker running route 0%Z dist (Some (mkRegion 0 0 0.01 0.01)) false
    (Some sub) (Some (S sub)) stored [(sub, FromStartRun)] [S sub]
    (S (S sub)) [] [] None pu true.

(** Resume is still waiting for its permission when Stop is pressed: the
    permission and the subscription arrive while the confirmation alert is
    open, and the run is then saved at clock reading [t]. *)
Definition stop_during_resume (t : Z) : list Event :=
  [PressStart; PermissionResult 0 granted; PositionResult 0 origin;
   WatchResult 0; LocationUpdate 0%nat one_degree_east;
   PressPause; PressResume; PressStop;
   PermissionResult 0 granted; WatchResult 0; PressSave t t].

(** The screen once Pause has closed the subscription and the interval of
    a run started at [origin]. *)
Definition paused_screen (route : list LatLng) (dist : R) (next : Handle)
    (stored : list Run.t) (pu : list SummaryParams) : Tracker :=
  mkTracker paused route 0%Z dist (Some (mkRegion 0 0 0.01 0.01)) false
    None None stored [] [] next [] [] None pu true.

(** Discharges the clauses of [settled] on an explicit state. *)
Ltac settle :=
  constructor; cbn; intros; try reflexivity; try discriminate;
  try congruence; try (split; reflexivity).

(** ** Further notions used by the properties of the screen *)

From Stdlib Require Import Permutation Sorted.

(** Length of the polyline through the recorded points, leg by leg. *)
Fixpoint polyline_length (route : list LatLng) : R :=
  match route with
  | a :: ((b :: _) as tl) => haversineMeters a b + polyline_length tl
  | _ => 0
  end.

(** What the odometer of a session must satisfy between two handlers. *)
Record measured (s : Tracker) : Prop := mkMeasured {
  measured_settled : settled s;
  measured_distance : distanceMeters s = polyline_length (routeCoords s);
  measured_idle : status s = idle -> routeCoords s = []
}.

(** The interval armed by [startTimer] is the one [timerRef] names. *)
Definition timer_tracked (s : Tracker) : Prop :=
  intervals s = handle_list (timerRef s).

(** How many times Save is pressed in a sequence of events. *)
Fixpoint count_saves (es : list Event) : nat :=
  match es with
  | [] => O
  | PressSave _ _ :: tl => S (count_saves tl)
  | _ :: tl => count_saves tl
  end.

(** Start at [origin], then one position a degree further east. *)
Definition one_fix_actions : list Action :=
  [DoStart granted origin; DoLocation 0%nat one_degree_east].

(** The screen after its unmount cleanup, with nothing left running. *)
Record torn_down (s : Tracker) : Prop := mkTornDown {
  torn_unmounted : mounted s = false;
  torn_subscriptions : subscriptions s = [];
  torn_intervals : intervals s = [];
  torn_watch : watchSubRef s = None;
  torn_timer : timerRef s = None
}.

(** Stop, then Discard in the alert. *)
Definition stop_and_discard : list Event := [PressStop; PressDiscard].

(** Pause, then Resume with the permission granted. *)
Definition pause_and_resume : list Action := [DoPause; DoResume granted].

(** What every schedule keeps true of the alert, the clock and the stored
    runs: a pending alert holds a run that passed the minimum-distance
    check, the elapsed time is not negative, and every stored run either was
    there from the start or passed the check. *)
Record sound (stored : list Run.t) (s : Tracker) : Prop := mkSound {
  sound_dialog :
    forall d : SaveDialog, dialog s = Some d ->
      10 <= dlg_distanceMeters d
      /\ (2 <= List.length (dlg_routeCoords d))%nat
      /\ (0 <= dlg_elapsedSec d)%Z;
  sound_elapsed : (0 <= elapsedSec s)%Z;
  sound_runs :
    forall r : Run.t, In r (runs s) ->
      In r stored \/ (10 <= Run.distanceMeters r /\ (0 <= Run.durationSec r)%Z)
}.

(** While a session is under way the route holds at least its first point. *)
Definition route_started (s : Tracker) : Prop :=
  status s <> idle -> routeCoords s <> [].

(** ** The summary page, [app/run-summary.tsx] *)

Module RunSummary.

(** The four running extremes of the loops over the coordinates. *)
Record Extent : Type := mkExtent {
  minLat : R;
  maxLat : R;
  minLng : R;
  maxLng : R
}.

(** One turn of [for (const c of coords)] with its four tests. *)
Definition widen (e : Extent) (c : LatLng) : Extent :=
  let minLat1 := if Rlt_dec (latitude c) (minLat e) then latitude c else minLat e in
  let maxLat1 := if Rgt_dec (latitude c) (maxLat e) then latitude c else maxLat e in
  let minLng1 := if Rlt_dec (longitude c) (minLng e) then longitude c else minLng e in
  let maxLng1 := if Rgt_dec (longitude c) (maxLng e) then longitude c else maxLng e in
  mkExtent minLat1 maxLat1 minLng1 maxLng1.

(** The extremes after the loop; reading [coords[0]] of an empty array
    throws, which is [None] here. *)
Definition extent (coords : list LatLng) : option Extent :=
  match coords with
  | [] => None
  | c0 :: _ =>
      Some (fold_left widen coords
              (mkExtent (latitude c0) (latitude c0)
                        (longitude c0) (longitude c0)))
  end.

Definition computeRegionFromCoords (coords : list LatLng) : option Region :=
  match extent coords with
  | None => None
  | Some e =>
      let latitude := (minLat e + maxLat e) / 2 in
      let longitude := (minLng e + maxLng e) / 2 in
      let latDelta := Rmax (maxLat e - minLat e) 0.01 * 1.4 in
      let lngDelta := Rmax (maxLng e - minLng e) 0.01 * 1.4 in
      Some (mkRegion latitude longitude latDelta lngDelta)
  end.

(** [x || fallback] on numbers: the fallback replaces zero. *)
Definition or_else (x fallback : R) : R :=
  if Req_dec_T x 0 then fallback else x.

(** The [points] of [buildSvgPath]: the coordinates scaled into the square
    of side 100 with a padding of 8, north up. *)
Definition svg_points (coords : list LatLng) : option (list (R * R)) :=
  match extent coords with
  | None => None
  | Some e =>
      let latRange := or_else (maxLat e - minLat e) 0.0001 in
      let lngRange := or_else (maxLng e - minLng e) 0.0001 in
      let padding := 8 in
      let size := 100 - padding * 2 in
      Some (map (fun c =>
                   let normX := (longitude c - minLng e) / lngRange in
                   let normY := (latitude c - minLat e) / latRange in
                   let x := padding + normX * size in
                   let y := padding + (1 - normY) * size in
                   (x, y)) coords)
  end.

(** The segments of the path, [M x y] for the first point and [L x y] for
    the others; [show] prints a number. *)
Fixpoint svg_segments (show : R -> string) (first : bool)
    (points : list (R * R)) : list string :=
  match points with
  | [] => []
  | (x, y) :: tl =>
      append (if first then "M" else "L")
        (append " " (append (show x) (append " " (show y))))
      :: svg_segments show false tl
  end.

(** [buildSvgPath]: the segments joined by single spaces. *)
Definition buildSvgPath (show : R -> string) (coords : list LatLng)
  : option string :=
  match svg_points coords with
  | None => None
  | Some points => Some (String.concat " " (svg_segments show true points))
  end.

(** [formatTime] and [formatPace] as the summary page declares them. *)
Definition formatTime (totalSec : Z) : string :=
  let h := (totalSec / 3600)%Z in
  let m := (Z.rem totalSec 3600 / 60)%Z in
  let s := Z.rem totalSec 60 in
  let hh := JS.padStart 2 "0" (JS.toString h) in
  let mm := JS.padStart 2 "0" (JS.toString m) in
  let ss := JS.padStart 2 "0" (JS.toString s) in
  append hh (append ":" (append mm (append ":" ss))).

Definition formatPace (minPerKm : R) : string :=
  let totalSec := minPerKm * 60 in
  let m := JS.Math_floor (totalSec / 60) in
  let s := JS.Math_round (JS.rem totalSec 60) in
  let mm := JS.padStart 2 "0" (JS.toString m) in
  let ss := JS.padStart 2 "0" (JS.toString s) in
  append mm (append ":" ss).

(** What [RunSummaryScreen] derives from the parameters of the route. *)
Definition distanceKm (p : SummaryParams) : R := p_distanceMeters p / 1000.

Definition paceMinPerKm (p : SummaryParams) : R :=
  if Rlt_dec 0 (distanceKm p)
  then IZR (p_durationSec p) / 60 / distanceKm p
  else 0.

Definition formattedTime (p : SummaryParams) : string :=
  formatTime (p_durationSec p).

Definition formattedDistance (p : SummaryParams) : string :=
  JS.toFixed2 (distanceKm p).

Definition formattedPace (p : SummaryParams) : string :=
  if Rlt_dec 0 (distanceKm p) then formatPace (paceMinPerKm p) else "--:--".

Definition hasRoute (p : SummaryParams) : bool :=
  Nat.ltb 1 (List.length (p_coords p)).

Definition region (p : SummaryParams) : option Region :=
  match p_coords p with
  | [] => None
  | _ :: _ => computeRegionFromCoords (p_coords p)
  end.

End RunSummary.

(** ** The run utilities and the calorie estimate *)

Module RunUtils.

(** [haversineMeters] as the utility module declares it. *)
Definition haversineMeters (a b : LatLng) : R :=
  let R0 := 6371 * 10 ^ 3 in
  let dLat := toRad (latitude b - latitude a) in
  let dLon := toRad (longitude b - longitude a) in
  let lat1 := toRad (latitude a) in
  let lat2 := toRad (latitude b) in
  let sinDLat := sin (dLat / 2) in
  let sinDLon := sin (dLon / 2) in
  let aHarv := sinDLat * sinDLat + cos lat1 * cos lat2 * sinDLon * sinDLon in
  let c := 2 * JS.Math_atan2 (JS.Math_sqrt aHarv) (JS.Math_sqrt (1 - aHarv)) in
  R0 * c.

Definition metersToKm (m : R) : R := m / 1000.

Record Pace : Type := mkPace { min : Z; sec : Z }.

Definition paceMinPerKm (seconds meters : R) : Pace :=
  if Rle_dec meters 0 then mkPace 0 0
  else
    let secPerKm := seconds / metersToKm meters in
    let min := JS.Math_floor (secPerKm / 60) in
    let sec := JS.Math_round (JS.rem secPerKm 60) in
    mkPace min sec.

End RunUtils.

(** The MET of a speed in km/h, the chain of tests of
    [estimateRunCalories]. *)
Definition MET_of_speed (speedKmh : R) : R :=
  if Rlt_dec speedKmh 6 then 4.0
  else if Rlt_dec speedKmh 9 then 7.5
  else if Rlt_dec speedKmh 12 then 9.8
  else if Rlt_dec speedKmh 15 then 11.0
  else 12.5.

Definition estimateRunCalories (weightKg distanceMeters durationSec : R) : Z :=
  if Rle_dec durationSec 0 then 0%Z
  else if Rle_dec distanceMeters 0 then 0%Z
  else if Rle_dec weightKg 0 then 0%Z
  else
    let speedKmh := (distanceMeters / 1000) / (durationSec / 3600) in
    let MET := MET_of_speed speedKmh in
    let hours := durationSec / 3600 in
    JS.Math_round (MET * weightKg * hours).

(** ** Achievements and streaks *)

(** [utils/achievements.ts]: the table of badges and their rules.  Its
    [Run] is the application's record without the id, which no rule reads. *)
Module Badges.

Record StatsShape : Type := mkStats { weeklyStreak : Z }.

Record Achievement : Type := mkAchievement {
  id : string;
  icon : string;
  color : string;
  rule : StatsShape -> list Run.t -> bool
}.

(** [runs.some (r => r.distanceMeters >= bound)]. *)
Definition some_run_at_least (bound : R) (runs : list Run.t) : bool :=
  existsb (fun r => if Rge_dec (Run.distanceMeters r) bound then true else false)
    runs.

Definition ACHIEVEMENTS : list Achievement :=
  [ mkAchievement "first_run" "trophy" "#22D3EE"
      (fun _ runs => Nat.leb 1 (List.length runs));
    mkAchievement "streak_5" "flame" "#FB923C"
      (fun stats _ => Z.geb (weeklyStreak stats) 5);
    mkAchievement "distance_5k" "walk" "#34D399"
      (fun _ runs => some_run_at_least 5000 runs);
    mkAchievement "distance_10k" "walk" "#A78BFA"
      (fun _ runs => some_run_at_least 10000 runs) ].

(** Whether the badge called [name] is unlocked. *)
Definition unlocked (name : string) (stats : StatsShape) (runs : list Run.t)
  : bool :=
  existsb (fun a => String.eqb (id a) name && rule a stats runs) ACHIEVEMENTS.

End Badges.

(** [context/AppContext.tsx] and the home tab.  The calendar arithmetic of
    [Date] is taken as given: [dayKey i] is the key [YYYY-MM-DD] of the day
    [i] days before today, and [getTime] reads the instant of an ISO date. *)
Module AppContext.

Inductive AchievementId : Type :=
| first_run | first_5k | ten_k_total | streak_3 | streak_7.

Record Achievement : Type := mkAchievement {
  id : AchievementId;
  title : string;
  description : string;
  unlocked : bool;
  unlockedAt : option string
}.

(** [(r.dateISO ?? "").slice (0, 10)]. *)
Definition run_day (r : Run.t) : string := substring 0 10 (Run.dateISO r).

(** [days.has (key)] on the set built from a list. *)
Definition has_day (days : list string) (key : string) : bool :=
  existsb (String.eqb key) days.

Section Calendar.

Variable dayKey : nat -> string.
Variable getTime : string -> Z.

(** One turn of the loop of [computeLongestStreak] on [(longest, current)]. *)
Definition streak_turn (days : list string) (st : nat * nat) (i : nat)
  : nat * nat :=
  let '(longest, current) := st in
  if has_day days (dayKey i) then
    let current1 := S current in
    (if Nat.ltb longest current1 then current1 else longest, current1)
  else
    (if Nat.ltb longest current then current else longest, O).

Definition computeLongestStreak (runs : list Run.t) : nat :=
  match runs with
  | [] => O
  | _ :: _ =>
      let days := map run_day runs in
      fst (fold_left (streak_turn days) (seq 0 365) (O, O))
  end.

(** [[...runs].sort ((a, b) => time a - time b)]: ascending, runs of equal
    time in their original order. *)
Fixpoint insert_by_time (r : Run.t) (l : list Run.t) : list Run.t :=
  match l with
  | [] => [r]
  | x :: tl =>
      if Z.leb (getTime (Run.dateISO r)) (getTime (Run.dateISO x))
      then r :: l
      else x :: insert_by_time r tl
  end.

Definition sort_by_time (runs : list Run.t) : list Run.t :=
  fold_right insert_by_time [] runs.

Definition at_least (bound : R) (x : R) : bool :=
  if Rge_dec x bound then true else false.

Definition computeAchievements (runs : list Run.t) : list Achievement :=
  let sortedRuns := sort_by_time runs in
  let totalDistanceMeters :=
    fold_left (fun sum r => sum + Run.distanceMeters r) sortedRuns 0 in
  let firstRun := hd_error sortedRuns in
  let first5kRun :=
    find (fun r => at_least 5000 (Run.distanceMeters r)) sortedRuns in
  let tenKTotalUnlocked := at_least 10000 totalDistanceMeters in
  let longestStreak := computeLongestStreak sortedRuns in
  let isSome (o : option Run.t) :=
    match o with Some _ => true | None => false end in
  let lastDate (flag : bool) :=
    if flag && Nat.ltb 0 (List.length sortedRuns)
    then option_map Run.dateISO
           (nth_error sortedRuns (List.length sortedRuns - 1))
    else None in
  [ mkAchievement first_run "First Run Logged"
      "Track your very first run with FitSocial."
      (isSome firstRun) (option_map Run.dateISO firstRun);
    mkAchievement first_5k "First 5K"
      "Complete a single run of at least 5 km."
      (isSome first5kRun) (option_map Run.dateISO first5kRun);
    mkAchievement ten_k_total "10 km Total"
      "Accumulate at least 10 km across all runs."
      tenKTotalUnlocked (lastDate tenKTotalUnlocked);
    mkAchievement streak_3 "3-Day Streak" "Run on 3 days in a row."
      (Nat.leb 3 longestStreak) (lastDate (Nat.leb 3 longestStreak));
    mkAchievement streak_7 "7-Day Streak" "Run on 7 days in a row."
      (Nat.leb 7 longestStreak) (lastDate (Nat.leb 7 longestStreak)) ].

End Calendar.

(** Whether a run was logged on the day [i] days before today. *)
Definition ran_on (dayKey : nat -> string) (runs : list Run.t) (i : nat)
  : Prop :=
  In (dayKey i) (map run_day runs).

(** The achievement with a given id in a list. *)
Definition lookup (i : AchievementId) (l : list Achievement)
  : option Achievement :=
  find (fun a =>
          match id a, i with
          | first_run, first_run | first_5k, first_5k
          | ten_k_total, ten_k_total | streak_3, streak_3
          | streak_7, streak_7 => true
          | _, _ => false
          end) l.

End AppContext.

(** Positions [start .. start + k - 1] of a list of booleans all hold. *)
Definition all_true_block (bs : list bool) (start k : nat) : Prop :=
  (start + k <= List.length bs)%nat
  /\ forall j : nat, (j < k)%nat -> nth (start + j) bs false = true.

(** The loop of [computeLongestStreak] on the list of the tests. *)
Definition turn_on_bool (st : nat * nat) (b : bool) : nat * nat :=
  let '(longest, current) := st in
  if b then
    (if Nat.ltb longest (S current) then S current else longest, S current)
  else (if Nat.ltb longest current then current else longest, O).

(** What [(longest, current)] mean after the tests [bs]. *)
Record streak_state (bs : list bool) (st : nat * nat) : Prop := mkStreakState {
  current_is_suffix : all_true_block bs (List.length bs - snd st) (snd st)
                      /\ (snd st <= List.length bs)%nat;
  current_is_maximal :
    forall k : nat, (k <= List.length bs)%nat ->
      all_true_block bs (List.length bs - k) k -> (k <= snd st)%nat;
  longest_is_reached : exists start : nat, all_true_block bs start (fst st);
  longest_is_maximal :
    forall start k : nat, all_true_block bs start k -> (k <= fst st)%nat
}.

(** The sum of the distances of a list of runs. *)
Definition total_distance (runs : list Run.t) : R :=
  fold_right (fun r acc => Run.distanceMeters r + acc) 0 runs.

(** Ascending order of the instants read off the dates. *)
Definition by_time (getTime : string -> Z) (a b : Run.t) : Prop :=
  (getTime (Run.dateISO a) <= getTime (Run.dateISO b))%Z.

(** The home tab, [app/(tabs)/home.tsx]: the runs logged today and the
    current streak.  [dayKey] is as in [AppContext]. *)
Module HomeTab.

Definition dailyWorkoutsSafe (todayKey : string) (runs : list Run.t) : nat :=
  List.length (filter (fun r => String.prefix todayKey (Run.dateISO r)) runs).

(** The loop of [weeklyStreakSafe], with its [break]. *)
Fixpoint streak_loop (dayKey : nat -> string) (days : list string)
    (indices : list nat) (streak : nat) : nat :=
  match indices with
  | [] => streak
  | i :: tl =>
      if AppContext.has_day days (dayKey i)
      then streak_loop dayKey days tl (S streak)
      else streak
  end.

Definition weeklyStreakSafe (dayKey : nat -> string) (runs : list Run.t)
  : nat :=
  match runs with
  | [] => O
  | _ :: _ => streak_loop dayKey (map AppContext.run_day runs) (seq 0 365) O
  end.

End HomeTab.

(** * Properties *)

(** ** Printing *)

Example formatTime_ten_minutes : formatTime 600 = "00:10:00"%string.
Proof. reflexivity. Qed.

Example formatTime_long : formatTime 45296 = "12:34:56"%string.
Proof. reflexivity. Qed.

Example toISOString_epoch :
  ISODate.toISOString 0 = "1970-01-01T00:00:00.000Z"%string.
Proof. reflexivity. Qed.

Example toISOString_leap_day :
  ISODate.toISOString 951782400123 = "2000-02-29T00:00:00.123Z"%string.
Proof. reflexivity. Qed.

(** ** Real-number toolbox *)

Lemma Int_part_unique (r : R) (z : Z) :
  IZR z <= r < IZR z + 1 -> Int_part r = z.
Proof. intros H. symmetry. apply Int_part_spec. lra. Qed.

Lemma PI_bounds : 3.135 < PI < 3.1422.
Proof.
  pose proof (PI_2_3_7_ineq 1) as [Hlo Hhi].
  unfold sum_f_R0, tg_alt, PI_2_3_7_tg, Ratan_seq in Hlo, Hhi.
  simpl in Hlo, Hhi.
  split; lra.
Qed.

Lemma atan2_first_quadrant (y x : R) :
  0 < x -> JS.Math_atan2 y x = atan (y / x).
Proof.
  intros Hx. unfold JS.Math_atan2.
  destruct (Rlt_dec 0 x) as [_ | Hn]; [reflexivity | contradiction].
Qed.

Lemma atan2_sin_cos (x : R) :
  0 <= x < PI / 2 ->
  JS.Math_atan2 (JS.Math_sqrt (sin x * sin x))
                (JS.Math_sqrt (1 - sin x * sin x)) = x.
Proof.
  intros [H0 H1]. unfold JS.Math_sqrt.
  assert (Hc : 0 < cos x) by (apply cos_gt_0; lra).
  assert (Hs : 0 <= sin x) by (apply sin_ge_0; lra).
  replace (1 - sin x * sin x) with (cos x * cos x).
  2:{ pose proof (sin2_cos2 x) as E. unfold Rsqr in E. lra. }
  rewrite !sqrt_square by lra.
  rewrite atan2_first_quadrant by assumption.
  change (sin x / cos x) with (tan x).
  apply atan_tan. lra.
Qed.

Lemma haversineMeters_chord (a b : LatLng) :
  haversineMeters a b =
  6371000 * (2 * JS.Math_atan2 (JS.Math_sqrt (haversine_chord a b))
                               (JS.Math_sqrt (1 - haversine_chord a b))).
Proof. reflexivity. Qed.

Lemma sin_half_swap (u v : R) :
  sin (toRad (u - v) / 2) * sin (toRad (u - v) / 2) =
  sin (toRad (v - u) / 2) * sin (toRad (v - u) / 2).
Proof.
  replace (toRad (u - v) / 2) with (- (toRad (v - u) / 2))
    by (unfold toRad; field).
  rewrite sin_neg. ring.
Qed.

Lemma haversine_chord_sym (a b : LatLng) :
  haversine_chord a b = haversine_chord b a.
Proof.
  unfold haversine_chord; cbv zeta.
  rewrite (sin_half_swap (latitude b) (latitude a)).
  rewrite !Rmult_assoc.
  rewrite (sin_half_swap (longitude b) (longitude a)).
  ring.
Qed.

Lemma haversine_chord_formula (a b : LatLng) :
  haversine_chord a b = HaversineFormula.chord a b.
Proof.
  unfold haversine_chord, HaversineFormula.chord, HaversineFormula.radians,
    toRad; cbv zeta.
  replace ((latitude b - latitude a) * PI / 180 / 2)
    with ((latitude b * (PI / 180) - latitude a * (PI / 180)) / 2) by field.
  replace ((longitude b - longitude a) * PI / 180 / 2)
    with ((longitude b * (PI / 180) - longitude a * (PI / 180)) / 2) by field.
  replace (latitude a * PI / 180) with (latitude a * (PI / 180)) by field.
  replace (latitude b * PI / 180) with (latitude b * (PI / 180)) by field.
  simpl. ring.
Qed.

Lemma haversine_chord_refl (p : LatLng) : haversine_chord p p = 0.
Proof.
  unfold haversine_chord, toRad; cbv zeta.
  replace ((latitude p - latitude p) * PI / 180 / 2) with 0 by field.
  replace ((longitude p - longitude p) * PI / 180 / 2) with 0 by field.
  rewrite sin_0. ring.
Qed.

Lemma haversine_equator_degree :
  haversineMeters (mkLatLng 0 0) (mkLatLng 0 1) = 6371000 * PI / 180.
Proof.
  rewrite haversineMeters_chord.
  assert (E : haversine_chord (mkLatLng 0 0) (mkLatLng 0 1)
              = sin (PI / 360) * sin (PI / 360)).
  { unfold haversine_chord, toRad; cbn [latitude longitude].
    replace ((0 - 0) * PI / 180 / 2) with 0 by field.
    replace ((1 - 0) * PI / 180 / 2) with (PI / 360) by field.
    replace (0 * PI / 180) with 0 by field.
    rewrite sin_0, cos_0. ring. }
  rewrite E, atan2_sin_cos.
  - field.
  - pose proof PI_bounds. lra.
Qed.

(** C3.  [haversineMeters] is the haversine formula of the design document
    with radius 6,371,000 m: it agrees with [HaversineFormula.distance] on
    every pair of points; the distance from a point to itself is 0; and one
    degree of longitude on the equator measures 111,195 m to within 1%.
    Numbers are real numbers here. *)
Theorem haversineMeters_is_haversine_formula :
  (forall a b : LatLng, haversineMeters a b = HaversineFormula.distance a b)
  /\ HaversineFormula.earth_radius = 6371000
  /\ (forall p : LatLng, haversineMeters p p = 0)
  /\ Rabs (haversineMeters (mkLatLng 0 0) (mkLatLng 0 1) - 111195)
     <= 111195 / 100.
Proof.
  split; [| split; [reflexivity | split]].
  - intros a b. rewrite haversineMeters_chord, haversine_chord_formula.
    reflexivity.
  - intros p. rewrite haversineMeters_chord, haversine_chord_refl.
    unfold JS.Math_sqrt. rewrite Rminus_0_r, sqrt_0, sqrt_1.
    rewrite atan2_first_quadrant by lra.
    replace (0 / 1) with 0 by field. rewrite atan_0. ring.
  - rewrite haversine_equator_degree.
    pose proof PI_bounds as [Hlo Hhi].
    apply Rabs_le. split; lra.
Qed.

(** C10.  [haversineMeters] is commutative: the differences of latitude
    and longitude only enter through squared sines, and the product of the
    two cosines is symmetric. *)
Theorem haversineMeters_comm (a b : LatLng) :
  haversineMeters a b = haversineMeters b a.
Proof.
  rewrite !haversineMeters_chord, (haversine_chord_sym a b). reflexivity.
Qed.

Lemma haversine_chord_range (a b : LatLng) : 0 <= haversine_chord a b <= 1.
Proof.
  unfold haversine_chord; cbv zeta.
  set (p1 := toRad (latitude a)). set (p2 := toRad (latitude b)).
  set (dl := toRad (longitude b - longitude a)).
  replace (toRad (latitude b - latitude a)) with (p2 - p1)
    by (unfold p1, p2, toRad; field).
  pose proof (cos_2a_sin ((p2 - p1) / 2)) as E1.
  replace (2 * ((p2 - p1) / 2)) with (p2 - p1) in E1 by field.
  rewrite cos_minus in E1.
  pose proof (cos_2a_sin (dl / 2)) as E2.
  replace (2 * (dl / 2)) with dl in E2 by field.
  pose proof (COS_bound dl) as [Hk1 Hk2].
  pose proof (sin2_cos2 p1) as S1. pose proof (sin2_cos2 p2) as S2.
  unfold Rsqr in S1, S2.
  set (u := sin ((p2 - p1) / 2)) in *. set (v := sin (dl / 2)) in *.
  set (k := cos dl) in *.
  set (s1 := sin p1) in *. set (c1 := cos p1) in *.
  set (s2 := sin p2) in *. set (c2 := cos p2) in *.
  assert (Hu : u * u = (1 - (c2 * c1 + s2 * s1)) / 2) by lra.
  assert (Hv : v * v = (1 - k) / 2) by lra.
  replace (u * u + c1 * c2 * v * v)
    with ((1 - (s1 * s2 + c1 * c2 * k)) / 2)
    by (rewrite !Rmult_assoc, Hu, Hv; field).
  pose proof (Rle_0_sqr (s1 - s2)) as Q1. pose proof (Rle_0_sqr (c1 - c2)) as Q2.
  pose proof (Rle_0_sqr (s1 + s2)) as Q3. pose proof (Rle_0_sqr (c1 + c2)) as Q4.
  unfold Rsqr in Q1, Q2, Q3, Q4.
  assert (Hp : s1 * s2 + c1 * c2 <= 1) by lra.
  assert (Hm : s1 * s2 - c1 * c2 <= 1) by lra.
  assert (Hp' : -1 <= s1 * s2 + c1 * c2) by lra.
  assert (Hm' : -1 <= s1 * s2 - c1 * c2) by lra.
  split; nra.
Qed.

Lemma formatPace_fields (p : R) (m s : Z) :
  IZR m <= p < IZR m + 1 ->
  0 <= p ->
  IZR s <= p * 60 - 60 * IZR m + / 2 < IZR s + 1 ->
  formatPace p = append (two_digits m) (append ":" (two_digits s)).
Proof.
  intros Hm Hp Hs.
  unfold formatPace, JS.Math_floor, JS.Math_round, JS.rem, JS.trunc, two_digits.
  cbv zeta.
  replace (p * 60 / 60) with p by field.
  destruct (Rle_dec 0 p) as [_ | Hn]; [| contradiction].
  rewrite (Int_part_unique p m) by assumption.
  rewrite (Int_part_unique _ s) by assumption.
  reflexivity.
Qed.

(** C9.  A non-negative pace for which [formatPace] prints 60 in the
    seconds field: 5.9958 min/km is 359.748 s, whose minutes are 5 and whose
    remainder 59.748 rounds to 60, so the text is 05:60. *)
Theorem formatPace_seconds_can_be_60 :
  exists minPerKm : R,
    0 <= minPerKm
    /\ minPerKm = 5.9958
    /\ minPerKm * 60 = 359.748
    /\ JS.Math_floor (minPerKm * 60 / 60) = 5%Z
    /\ JS.rem (minPerKm * 60) 60 = 59.748
    /\ JS.Math_round (JS.rem (minPerKm * 60) 60) = 60%Z
    /\ formatPace minPerKm = "05:60"%string.
Proof.
  exists 5.9958.
  assert (Hrem : JS.rem (5.9958 * 60) 60 = 59.748).
  { unfold JS.rem, JS.trunc.
    destruct (Rle_dec 0 (5.9958 * 60 / 60)) as [_ | Hn]; [| exfalso; lra].
    rewrite (Int_part_unique _ 5) by lra. lra. }
  split; [lra |]. split; [reflexivity |]. split; [lra |].
  split; [unfold JS.Math_floor; apply Int_part_unique; lra |].
  split; [exact Hrem |].
  split.
  - rewrite Hrem. unfold JS.Math_round. apply Int_part_unique. lra.
  - rewrite (formatPace_fields 5.9958 5 60) by lra. reflexivity.
Qed.

(** ** The location callback *)

Lemma callbacks_agree (coord : LatLng) (s : Tracker) :
  resumeRun_onLocation coord s = startRun_onLocation coord s.
Proof. reflexivity. Qed.

Lemma last_index {A : Type} (l : list A) (d : A) :
  nth (List.length l - 1) l d = last l d.
Proof.
  induction l as [| x [| y tl] IH]; try reflexivity.
  change (last (x :: y :: tl) d) with (last (y :: tl) d).
  rewrite <- IH. cbn [List.length Nat.sub nth].
  rewrite Nat.sub_0_r. reflexivity.
Qed.

(** What one callback does to the route and to the distance. *)
Lemma onLocation_effect (who : Caller) (coord : LatLng) (s : Tracker) :
  match routeCoords s with
  | [] =>
      routeCoords (onLocation who coord s) = [coord]
      /\ distanceMeters (onLocation who coord s) = distanceMeters s
  | _ :: _ =>
      routeCoords (onLocation who coord s) = routeCoords s ++ [coord]
      /\ distanceMeters (onLocation who coord s) =
         if Rlt_dec 0 (haversineMeters (last (routeCoords s) coord) coord)
         then distanceMeters s
              + haversineMeters (last (routeCoords s) coord) coord
         else distanceMeters s
  end.
Proof.
  assert (E : onLocation who coord s = startRun_onLocation coord s)
    by (destruct who; reflexivity).
  rewrite E. unfold startRun_onLocation.
  rewrite last_index.
  destruct (routeCoords s) as [| x tl] eqn:Hr.
  - split; reflexivity.
  - cbn [List.length Nat.eqb].
    destruct (Rlt_dec 0 (haversineMeters (last (x :: tl) coord) coord));
      split; reflexivity.
Qed.

Lemma onLocation_increment (who : Caller) (coord : LatLng) (s : Tracker) :
  distanceMeters (onLocation who coord s) =
  distanceMeters s
  + match routeCoords s with
    | [] => 0
    | _ :: _ => Rmax 0 (haversineMeters (last (routeCoords s) coord) coord)
    end.
Proof.
  pose proof (onLocation_effect who coord s) as H.
  destruct (routeCoords s) as [| x tl].
  - destruct H as [_ ->]. ring.
  - destruct H as [_ ->].
    destruct (Rlt_dec 0 (haversineMeters (last (x :: tl) coord) coord)) as [Hp | Hn].
    + rewrite Rmax_right by lra. reflexivity.
    + rewrite Rmax_left by lra. ring.
Qed.

Lemma onLocation_monotone (who : Caller) (coord : LatLng) (s : Tracker) :
  distanceMeters s <= distanceMeters (onLocation who coord s).
Proof.
  rewrite onLocation_increment.
  destruct (routeCoords s) as [| x tl]; [lra |].
  pose proof (Rmax_l 0 (haversineMeters (last (x :: tl) coord) coord)). lra.
Qed.

Lemma onLocation_route (who : Caller) (coord : LatLng) (s : Tracker) :
  routeCoords (onLocation who coord s) = routeCoords s ++ [coord].
Proof.
  pose proof (onLocation_effect who coord s) as H.
  destruct (routeCoords s); destruct H as [-> _]; reflexivity.
Qed.

Lemma onLocation_frame (who : Caller) (coord : LatLng) (s : Tracker) :
  status (onLocation who coord s) = status s
  /\ elapsedSec (onLocation who coord s) = elapsedSec s
  /\ watchSubRef (onLocation who coord s) = watchSubRef s
  /\ timerRef (onLocation who coord s) = timerRef s
  /\ subscriptions (onLocation who coord s) = subscriptions s
  /\ intervals (onLocation who coord s) = intervals s
  /\ dialog (onLocation who coord s) = dialog s
  /\ runs (onLocation who coord s) = runs s.
Proof.
  assert (E : onLocation who coord s = startRun_onLocation coord s)
    by (destruct who; reflexivity).
  rewrite E. unfold startRun_onLocation.
  destruct (Nat.eqb (List.length (routeCoords s)) 0).
  - repeat split.
  - destruct (Rlt_dec 0 _); repeat split.
Qed.

(** C1.  A location callback never lowers [distanceMeters]: the value
    after the callback is at least the value before, whichever subscription
    delivered it and whatever the status; along any sequence of callbacks the
    successive values are non-decreasing; and the new value is the old one
    plus a term that depends only on the last recorded point and the new one,
    while the points already recorded stay as they are. *)
Theorem distanceMeters_never_decreases :
  (forall (who : Caller) (coord : LatLng) (s : Tracker),
      distanceMeters s <= distanceMeters (onLocation who coord s))
  /\ (forall (sub : Handle) (coord : LatLng) (s : Tracker),
      distanceMeters s <= distanceMeters (step (LocationUpdate sub coord) s))
  /\ (forall (cs : list (Caller * LatLng)) (s : Tracker),
      nondecreasing_from (distanceMeters s) (distances_along cs s))
  /\ (forall (who : Caller) (coord : LatLng) (s : Tracker),
      routeCoords (onLocation who coord s) = routeCoords s ++ [coord]
      /\ distanceMeters (onLocation who coord s) =
         distanceMeters s
         + match routeCoords s with
           | [] => 0
           | _ :: _ =>
               Rmax 0 (haversineMeters (last (routeCoords s) coord) coord)
           end).
Proof.
  split; [exact onLocation_monotone |].
  split.
  { intros sub coord s. cbn [step].
    destruct (subscriber sub s); [apply onLocation_monotone | lra]. }
  split.
  { intros cs. induction cs as [| [who c] tl IH]; intros s; cbn.
    - exact I.
    - split; [apply onLocation_monotone | apply IH]. }
  intros who coord s. split.
  - apply onLocation_route.
  - apply onLocation_increment.
Qed.

(** C2.  The callback of [startRun], which the callback of [resumeRun]
    repeats: on an empty route the new point becomes the only element and the
    distance is unchanged; otherwise the point is appended whatever the
    increment is, and the increment is added to the distance exactly when it
    is strictly positive. *)
Theorem callback_appends_and_adds_positive_increment
    (coord : LatLng) (s : Tracker) :
  (resumeRun_onLocation coord s = startRun_onLocation coord s)
  /\ match routeCoords s with
     | [] =>
         routeCoords (startRun_onLocation coord s) = [coord]
         /\ distanceMeters (startRun_onLocation coord s) = distanceMeters s
     | _ :: _ =>
         let increment :=
           haversineMeters (last (routeCoords s) coord) coord in
         routeCoords (startRun_onLocation coord s) = routeCoords s ++ [coord]
         /\ distanceMeters (startRun_onLocation coord s) =
            if Rlt_dec 0 increment
            then distanceMeters s + increment
            else distanceMeters s
     end.
Proof.
  split; [reflexivity |].
  exact (onLocation_effect FromStartRun coord s).
Qed.

(** ** Stopping *)

Lemma cleanup_frame (s : Tracker) :
  let s1 := clearTimer (stopLocationUpdates s) in
  status s1 = status s /\ routeCoords s1 = routeCoords s
  /\ elapsedSec s1 = elapsedSec s /\ distanceMeters s1 = distanceMeters s
  /\ runs s1 = runs s /\ dialog s1 = dialog s /\ pushed s1 = pushed s
  /\ watchSubRef s1 = None /\ timerRef s1 = None.
Proof.
  unfold clearTimer, stopLocationUpdates.
  destruct (watchSubRef s) as [h |] eqn:Hw; cbn;
    destruct (timerRef s) as [t |] eqn:Ht; cbn; repeat split; assumption.
Qed.

Lemma resetSession_fields (s : Tracker) :
  status (resetSession s) = idle /\ routeCoords (resetSession s) = []
  /\ elapsedSec (resetSession s) = 0%Z /\ distanceMeters (resetSession s) = 0
  /\ runs (resetSession s) = runs s /\ dialog (resetSession s) = dialog s
  /\ pushed (resetSession s) = pushed s
  /\ watchSubRef (resetSession s) = watchSubRef s
  /\ timerRef (resetSession s) = timerRef s
  /\ subscriptions (resetSession s) = subscriptions s
  /\ intervals (resetSession s) = intervals s.
Proof. repeat split. Qed.

Lemma stopRun_short (s : Tracker) :
  status s <> idle ->
  orb (negb (hasRoute s)) (if Rlt_dec (distanceMeters s) 10 then true else false)
  = true ->
  stopRun s =
  resetSession
    (showAlert
       (mkAlert "Run too short"
          "We need a bit more distance to save this run.")
       (clearTimer (stopLocationUpdates s))).
Proof.
  intros Hs Hshort. unfold stopRun. rewrite Hshort.
  destruct (status s); [contradiction | reflexivity | reflexivity].
Qed.

Lemma stopRun_valid (s : Tracker) :
  status s <> idle -> hasRoute s = true -> 10 <= distanceMeters s ->
  stopRun s =
  setDialog
    (Some (mkSaveDialog (stopRun_summary s) (distanceMeters s)
             (elapsedSec s) (routeCoords s)))
    (clearTimer (stopLocationUpdates s)).
Proof.
  intros Hs Hr Hd. unfold stopRun. rewrite Hr.
  destruct (Rlt_dec (distanceMeters s) 10) as [Hlt | _]; [lra |].
  destruct (status s); [contradiction | reflexivity | reflexivity].
Qed.

(** C4.  [stopRun] on a running or paused session with fewer than two
    points or less than 10 m rejects the run: the stored runs are unchanged,
    nothing is handed to the summary page, no confirmation alert is opened
    (so a later Save has nothing to save), and the session is back to idle
    with an empty route and zeroed distance and time. *)
Theorem stopRun_rejects_short_run (s : Tracker) :
  status s = running \/ status s = paused ->
  (List.length (routeCoords s) < 2)%nat \/ distanceMeters s < 10 ->
  runs (stopRun s) = runs s
  /\ pushed (stopRun s) = pushed s
  /\ dialog (stopRun s) = dialog s
  /\ status (stopRun s) = idle
  /\ routeCoords (stopRun s) = []
  /\ distanceMeters (stopRun s) = 0
  /\ elapsedSec (stopRun s) = 0%Z
  /\ (canStop s = true ->
      step PressStop s = stopRun s
      /\ forall nowId nowDate : Z,
           runs (run [PressStop; PressSave nowId nowDate] s) = runs s).
Proof.
  intros Hst Hshort.
  assert (Hs : status s <> idle) by (destruct Hst as [E | E]; rewrite E; discriminate).
  assert (Hb : orb (negb (hasRoute s))
                 (if Rlt_dec (distanceMeters s) 10 then true else false) = true).
  { destruct Hshort as [Hl | Hd].
    - unfold hasRoute. apply orb_true_iff. left.
      apply negb_true_iff, Nat.ltb_ge. lia.
    - apply orb_true_iff. right.
      destruct (Rlt_dec (distanceMeters s) 10); [reflexivity | contradiction]. }
  rewrite (stopRun_short s Hs Hb).
  pose proof (cleanup_frame s) as (F1 & F2 & F3 & F4 & F5 & F6 & F7 & F8 & F9).
  cbn [resetSession setInitialRegion setDistanceMeters setElapsedSec
       setRouteCoords setStatus showAlert runs pushed dialog status
       routeCoords distanceMeters elapsedSec].
  repeat (split; [first [assumption | reflexivity] |]).
  intros Hcan. cbn [run fold_left step]. rewrite Hcan.
  split; [apply stopRun_short; assumption |].
  intros nowId nowDate.
  rewrite (stopRun_short s Hs Hb).
  cbn [resetSession setInitialRegion setDistanceMeters setElapsedSec
       setRouteCoords setStatus showAlert runs pushed dialog].
  rewrite F6.
  assert (Hd : dialog s = None).
  { unfold canStop, noDialog in Hcan. destruct (dialog s); [| reflexivity].
    rewrite andb_false_r in Hcan. discriminate. }
  rewrite Hd. cbn. exact F5.
Qed.

Lemma stopRun_rejects_short_run_witness :
  status (stopRun short_session) = idle
  /\ runs (stopRun short_session) = []
  /\ dialog (stopRun short_session) = None
  /\ routeCoords (stopRun short_session) = []
  /\ distanceMeters (stopRun short_session) = 0
  /\ elapsedSec (stopRun short_session) = 0%Z.
Proof.
  assert (H1 : status short_session = running \/ status short_session = paused)
    by (left; reflexivity).
  assert (H2 : (List.length (routeCoords short_session) < 2)%nat
               \/ distanceMeters short_session < 10)
    by (right; cbn; lra).
  destruct (stopRun_rejects_short_run short_session H1 H2)
    as (R1 & R2 & R3 & R4 & R5 & R6 & R7 & _).
  repeat split; assumption.
Defined.

(** ** Handlers that run to completion *)

Lemma clearTimer_settled (s : Tracker) :
  intervals s = handle_list (timerRef s) ->
  clearTimer s = setTimerRef None (setIntervals [] s).
Proof.
  unfold clearTimer, clearInterval. intros H.
  destruct s as [st rc el dm ir rp ws tr rn sb iv nh inf al dg pu mo].
  cbn in *. subst iv. destruct tr as [h |]; cbn; [| reflexivity].
  destruct (Nat.eq_dec h h) as [_ | Hn]; [reflexivity | contradiction].
Qed.

Lemma stopLocationUpdates_settled (s : Tracker) :
  map fst (subscriptions s) = handle_list (watchSubRef s) ->
  stopLocationUpdates s = setWatchSubRef None (setSubscriptions [] s).
Proof.
  unfold stopLocationUpdates, removeSubscription. intros H.
  destruct s as [st rc el dm ir rp ws tr rn sb iv nh inf al dg pu mo].
  cbn in *. destruct ws as [h |]; cbn in *.
  - destruct sb as [| [h' w] [| q tl]]; cbn in H; try discriminate.
    injection H as ->. cbn. rewrite Nat.eqb_refl. reflexivity.
  - destruct sb; [reflexivity | discriminate].
Qed.

Lemma settled_not_running (s : Tracker) :
  settled s -> status s <> running ->
  watchSubRef s = None /\ timerRef s = None
  /\ subscriptions s = [] /\ intervals s = [].
Proof.
  intros [H1 H2 H3 H4 _] Hs.
  assert (Hw : watchSubRef s = None).
  { destruct (watchSubRef s); [| reflexivity].
    exfalso. apply Hs, H3. discriminate. }
  assert (Ht : timerRef s = None).
  { destruct (timerRef s); [| reflexivity].
    exfalso. apply Hs, H4. discriminate. }
  rewrite Hw in H1. rewrite Ht in H2. cbn in H1, H2.
  repeat split; try assumption.
  destruct (subscriptions s); [reflexivity | discriminate].
Qed.

Lemma cleanup_settled (s : Tracker) :
  settled s ->
  clearTimer (stopLocationUpdates s) =
  setTimerRef None (setIntervals [] (setWatchSubRef None (setSubscriptions [] s))).
Proof.
  intros [H1 H2 _ _ _].
  rewrite stopLocationUpdates_settled by assumption.
  rewrite clearTimer_settled by exact H2. reflexivity.
Qed.

Lemma subscribed_settled (who : Caller) (s : Tracker) :
  subscriptions s = [] -> intervals s = [] -> timerRef s = None ->
  dialog s = None ->
  settled (let '(sub, s1) := watchPositionAsync who s in
           startTimer (setStatus running (setWatchSubRef (Some sub) s1))).
Proof.
  intros Hs Hi Ht Hd.
  destruct s as [st rc el dm ir rp ws tr rn sb iv nh inf al dg pu mo].
  cbn in *. subst. settle.
Qed.

Lemma act_settled (a : Action) (s : Tracker) : settled s -> settled (act a s).
Proof.
  intros Hs. destruct a as [p c | | p | | t1 t2 | | h c | |]; cbn [act step].
  - (* start *)
    destruct (canStart s) eqn:Hc; [| assumption].
    assert (Hi : status s <> running /\ dialog s = None).
    { unfold canStart, noDialog in Hc.
      destruct (status s), (dialog s), (mounted s), (isRequestingPerms s);
        cbn in Hc; try discriminate; split; (discriminate || reflexivity). }
    destruct Hi as [Hi Hd].
    destruct (settled_not_running s Hs Hi) as (Hw & Ht & Hsb & Hiv).
    unfold startRun, requestLocationPermission.
    destruct p; cbn [requestLocationPermission_end negb].
    + apply (subscribed_settled FromStartRun); assumption.
    + destruct Hs. settle; auto.
    + destruct Hs. settle; auto.
  - (* pause *)
    destruct (canPause s) eqn:Hc; [| assumption].
    assert (Hd : dialog s = None).
    { unfold canPause, noDialog in Hc. destruct (dialog s); [| reflexivity].
      rewrite andb_false_r in Hc. discriminate. }
    unfold pauseRun. rewrite cleanup_settled by assumption.
    settle.
  - (* resume *)
    destruct (canResume s) eqn:Hc; [| assumption].
    assert (Hi : status s <> running /\ dialog s = None).
    { unfold canResume, noDialog in Hc.
      destruct (status s), (dialog s), (mounted s);
        cbn in Hc; try discriminate; split; (discriminate || reflexivity). }
    destruct Hi as [Hi Hd].
    destruct (settled_not_running s Hs Hi) as (Hw & Ht & Hsb & Hiv).
    unfold resumeRun, requestLocationPermission.
    destruct p; cbn [requestLocationPermission_end negb].
    + apply (subscribed_settled FromResumeRun); assumption.
    + destruct Hs. settle; auto.
    + destruct Hs. settle; auto.
  - (* stop *)
    destruct (canStop s) eqn:Hc; [| assumption].
    unfold stopRun.
    assert (Hi : status s <> idle).
    { unfold canStop in Hc. destruct (status s); try discriminate.
      rewrite andb_false_r in Hc. discriminate. }
    rewrite cleanup_settled by assumption.
    destruct (status s); [contradiction | |];
      destruct (orb _ _); settle.
  - (* save *)
    destruct (dialog s) as [d |] eqn:Hd; [| assumption].
    destruct Hs as [H1 H2 H3 H4 H5].
    destruct H5 as [Hw Ht]; [rewrite Hd; discriminate |].
    unfold onSave. settle.
  - (* discard *)
    destruct (dialog s) as [d |] eqn:Hd; [| assumption].
    destruct Hs as [H1 H2 H3 H4 H5].
    destruct H5 as [Hw Ht]; [rewrite Hd; discriminate |].
    unfold onDiscard. settle.
  - (* location *)
    destruct (subscriber h s) as [who |]; [| assumption].
    destruct (onLocation_frame who c s) as (F1 & F2 & F3 & F4 & F5 & F6 & F7 & F8).
    destruct Hs as [H1 H2 H3 H4 H5].
    constructor; rewrite ?F1, ?F3, ?F4, ?F5, ?F6, ?F7; assumption.
  - (* tick *)
    unfold tick. induction (intervals s) as [| x tl IH]; cbn; [assumption |].
    destruct IH as [H1 H2 H3 H4 H5]. constructor; assumption.
  - (* unmount *)
    destruct (mounted s); [| assumption].
    unfold unmount. rewrite cleanup_settled by assumption. settle.
Qed.

Lemma perform_settled (l : list Action) (s : Tracker) :
  settled s -> settled (perform l s).
Proof.
  revert s. induction l as [| a tl IH]; intros s Hs; cbn; [assumption |].
  apply IH, act_settled, Hs.
Qed.

Lemma initial_settled (stored : list Run.t) : settled (initialTracker stored).
Proof. settle. Qed.

Lemma run_app (l1 l2 : list Event) (s : Tracker) :
  run (l1 ++ l2) s = run l2 (run l1 s).
Proof. unfold run. apply fold_left_app. Qed.

Lemma tick_inflight (s : Tracker) : inflight (tick s) = inflight s.
Proof.
  unfold tick. induction (intervals s) as [| x tl IH]; [reflexivity | exact IH].
Qed.

(** A handler that runs to completion is one particular schedule of the
    event loop. *)
Lemma act_as_events (a : Action) (s : Tracker) :
  inflight s = [] ->
  run (events_of a) s = act a s /\ inflight (act a s) = [].
Proof.
  intros Hin.
  destruct s as [st rc el dm ir rp ws tr rn sb iv nh inf al dg pu mo].
  cbn [inflight] in Hin. subst inf.
  destruct a as [p c | | p | | t1 t2 | | h c | |];
    cbn [events_of run fold_left act].
  - unfold step at 4. unfold canStart, noDialog.
    cbn [mounted dialog isRequestingPerms status].
    destruct mo, dg, rp, st; cbn [andb negb];
      try (split; reflexivity); destruct p, tr; split; reflexivity.
  - split; [reflexivity |]. cbn [step]. unfold canPause, noDialog.
    cbn [mounted dialog status].
    destruct mo, dg, st; cbn [andb]; try reflexivity.
    unfold pauseRun, stopLocationUpdates, clearTimer.
    cbn [watchSubRef]. destruct ws; cbn; destruct tr; reflexivity.
  - unfold step at 3. unfold canResume, noDialog.
    cbn [mounted dialog status].
    destruct mo, dg, st; cbn [andb];
      try (split; reflexivity); destruct p, tr; split; reflexivity.
  - split; [reflexivity |]. cbn [step]. unfold canStop, noDialog.
    cbn [mounted dialog status].
    destruct mo, dg, st; cbn [andb]; try reflexivity;
      unfold stopRun, stopLocationUpdates, clearTimer;
      cbn [status watchSubRef]; destruct ws; cbn; destruct tr; cbn;
      destruct (negb _ || _); reflexivity.
  - split; [reflexivity |]. cbn [step dialog]. destruct dg; reflexivity.
  - split; [reflexivity |]. cbn [step dialog]. destruct dg; reflexivity.
  - split; [reflexivity |]. cbn [step].
    destruct (subscriber h _) as [who |]; [| reflexivity].
    assert (E : forall x, onLocation who c x = startRun_onLocation c x)
      by (destruct who; reflexivity).
    rewrite E. unfold startRun_onLocation. cbn [routeCoords].
    destruct (Nat.eqb (List.length rc) 0); [reflexivity |].
    destruct (Rlt_dec 0 _); reflexivity.
  - split; [reflexivity |]. apply tick_inflight.
  - split; [reflexivity |]. cbn [step mounted].
    destruct mo; [| reflexivity].
    unfold unmount, stopLocationUpdates, clearTimer.
    cbn [watchSubRef]. destruct ws; cbn; destruct tr; reflexivity.
Qed.

Lemma perform_as_events (l : list Action) (s : Tracker) :
  inflight s = [] ->
  run (flat_map events_of l) s = perform l s /\ inflight (perform l s) = [].
Proof.
  revert s. induction l as [| a tl IH]; intros s Hin.
  - split; [reflexivity | exact Hin].
  - cbn [flat_map perform fold_left]. rewrite run_app.
    destruct (act_as_events a s Hin) as [E1 E2].
    rewrite E1. apply IH, E2.
Qed.

Lemma tick_elapsed (s : Tracker) :
  elapsedSec (tick s) = (elapsedSec s + Z.of_nat (List.length (intervals s)))%Z.
Proof.
  unfold tick. induction (intervals s) as [| x tl IH].
  - cbn. lia.
  - cbn [fold_right List.length]. unfold onInterval at 1.
    cbn [elapsedSec setElapsedSec]. rewrite IH. lia.
Qed.

Lemma resumeRun_granted_fields (s : Tracker) :
  settled s -> status s <> running ->
  status (resumeRun granted s) = running
  /\ timerRef (resumeRun granted s) = Some (S (nextHandle s))
  /\ elapsedSec (resumeRun granted s) = elapsedSec s
  /\ watchSubRef (resumeRun granted s) = Some (nextHandle s)
  /\ subscriptions (resumeRun granted s) = [(nextHandle s, FromResumeRun)]
  /\ intervals (resumeRun granted s) = [S (nextHandle s)].
Proof.
  intros Hs Hi.
  destruct (settled_not_running s Hs Hi) as (Hw & Ht & Hsb & Hiv).
  clear Hs Hi.
  destruct s as [st rc el dm ir rp ws tr rn sb iv nh inf al dg pu mo].
  cbn [watchSubRef timerRef subscriptions intervals] in Hw, Ht, Hsb, Hiv.
  subst. repeat split.
Qed.

Lemma pauseRun_fields (s : Tracker) :
  settled s ->
  status (pauseRun s) = paused
  /\ timerRef (pauseRun s) = None
  /\ watchSubRef (pauseRun s) = None
  /\ subscriptions (pauseRun s) = []
  /\ intervals (pauseRun s) = []
  /\ elapsedSec (pauseRun s) = elapsedSec s
  /\ distanceMeters (pauseRun s) = distanceMeters s
  /\ routeCoords (pauseRun s) = routeCoords s.
Proof.
  intros Hs. unfold pauseRun. rewrite cleanup_settled by assumption.
  repeat split.
Qed.

Lemma settled_tick (s : Tracker) :
  settled s ->
  elapsedSec (tick s) =
    (elapsedSec s + match timerRef s with Some _ => 1 | None => 0 end)%Z.
Proof.
  intros [_ H2 _ _ _]. rewrite tick_elapsed, H2.
  destruct (timerRef s); reflexivity.
Qed.

Lemma settled_tick_not_running (s : Tracker) :
  settled s -> status s <> running ->
  timerRef s = None /\ elapsedSec (tick s) = elapsedSec s.
Proof.
  intros Hs Hi.
  destruct (settled_not_running s Hs Hi) as (_ & Ht & _).
  rewrite (settled_tick s Hs), Ht. split; [reflexivity | lia].
Qed.

Lemma pause_scenario_elapsed (stored : list Run.t) :
  elapsedSec (perform pause_scenario (initialTracker stored)) = 15%Z.
Proof. reflexivity. Qed.

(** With handlers run to completion, a second of wall-clock time adds 1 to
    [elapsedSec] when the interval is armed and nothing otherwise; the
    interval is not armed unless the status is running; pausing disarms it
    and resuming arms it again without adding the time spent paused; and
    start, 10 ticks, pause, 5 ticks, resume, 5 ticks gives 15. *)
Lemma ticks_counted_when_handlers_complete
    (stored : list Run.t) (l : list Action) :
  let s := perform l (initialTracker stored) in
  elapsedSec (tick s) =
    (elapsedSec s + match timerRef s with Some _ => 1 | None => 0 end)%Z
  /\ match status s with
     | running => True
     | _ => timerRef s = None /\ elapsedSec (tick s) = elapsedSec s
     end
  /\ (if canPause s
      then status (act DoPause s) = paused
           /\ timerRef (act DoPause s) = None
           /\ elapsedSec (act DoPause s) = elapsedSec s
      else act DoPause s = s)
  /\ (if canResume s
      then status (act (DoResume granted) s) = running
           /\ timerRef (act (DoResume granted) s) <> None
           /\ elapsedSec (act (DoResume granted) s) = elapsedSec s
      else act (DoResume granted) s = s)
  /\ elapsedSec (perform pause_scenario (initialTracker stored)) = 15%Z
  /\ elapsedSec (run (flat_map events_of pause_scenario)
                   (initialTracker stored)) = 15%Z.
Proof.
  intros s.
  assert (Hs : settled s) by apply perform_settled, initial_settled.
  clearbody s.
  split; [exact (settled_tick s Hs) |].
  split.
  { destruct (status s) eqn:Hst; [| exact I |];
      apply settled_tick_not_running; try assumption;
      rewrite Hst; discriminate. }
  split.
  { unfold act. destruct (canPause s); [| reflexivity].
    destruct (pauseRun_fields s Hs) as (P1 & P2 & _ & _ & _ & P3 & _).
    auto. }
  split.
  { unfold act. destruct (canResume s) eqn:Hc; [| reflexivity].
    assert (Hi : status s <> running).
    { unfold canResume in Hc. destruct (status s); try discriminate.
      rewrite andb_false_r in Hc. discriminate. }
    destruct (resumeRun_granted_fields s Hs Hi) as (R1 & R2 & R3 & _).
    rewrite R1, R2, R3. repeat split. discriminate. }
  split; [apply pause_scenario_elapsed |].
  rewrite (proj1 (perform_as_events pause_scenario (initialTracker stored)
                    eq_refl)).
  apply pause_scenario_elapsed.
Qed.

(** ** Permission refused *)

Lemma untouched_refl (s : Tracker) : session_untouched s s.
Proof. repeat split. Qed.

Lemma refused_untouched (p : PermissionStatus) (s : Tracker) :
  p <> granted ->
  fst (requestLocationPermission p s) = false
  /\ session_untouched s (snd (requestLocationPermission p s))
  /\ inflight (snd (requestLocationPermission p s)) = inflight s
  /\ fst (requestLocationPermission_end p s) = false
  /\ session_untouched s (snd (requestLocationPermission_end p s))
  /\ inflight (snd (requestLocationPermission_end p s)) = inflight s.
Proof.
  intros Hp. destruct p; [contradiction | |]; repeat split.
Qed.

(** C7.  When the permission request comes back with anything but
    granted, [startRun] and [resumeRun] stop there: status, route, distance
    and elapsed time are as before, no subscription is opened and no interval
    is armed.  The same holds step by step on the event loop, where the
    suspended handler is dropped. *)
Theorem refused_permission_aborts (p : PermissionStatus) (s : Tracker) :
  p <> granted ->
  (forall current : LatLng, session_untouched s (startRun p current s))
  /\ session_untouched s (resumeRun p s)
  /\ session_untouched s (step PressStart s)
  /\ session_untouched s (step PressResume s)
  /\ (forall (i : nat) (who : Caller),
        nth_error (inflight s) i = Some (AwaitPermission who) ->
        session_untouched s (step (PermissionResult i p) s)
        /\ inflight (step (PermissionResult i p) s)
           = remove_nth i (inflight s)).
Proof.
  intros Hp.
  destruct (refused_untouched p s Hp) as (A1 & A2 & A3 & B1 & B2 & B3).
  split.
  { intros current. unfold startRun.
    destruct (requestLocationPermission p s) as [ok s1].
    cbn [fst snd] in A1, A2. subst ok. exact A2. }
  split.
  { unfold resumeRun.
    destruct (requestLocationPermission p s) as [ok s1].
    cbn [fst snd] in A1, A2. subst ok. exact A2. }
  split.
  { cbn [step]. destruct (canStart s); repeat split. }
  split.
  { cbn [step]. destruct (canResume s); repeat split. }
  intros i who Hi. cbn [step]. rewrite Hi.
  destruct (requestLocationPermission_end p s) as [ok s1].
  cbn [fst snd] in B1, B2, B3. subst ok. cbn [negb].
  split.
  - destruct B2 as (U1 & U2 & U3 & U4 & U5 & U6 & U7 & U8 & U9).
    repeat split; assumption.
  - cbn [inflight setInflight]. rewrite B3. reflexivity.
Qed.

Lemma refused_permission_aborts_witness :
  denied <> granted
  /\ session_untouched (session paused [origin] 7 0 [])
       (resumeRun denied (session paused [origin] 7 0 []))
  /\ session_untouched (initialTracker [])
       (startRun denied origin (initialTracker [])).
Proof.
  assert (H : denied <> granted) by discriminate.
  split; [exact H |]. split.
  - exact (proj1 (proj2 (refused_permission_aborts denied
                           (session paused [origin] 7 0 []) H))).
  - exact (proj1 (refused_permission_aborts denied (initialTracker []) H)
             origin).
Defined.

(** ** Saving a run *)

Lemma toString_inj (a b : Z) : JS.toString a = JS.toString b -> a = b.
Proof.
  unfold JS.toString. intros H.
  assert (Hn : forall z : Z, Z.to_int z <> Decimal.Pos Decimal.Nil
                             /\ Z.to_int z <> Decimal.Neg Decimal.Nil).
  { intros [| p | p]; cbn; split; try discriminate;
      intros E; injection E as E; exact (DecimalPos.Unsigned.to_uint_nonnil p E). }
  apply DecimalZ.to_int_inj.
  assert (E : Some (Z.to_int a) = Some (Z.to_int b)).
  { rewrite <- (NilZero.isi (Z.to_int a)) by apply Hn.
    rewrite <- (NilZero.isi (Z.to_int b)) by apply Hn.
    rewrite H. reflexivity. }
  injection E as E. exact E.
Qed.

Lemma stop_then_save (s : Tracker) (nowId nowDate : Z) :
  canStop s = true -> hasRoute s = true -> 10 <= distanceMeters s ->
  let s' := run (stop_and_save nowId nowDate) s in
  runs s' = saved_run nowId nowDate s :: runs s
  /\ pushed s' =
     mkParams (distanceMeters s) (elapsedSec s) (routeCoords s) :: pushed s
  /\ status s' = idle /\ routeCoords s' = [] /\ distanceMeters s' = 0
  /\ elapsedSec s' = 0%Z /\ dialog s' = None
  /\ watchSubRef s' = None /\ timerRef s' = None.
Proof.
  intros Hcan Hr Hd.
  assert (Hs : status s <> idle).
  { unfold canStop in Hcan. destruct (status s); try discriminate.
    rewrite andb_false_r in Hcan. discriminate. }
  unfold stop_and_save. cbn [run fold_left step]. rewrite Hcan.
  rewrite (stopRun_valid s Hs Hr Hd).
  cbn [dialog setDialog].
  pose proof (cleanup_frame s) as (F1 & F2 & F3 & F4 & F5 & F6 & F7 & F8 & F9).
  unfold onSave, saved_run.
  cbn [resetSession setInitialRegion setDistanceMeters setElapsedSec
       setRouteCoords setStatus setRuns setDialog routerPush runs pushed
       dialog status routeCoords distanceMeters elapsedSec watchSubRef
       timerRef dlg_distanceMeters dlg_elapsedSec dlg_routeCoords].
  rewrite F5, F7. repeat split; assumption.
Qed.

Lemma toFixed2_1500 : JS.toFixed2 (1500 / 1000) = "1.50"%string.
Proof.
  unfold JS.toFixed2.
  destruct (Rlt_dec (1500 / 1000) 0) as [Hn | _]; [exfalso; lra |].
  rewrite Rabs_pos_eq by lra.
  rewrite (Int_part_unique _ 150) by lra.
  reflexivity.
Qed.

Lemma pace_1500_600 : formatPace (IZR 600 / 60 / (1500 / 1000)) = "06:40"%string.
Proof.
  replace (IZR 600 / 60 / (1500 / 1000)) with (20 / 3) by field.
  rewrite (formatPace_fields (20 / 3) 6 40) by lra. reflexivity.
Qed.

Lemma summary_1500_600 (s : Tracker) :
  distanceMeters s = 1500 -> elapsedSec s = 600%Z ->
  paceMinPerKm s = (600 / 60) / 1.5
  /\ formattedPace s = "06:40"%string
  /\ stopRun_summary s = ten_minute_summary.
Proof.
  intros Hd He.
  unfold formattedPace, stopRun_summary, formattedTime, paceMinPerKm, distanceKm.
  rewrite Hd, He.
  destruct (Rlt_dec 0 (1500 / 1000)) as [_ | Hn]; [| exfalso; lra].
  split; [lra |]. split; [apply pace_1500_600 |].
  rewrite toFixed2_1500, pace_1500_600. reflexivity.
Qed.

(** C5, amended.  Saving after a valid stop prepends to the stored runs a
    record whose id is the decimal text of the clock reading at that moment
    (two readings give the same id only if they are equal), whose date is the
    ISO text of the current instant, and whose distance and duration are the
    session's [distanceMeters] and [elapsedSec]; a session of 1500 m in 600 s
    gives a record with 1500 and 600, a pace of (600/60)/1.5 min/km and the
    pace text 06:40. *)
Theorem save_prepends_run_record (s : Tracker) (nowId nowDate : Z) :
  canStop s = true -> hasRoute s = true -> 10 <= distanceMeters s ->
  let s' := run (stop_and_save nowId nowDate) s in
  runs s' = saved_run nowId nowDate s :: runs s
  /\ Run.id (saved_run nowId nowDate s) = JS.toString nowId
  /\ (forall other : Z, JS.toString other = JS.toString nowId -> other = nowId)
  /\ Run.dateISO (saved_run nowId nowDate s) = ISODate.toISOString nowDate
  /\ Run.distanceMeters (saved_run nowId nowDate s) = distanceMeters s
  /\ Run.durationSec (saved_run nowId nowDate s) = elapsedSec s
  /\ status s' = idle
  /\ (distanceMeters s = 1500 -> elapsedSec s = 600%Z ->
      Run.distanceMeters (saved_run nowId nowDate s) = 1500
      /\ Run.durationSec (saved_run nowId nowDate s) = 600%Z
      /\ paceMinPerKm s = (600 / 60) / 1.5
      /\ formattedPace s = "06:40"%string
      /\ option_map dlg_summary (dialog (step PressStop s))
         = Some ten_minute_summary).
Proof.
  intros Hcan Hr Hd.
  destruct (stop_then_save s nowId nowDate Hcan Hr Hd)
    as (S1 & _ & S3 & _).
  split; [exact S1 |]. split; [reflexivity |].
  split; [intros other; apply toString_inj |].
  split; [reflexivity |]. split; [reflexivity |]. split; [reflexivity |].
  split; [exact S3 |].
  intros H1 H2.
  destruct (summary_1500_600 s H1 H2) as (P1 & P2 & P3).
  split; [exact H1 |]. split; [exact H2 |].
  split; [exact P1 |]. split; [exact P2 |].
  assert (Hs : status s <> idle).
  { unfold canStop in Hcan. destruct (status s); try discriminate.
    rewrite andb_false_r in Hcan. discriminate. }
  cbn [step]. rewrite Hcan, (stopRun_valid s Hs Hr Hd).
  cbn [dialog setDialog option_map dlg_summary]. rewrite P3. reflexivity.
Qed.

Lemma ten_minute_session_valid :
  canStop ten_minute_session = true
  /\ hasRoute ten_minute_session = true
  /\ 10 <= distanceMeters ten_minute_session.
Proof.
  split; [reflexivity |]. split; [reflexivity |].
  unfold ten_minute_session, session. cbn [distanceMeters]. lra.
Qed.

Lemma save_prepends_run_record_witness :
  runs (run (stop_and_save 1700000000000 1700000000000) ten_minute_session)
  = [Run.mk "1700000000000" "2023-11-14T22:13:20.000Z" 1500 600%Z]
  /\ formattedPace ten_minute_session = "06:40"%string.
Proof.
  destruct ten_minute_session_valid as (V1 & V2 & V3).
  destruct (save_prepends_run_record ten_minute_session
              1700000000000 1700000000000 V1 V2 V3)
    as (W1 & _ & _ & _ & _ & _ & _ & W8).
  split.
  - rewrite W1. reflexivity.
  - exact (proj1 (proj2 (proj2 (proj2 (W8 eq_refl eq_refl))))).
Defined.

Lemma equator_degree_positive :
  10 <= haversineMeters origin one_degree_east.
Proof.
  unfold origin, one_degree_east. rewrite haversine_equator_degree.
  pose proof PI_bounds. lra.
Qed.

Lemma cleanup_running (st : TrackerStatus) (rc : list LatLng) (el : Z)
    (dm : R) (ir : option Region) (rp : bool) (h k : Handle)
    (rn : list Run.t) (w : Caller) (nh : Handle) (inf : list Pending)
    (al : list AlertMessage) (dg : option SaveDialog)
    (pu : list SummaryParams) (mo : bool) :
  clearTimer (stopLocationUpdates
    (mkTracker st rc el dm ir rp (Some h) (Some k) rn [(h, w)] [k] nh inf al
       dg pu mo))
  = mkTracker st rc el dm ir rp None None rn [] [] nh inf al dg pu mo.
Proof.
  unfold stopLocationUpdates, removeSubscription.
  cbn [watchSubRef subscriptions filter fst].
  rewrite Nat.eqb_refl. cbn [negb].
  unfold clearTimer, clearInterval.
  cbn [timerRef setWatchSubRef setSubscriptions intervals List.remove].
  destruct (Nat.eq_dec k k) as [_ | Hn]; [reflexivity | contradiction].
Qed.

Lemma start_from_idle (next : Handle) (rn : list Run.t)
    (pu : list SummaryParams) :
  run [PressStart; PermissionResult 0 granted; PositionResult 0 origin;
       WatchResult 0] (idle_screen next rn pu)
  = running_screen [origin] 0 next rn pu.
Proof. reflexivity. Qed.

Lemma first_fix (sub : Handle) (rn : list Run.t) (pu : list SummaryParams) :
  step (LocationUpdate sub one_degree_east)
    (running_screen [origin] 0 sub rn pu)
  = running_screen [origin; one_degree_east]
      (0 + haversineMeters origin one_degree_east) sub rn pu.
Proof.
  unfold running_screen. cbn [step]. unfold subscriber.
  cbn [subscriptions find fst].
  rewrite Nat.eqb_refl. cbn [onLocation].
  unfold startRun_onLocation.
  cbn [routeCoords List.length Nat.eqb Nat.sub nth distanceMeters].
  destruct (Rlt_dec 0 (haversineMeters origin one_degree_east)) as [_ | Hn].
  - reflexivity.
  - exfalso. pose proof equator_degree_positive. lra.
Qed.

Lemma stop_and_save_fix (sub : Handle) (t : Z) (d : R) (route : list LatLng)
    (rn : list Run.t) (pu : list SummaryParams) :
  hasRoute (running_screen route d sub rn pu) = true -> 10 <= d ->
  run (stop_and_save t t) (running_screen route d sub rn pu)
  = idle_screen (S (S sub))
      (Run.mk (JS.toString t) (ISODate.toISOString t) d 0%Z :: rn)
      (mkParams d 0%Z route :: pu).
Proof.
  intros Hr Hd. unfold stop_and_save. cbn [run fold_left].
  assert (E : step PressStop (running_screen route d sub rn pu)
              = stopRun (running_screen route d sub rn pu)) by reflexivity.
  rewrite E. clear E.
  rewrite stopRun_valid; [| discriminate | exact Hr | exact Hd].
  generalize (stopRun_summary (running_screen route d sub rn pu)).
  intros sm. unfold running_screen. rewrite cleanup_running.
  reflexivity.
Qed.

Lemma one_fix_run_saves (sub : Handle) (t : Z) (rn : list Run.t)
    (pu : list SummaryParams) :
  run (one_fix_run sub t) (idle_screen sub rn pu)
  = idle_screen (S (S sub))
      (Run.mk (JS.toString t) (ISODate.toISOString t)
         (0 + haversineMeters origin one_degree_east) 0%Z :: rn)
      (mkParams (0 + haversineMeters origin one_degree_east) 0%Z
         [origin; one_degree_east] :: pu).
Proof.
  change (one_fix_run sub t) with
    ([PressStart; PermissionResult 0 granted; PositionResult 0 origin;
      WatchResult 0]
     ++ [LocationUpdate sub one_degree_east] ++ stop_and_save t t).
  rewrite !run_app, start_from_idle.
  change (run [LocationUpdate sub one_degree_east]
            (running_screen [origin] 0 sub rn pu))
    with (step (LocationUpdate sub one_degree_east)
            (running_screen [origin] 0 sub rn pu)).
  rewrite first_fix. apply stop_and_save_fix.
  - reflexivity.
  - pose proof equator_degree_positive. lra.
Qed.

(** C5, counterexample to the uniqueness of the id: two runs saved while
    the clock reads the same millisecond carry the same id. *)
Lemma same_clock_same_id :
  map Run.id (runs (run two_saves_same_clock (initialTracker [])))
  = ["1700000000000"%string; "1700000000000"%string]
  /\ ~ NoDup (map Run.id (runs (run two_saves_same_clock (initialTracker [])))).
Proof.
  assert (E : map Run.id (runs (run two_saves_same_clock (initialTracker [])))
              = ["1700000000000"%string; "1700000000000"%string]).
  { unfold two_saves_same_clock. rewrite run_app.
    change (initialTracker []) with (idle_screen 0%nat [] []).
    rewrite !one_fix_run_saves. reflexivity. }
  split; [exact E |].
  rewrite E. intros H. inversion H as [| x l Hin Hnd]; subst.
  apply Hin. left. reflexivity.
Qed.

(** ** Subscriptions *)

(** With handlers run to completion the screen never holds more than one
    subscription. *)
Lemma one_subscription_when_handlers_complete
    (stored : list Run.t) (l : list Action) :
  (List.length (subscriptions (perform l (initialTracker stored))) <= 1)%nat.
Proof.
  pose proof (perform_settled l _ (initial_settled stored)) as [H1 _ _ _ _].
  rewrite <- (length_map fst), H1.
  destruct (watchSubRef _); cbn; lia.
Qed.

(** C8, the schedule the code mishandles: Resume pressed twice before the
    first press has obtained its subscription leaves two live subscriptions,
    of which [watchSubRef] names only the later one; neither Pause nor the
    unmount cleanup closes the other, which keeps delivering positions. *)
Theorem double_resume_opens_two_subscriptions :
  let s := run double_resume (initialTracker []) in
  map fst (subscriptions s) = [4%nat; 2%nat]
  /\ watchSubRef s = Some 4%nat
  /\ status s = running
  /\ map fst (subscriptions (step PressPause s)) = [2%nat]
  /\ watchSubRef (step PressPause s) = None
  /\ status (step PressPause s) = paused
  /\ routeCoords (run [PressPause; LocationUpdate 2%nat one_degree_east] s)
     = [origin; one_degree_east]
  /\ routeCoords
       (run [LocationUpdate 4%nat one_degree_east;
             LocationUpdate 2%nat one_degree_east] s)
     = [origin; one_degree_east; one_degree_east]
  /\ map fst (subscriptions (step Unmount s)) = [2%nat].
Proof.
  cbv zeta.
  repeat (split; [reflexivity |]).
  split; [| reflexivity].
  set (s := run double_resume _).
  change (run [LocationUpdate 4%nat one_degree_east;
               LocationUpdate 2%nat one_degree_east] s)
    with (step (LocationUpdate 2%nat one_degree_east)
            (step (LocationUpdate 4%nat one_degree_east) s)).
  assert (E4 : subscriber 4%nat s = Some FromResumeRun) by reflexivity.
  assert (Hr : routeCoords s = [origin]) by reflexivity.
  assert (Hs : subscriptions s = [(4%nat, FromResumeRun); (2%nat, FromResumeRun)])
    by reflexivity.
  clearbody s.
  cbn [step]. rewrite E4.
  destruct (onLocation_frame FromResumeRun one_degree_east s)
    as (_ & _ & _ & _ & F5 & _).
  unfold subscriber at 1. rewrite F5, Hs. cbn [find fst Nat.eqb].
  rewrite !onLocation_route, Hr. reflexivity.
Qed.

(** * Further properties of the tracking screen *)

(** ** Distances *)

Lemma atan2_nonneg_quadrant (y x : R) :
  0 <= y -> 0 <= x -> 0 <= JS.Math_atan2 y x <= PI / 2.
Proof.
  intros Hy Hx. unfold JS.Math_atan2.
  pose proof PI_RGT_0 as Hpi.
  destruct (Rlt_dec 0 x) as [Hpos | Hnpos].
  - assert (Hq : 0 <= y / x).
    { unfold Rdiv. apply Rmult_le_pos; [exact Hy |].
      left. apply Rinv_0_lt_compat. exact Hpos. }
    pose proof (atan_bound (y / x)) as [_ Hub].
    split; [| lra].
    destruct Hq as [Hq | Hq].
    + pose proof (atan_increasing 0 (y / x) Hq) as Hinc.
      rewrite atan_0 in Hinc. lra.
    + rewrite <- Hq, atan_0. lra.
  - destruct (Rlt_dec x 0) as [Hneg | _]; [lra |].
    destruct (Rlt_dec 0 y) as [_ | _]; [lra |].
    destruct (Rlt_dec y 0) as [Hyn | _]; lra.
Qed.

Lemma haversineMeters_range (a b : LatLng) :
  0 <= haversineMeters a b <= 6371000 * PI.
Proof.
  rewrite haversineMeters_chord.
  pose proof (haversine_chord_range a b) as [H0 H1].
  pose proof (atan2_nonneg_quadrant
                (JS.Math_sqrt (haversine_chord a b))
                (JS.Math_sqrt (1 - haversine_chord a b))) as Hq.
  unfold JS.Math_sqrt in *.
  destruct Hq as [Hlo Hhi]; try apply sqrt_pos.
  split; nra.
Qed.


Lemma polyline_length_snoc (route : list LatLng) (c : LatLng) :
  route <> [] ->
  polyline_length (route ++ [c])
  = polyline_length route + haversineMeters (last route c) c.
Proof.
  induction route as [| a [| b tl] IH]; intros Hne.
  - contradiction.
  - cbn. ring.
  - change (polyline_length ((a :: b :: tl) ++ [c]))
      with (haversineMeters a b + polyline_length ((b :: tl) ++ [c])).
    rewrite IH by discriminate.
    change (polyline_length (a :: b :: tl))
      with (haversineMeters a b + polyline_length (b :: tl)).
    change (last (a :: b :: tl) c) with (last (b :: tl) c).
    ring.
Qed.

Lemma polyline_length_nonneg (route : list LatLng) :
  0 <= polyline_length route.
Proof.
  induction route as [| a [| b tl] IH]; try (cbn; lra).
  change (polyline_length (a :: b :: tl))
    with (haversineMeters a b + polyline_length (b :: tl)).
  pose proof (haversineMeters_range a b). lra.
Qed.

Lemma onLocation_measures (who : Caller) (c : LatLng) (s : Tracker) :
  distanceMeters s = polyline_length (routeCoords s) ->
  distanceMeters (onLocation who c s)
  = polyline_length (routeCoords (onLocation who c s)).
Proof.
  intros Hd.
  rewrite onLocation_route, onLocation_increment, Hd.
  destruct (routeCoords s) as [| x tl] eqn:Hr.
  - cbn. ring.
  - rewrite polyline_length_snoc by discriminate.
    pose proof (haversineMeters_range (last (x :: tl) c) c) as [H0 _].
    rewrite Rmax_right by exact H0. reflexivity.
Qed.

Lemma startRun_fields (p : PermissionStatus) (c : LatLng) (s : Tracker) :
  distanceMeters (startRun p c s) = distanceMeters s
  /\ elapsedSec (startRun p c s) = elapsedSec s
  /\ runs (startRun p c s) = runs s
  /\ dialog (startRun p c s) = dialog s
  /\ mounted (startRun p c s) = mounted s
  /\ match p with
     | granted =>
         status (startRun p c s) = running
         /\ routeCoords (startRun p c s)
            = [mkLatLng (latitude c) (longitude c)]
     | _ =>
         status (startRun p c s) = status s
         /\ routeCoords (startRun p c s) = routeCoords s
     end.
Proof.
  destruct s as [st rc el dm ir rp ws tr rn sb iv nh inf al dg pu mo].
  destruct p, tr; repeat split.
Qed.

Lemma resumeRun_fields (p : PermissionStatus) (s : Tracker) :
  distanceMeters (resumeRun p s) = distanceMeters s
  /\ elapsedSec (resumeRun p s) = elapsedSec s
  /\ routeCoords (resumeRun p s) = routeCoords s
  /\ runs (resumeRun p s) = runs s
  /\ dialog (resumeRun p s) = dialog s
  /\ mounted (resumeRun p s) = mounted s
  /\ status (resumeRun p s)
     = match p with granted => running | _ => status s end.
Proof.
  destruct s as [st rc el dm ir rp ws tr rn sb iv nh inf al dg pu mo].
  destruct p, tr; repeat split.
Qed.

Lemma pauseRun_keeps (s : Tracker) :
  status (pauseRun s) = paused
  /\ distanceMeters (pauseRun s) = distanceMeters s
  /\ elapsedSec (pauseRun s) = elapsedSec s
  /\ routeCoords (pauseRun s) = routeCoords s
  /\ runs (pauseRun s) = runs s
  /\ dialog (pauseRun s) = dialog s
  /\ mounted (pauseRun s) = mounted s.
Proof.
  unfold pauseRun.
  pose proof (cleanup_frame s) as (F1 & F2 & F3 & F4 & F5 & F6 & F7 & F8 & F9).
  cbn [setStatus status distanceMeters elapsedSec routeCoords runs dialog
       mounted].
  repeat split; try assumption.
  unfold clearTimer, stopLocationUpdates.
  destruct (watchSubRef s); cbn; destruct (timerRef s); reflexivity.
Qed.

Lemma unmount_keeps (s : Tracker) :
  status (unmount s) = status s
  /\ distanceMeters (unmount s) = distanceMeters s
  /\ elapsedSec (unmount s) = elapsedSec s
  /\ routeCoords (unmount s) = routeCoords s
  /\ runs (unmount s) = runs s
  /\ dialog (unmount s) = dialog s
  /\ mounted (unmount s) = false.
Proof.
  unfold unmount.
  pose proof (cleanup_frame s) as (F1 & F2 & F3 & F4 & F5 & F6 & F7 & F8 & F9).
  cbn [setMounted status distanceMeters elapsedSec routeCoords runs dialog
       mounted].
  repeat split; assumption.
Qed.

Lemma stopRun_cases (s : Tracker) :
  (status (stopRun s) = idle /\ routeCoords (stopRun s) = []
   /\ distanceMeters (stopRun s) = 0 /\ elapsedSec (stopRun s) = 0%Z
   /\ dialog (stopRun s) = dialog s)
  \/ (status (stopRun s) = status s /\ status s <> idle
      /\ routeCoords (stopRun s) = routeCoords s
      /\ distanceMeters (stopRun s) = distanceMeters s
      /\ elapsedSec (stopRun s) = elapsedSec s
      /\ hasRoute s = true /\ 10 <= distanceMeters s
      /\ dialog (stopRun s)
         = Some (mkSaveDialog (stopRun_summary s) (distanceMeters s)
                   (elapsedSec s) (routeCoords s))).
Proof.
  pose proof (cleanup_frame s) as (F1 & F2 & F3 & F4 & F5 & F6 & F7 & F8 & F9).
  assert (Hdec : status s = idle \/ status s <> idle)
    by (destruct (status s); [left; reflexivity | right; discriminate ..]).
  destruct Hdec as [Hst | Hst].
  { left. unfold stopRun. rewrite Hst. repeat split. }
  destruct (orb (negb (hasRoute s))
              (if Rlt_dec (distanceMeters s) 10 then true else false)) eqn:Hb.
  - left. rewrite (stopRun_short s Hst Hb).
    cbn [resetSession setInitialRegion setDistanceMeters setElapsedSec
         setRouteCoords setStatus showAlert status routeCoords
         distanceMeters elapsedSec dialog].
    repeat split. exact F6.
  - right. apply orb_false_iff in Hb. destruct Hb as [Hr Hd].
    apply negb_false_iff in Hr.
    assert (Hge : 10 <= distanceMeters s).
    { destruct (Rlt_dec (distanceMeters s) 10); [discriminate | lra]. }
    rewrite (stopRun_valid s Hst Hr Hge).
    cbn [setDialog status routeCoords distanceMeters elapsedSec dialog].
    repeat split; assumption.
Qed.

Lemma intervals_fire_keep (l : list Handle) (s : Tracker) :
  let s' := fold_right (fun (_ : Handle) acc => onInterval acc) s l in
  status s' = status s
  /\ routeCoords s' = routeCoords s
  /\ distanceMeters s' = distanceMeters s
  /\ runs s' = runs s
  /\ dialog s' = dialog s
  /\ mounted s' = mounted s
  /\ subscriptions s' = subscriptions s
  /\ intervals s' = intervals s
  /\ timerRef s' = timerRef s
  /\ watchSubRef s' = watchSubRef s.
Proof.
  induction l as [| x tl IH]; [repeat split | exact IH].
Qed.

Lemma tick_keeps (s : Tracker) :
  status (tick s) = status s
  /\ routeCoords (tick s) = routeCoords s
  /\ distanceMeters (tick s) = distanceMeters s
  /\ runs (tick s) = runs s
  /\ dialog (tick s) = dialog s
  /\ mounted (tick s) = mounted s
  /\ subscriptions (tick s) = subscriptions s
  /\ intervals (tick s) = intervals s
  /\ timerRef (tick s) = timerRef s
  /\ watchSubRef (tick s) = watchSubRef s.
Proof. exact (intervals_fire_keep (intervals s) s). Qed.

Lemma reset_after_dialog (s : Tracker) (e : Event) :
  (exists a b, e = PressSave a b) \/ e = PressDiscard ->
  dialog s <> None ->
  status (step e s) = idle /\ routeCoords (step e s) = []
  /\ distanceMeters (step e s) = 0 /\ elapsedSec (step e s) = 0%Z.
Proof.
  intros He Hd. destruct (dialog s) as [d |] eqn:E; [| contradiction].
  destruct He as [(a & b & ->) | ->]; cbn [step]; rewrite E; repeat split.
Qed.

Lemma canStart_idle (s : Tracker) :
  canStart s = true -> status s = idle /\ dialog s = None /\ mounted s = true.
Proof.
  unfold canStart, noDialog.
  destruct (status s), (dialog s), (mounted s), (isRequestingPerms s);
    cbn; intros H; try discriminate; repeat split.
Qed.

Lemma canStop_active (s : Tracker) :
  canStop s = true -> status s <> idle /\ dialog s = None /\ mounted s = true.
Proof.
  unfold canStop, noDialog.
  destruct (status s), (dialog s), (mounted s);
    cbn; intros H; try discriminate; repeat split; discriminate.
Qed.

Lemma subscriber_running (h : Handle) (who : Caller) (s : Tracker) :
  settled s -> subscriber h s = Some who -> status s = running.
Proof.
  intros [H1 _ H3 _ _] Hsub. apply H3. intros Hn.
  rewrite Hn in H1. cbn in H1.
  unfold subscriber in Hsub.
  destruct (subscriptions s); [discriminate | discriminate].
Qed.

Lemma act_measured (a : Action) (s : Tracker) :
  measured s -> measured (act a s).
Proof.
  intros [Hs Hd Hi].
  constructor; [apply act_settled; exact Hs | |];
    destruct a as [p c | | p | | t1 t2 | | h c | |]; cbn [act].
  - destruct (canStart s) eqn:Hc; [| exact Hd].
    destruct (canStart_idle s Hc) as (Hidle & _).
    destruct (startRun_fields p c s) as (F1 & _ & _ & _ & _ & F6).
    rewrite F1, Hd, (Hi Hidle).
    destruct p; destruct F6 as [_ F6]; rewrite F6, ?(Hi Hidle); reflexivity.
  - destruct (canPause s); [| exact Hd].
    destruct (pauseRun_keeps s) as (_ & F2 & _ & F4 & _). rewrite F2, F4. exact Hd.
  - destruct (canResume s); [| exact Hd].
    destruct (resumeRun_fields p s) as (F1 & _ & F3 & _). rewrite F1, F3. exact Hd.
  - destruct (canStop s); [| exact Hd].
    destruct (stopRun_cases s) as [(_ & R2 & R3 & _) | (_ & _ & R3 & R4 & _)].
    + rewrite R2, R3. reflexivity.
    + rewrite R3, R4. exact Hd.
  - destruct (dialog s) as [d |] eqn:E.
    + destruct (reset_after_dialog s (PressSave t1 t2)) as (_ & R2 & R3 & _);
        [left; eauto | rewrite E; discriminate |].
      rewrite R2, R3. reflexivity.
    + cbn [step]. rewrite E. exact Hd.
  - destruct (dialog s) as [d |] eqn:E.
    + destruct (reset_after_dialog s PressDiscard) as (_ & R2 & R3 & _);
        [right; reflexivity | rewrite E; discriminate |].
      rewrite R2, R3. reflexivity.
    + cbn [step]. rewrite E. exact Hd.
  - cbn [step]. destruct (subscriber h s); [| exact Hd].
    apply onLocation_measures. exact Hd.
  - destruct (tick_keeps s) as (_ & F2 & F3 & _). rewrite F2, F3. exact Hd.
  - cbn [step]. destruct (mounted s); [| exact Hd].
    destruct (unmount_keeps s) as (_ & F2 & _ & F4 & _). rewrite F2, F4. exact Hd.
  - destruct (canStart s) eqn:Hc; [| exact Hi].
    destruct (canStart_idle s Hc) as (Hidle & _).
    destruct (startRun_fields p c s) as (_ & _ & _ & _ & _ & F6).
    destruct p; destruct F6 as [F6 F7]; rewrite F6, ?F7; try discriminate;
      exact Hi.
  - destruct (canPause s); [| exact Hi].
    destruct (pauseRun_keeps s) as (F1 & _). rewrite F1. discriminate.
  - destruct (canResume s) eqn:Hc; [| exact Hi].
    destruct (resumeRun_fields p s) as (_ & _ & F3 & _ & _ & _ & F7).
    rewrite F7, F3. destruct p; [discriminate | exact Hi | exact Hi].
  - destruct (canStop s); [| exact Hi].
    destruct (stopRun_cases s) as [(_ & R2 & _) | (R1 & Hn & _)].
    + intros _. exact R2.
    + rewrite R1. intros E. contradiction.
  - destruct (dialog s) as [d |] eqn:E.
    + destruct (reset_after_dialog s (PressSave t1 t2)) as (_ & R2 & _);
        [left; eauto | rewrite E; discriminate |].
      intros _. exact R2.
    + cbn [step]. rewrite E. exact Hi.
  - destruct (dialog s) as [d |] eqn:E.
    + destruct (reset_after_dialog s PressDiscard) as (_ & R2 & _);
        [right; reflexivity | rewrite E; discriminate |].
      intros _. exact R2.
    + cbn [step]. rewrite E. exact Hi.
  - cbn [step]. destruct (subscriber h s) as [who |] eqn:Hsub; [| exact Hi].
    destruct (onLocation_frame who c s) as (F1 & _). rewrite F1.
    rewrite (subscriber_running h who s Hs Hsub). discriminate.
  - destruct (tick_keeps s) as (F1 & F2 & _). rewrite F1, F2. exact Hi.
  - cbn [step]. destruct (mounted s); [| exact Hi].
    destruct (unmount_keeps s) as (F1 & _ & _ & F4 & _). rewrite F1, F4. exact Hi.
Qed.

Lemma perform_measured (l : list Action) (s : Tracker) :
  measured s -> measured (perform l s).
Proof.
  revert s. induction l as [| a tl IH]; intros s Hs; cbn; [assumption |].
  apply IH, act_measured, Hs.
Qed.

Lemma initial_measured (stored : list Run.t) : measured (initialTracker stored).
Proof.
  constructor; [apply initial_settled | cbn; reflexivity | reflexivity].
Qed.

(** X2.  With handlers run to completion, the distance shown is at every
    moment the length of the polyline through the recorded points: the sum
    of the great-circle legs between consecutive points, pauses included
    (the leg across a pause is counted like any other). *)
Theorem distanceMeters_is_polyline_length
    (stored : list Run.t) (l : list Action) :
  let s := perform l (initialTracker stored) in
  distanceMeters s = polyline_length (routeCoords s)
  /\ 0 <= distanceMeters s.
Proof.
  intros s.
  destruct (perform_measured l _ (initial_measured stored)) as [_ Hd _].
  fold s in Hd. split; [exact Hd |].
  rewrite Hd. apply polyline_length_nonneg.
Qed.

Lemma one_fix_state :
  perform one_fix_actions (initialTracker [])
  = running_screen [origin; one_degree_east]
      (0 + haversineMeters origin one_degree_east) 0%nat [] [].
Proof.
  rewrite <- (proj1 (perform_as_events one_fix_actions (initialTracker [])
                       eq_refl)).
  change (flat_map events_of one_fix_actions)
    with ([PressStart; PermissionResult 0 granted; PositionResult 0 origin;
           WatchResult 0] ++ [LocationUpdate 0%nat one_degree_east]).
  rewrite run_app.
  change (initialTracker []) with (idle_screen 0%nat [] []).
  rewrite start_from_idle. apply first_fix.
Qed.

(** X3.  When a run reached with handlers run to completion is stopped and
    saved, the distance stored in the record is the length of the polyline
    through the coordinates handed to the summary page, which has at least
    two points; the duration handed over is the one stored. *)
Theorem saved_distance_is_route_length
    (stored : list Run.t) (l : list Action) (nowId nowDate : Z) :
  let s := perform l (initialTracker stored) in
  canStop s = true -> hasRoute s = true -> 10 <= distanceMeters s ->
  let s' := run (stop_and_save nowId nowDate) s in
  exists (r : Run.t) (p : SummaryParams),
    runs s' = r :: runs s
    /\ pushed s' = p :: pushed s
    /\ Run.distanceMeters r = polyline_length (p_coords p)
    /\ p_distanceMeters p = Run.distanceMeters r
    /\ p_durationSec p = Run.durationSec r
    /\ (2 <= List.length (p_coords p))%nat.
Proof.
  intros s Hcan Hr Hd s'.
  destruct (stop_then_save s nowId nowDate Hcan Hr Hd) as (S1 & S2 & _).
  destruct (perform_measured l _ (initial_measured stored)) as [_ Hm _].
  fold s in Hm.
  exists (saved_run nowId nowDate s),
         (mkParams (distanceMeters s) (elapsedSec s) (routeCoords s)).
  split; [exact S1 |]. split; [exact S2 |].
  split; [exact Hm |]. split; [reflexivity |]. split; [reflexivity |].
  unfold hasRoute in Hr. apply Nat.ltb_lt in Hr.
  cbn [p_coords]. lia.
Qed.

Lemma saved_distance_is_route_length_witness :
  exists (r : Run.t) (p : SummaryParams),
    runs (run (stop_and_save 1700000000000 1700000000000)
            (perform one_fix_actions (initialTracker []))) = [r]
    /\ Run.distanceMeters r = polyline_length (p_coords p)
    /\ (2 <= List.length (p_coords p))%nat.
Proof.
  assert (H1 : canStop (perform one_fix_actions (initialTracker [])) = true)
    by (rewrite one_fix_state; reflexivity).
  assert (H2 : hasRoute (perform one_fix_actions (initialTracker [])) = true)
    by (rewrite one_fix_state; reflexivity).
  assert (H3 : 10 <= distanceMeters
                       (perform one_fix_actions (initialTracker []))).
  { rewrite one_fix_state. cbn [running_screen distanceMeters].
    pose proof equator_degree_positive. lra. }
  destruct (saved_distance_is_route_length [] one_fix_actions
              1700000000000 1700000000000 H1 H2 H3)
    as (r & p & R1 & R2 & R3 & _ & _ & R6).
  exists r, p. split; [| split; [exact R3 | exact R6]].
  rewrite R1, one_fix_state. reflexivity.
Defined.

(** ** The interval under any schedule *)

Lemma stopLocationUpdates_timer (s : Tracker) :
  intervals (stopLocationUpdates s) = intervals s
  /\ timerRef (stopLocationUpdates s) = timerRef s
  /\ runs (stopLocationUpdates s) = runs s.
Proof.
  unfold stopLocationUpdates. destruct (watchSubRef s); repeat split.
Qed.

Lemma clearTimer_tracked (s : Tracker) :
  timer_tracked s ->
  intervals (clearTimer s) = [] /\ timerRef (clearTimer s) = None.
Proof.
  intros H. rewrite (clearTimer_settled s H). split; reflexivity.
Qed.

Lemma cleanup_tracked (s : Tracker) :
  timer_tracked s ->
  intervals (clearTimer (stopLocationUpdates s)) = []
  /\ timerRef (clearTimer (stopLocationUpdates s)) = None.
Proof.
  intros H. apply clearTimer_tracked. unfold timer_tracked.
  destruct (stopLocationUpdates_timer s) as (E1 & E2 & _).
  rewrite E1, E2. exact H.
Qed.

Lemma startTimer_tracked (s : Tracker) :
  timer_tracked s -> timer_tracked (startTimer s).
Proof.
  intros H. unfold startTimer. rewrite (clearTimer_settled s H).
  reflexivity.
Qed.

Lemma subscribed_tracked (who : Caller) (s : Tracker) :
  timer_tracked s ->
  timer_tracked
    (let '(sub, s1) := watchPositionAsync who s in
     startTimer (setStatus running (setWatchSubRef (Some sub) s1))).
Proof.
  intros H. unfold watchPositionAsync. apply startTimer_tracked. exact H.
Qed.

Lemma step_timer_tracked (e : Event) (s : Tracker) :
  timer_tracked s -> timer_tracked (step e s).
Proof.
  intros H.
  destruct e as [| | | | a b | | i p | i c | i | h c | |]; cbn [step].
  - destruct (canStart s); exact H.
  - destruct (canPause s); [| exact H].
    unfold pauseRun, timer_tracked. cbn [intervals timerRef setStatus].
    destruct (cleanup_tracked s H) as [-> ->]. reflexivity.
  - destruct (canResume s); exact H.
  - destruct (canStop s); [| exact H].
    unfold stopRun. destruct (cleanup_tracked s H) as [E1 E2].
    destruct (status s); [exact H | |];
      destruct (orb _ _); unfold timer_tracked;
      cbn [intervals timerRef resetSession setInitialRegion
           setDistanceMeters setElapsedSec setRouteCoords setStatus
           showAlert setDialog];
      rewrite E1, E2; reflexivity.
  - destruct (dialog s); exact H.
  - destruct (dialog s); exact H.
  - destruct (nth_error (inflight s) i) as [[who | | who] |]; try exact H.
    destruct p; cbn [requestLocationPermission_end negb];
      try exact H; destruct who; exact H.
  - destruct (nth_error (inflight s) i) as [[who | | who] |]; exact H.
  - destruct (nth_error (inflight s) i) as [[who | | who] |]; try exact H.
    destruct who.
    + apply (subscribed_tracked FromStartRun). exact H.
    + apply (subscribed_tracked FromResumeRun). exact H.
  - destruct (subscriber h s) as [who |]; [| exact H].
    destruct (onLocation_frame who c s) as (_ & _ & _ & F4 & _ & F6 & _).
    unfold timer_tracked. rewrite F4, F6. exact H.
  - destruct (tick_keeps s) as (_ & _ & _ & _ & _ & _ & _ & F8 & F9 & _).
    unfold timer_tracked. rewrite F8, F9. exact H.
  - destruct (mounted s); [| exact H].
    unfold unmount, timer_tracked. cbn [intervals timerRef setMounted].
    destruct (cleanup_tracked s H) as [-> ->]. reflexivity.
Qed.

Lemma run_timer_tracked (es : list Event) (s : Tracker) :
  timer_tracked s -> timer_tracked (run es s).
Proof.
  revert s. induction es as [| e tl IH]; intros s H; [exact H |].
  apply IH, step_timer_tracked, H.
Qed.

(** X4.  Whatever the order in which presses, promise resolutions, ticks
    and positions are delivered, at most one interval is ever armed and it is
    the one [timerRef] names; a second of wall-clock time therefore adds 0 or
    1 to [elapsedSec], never more. *)
Theorem at_most_one_interval (stored : list Run.t) (es : list Event) :
  let s := run es (initialTracker stored) in
  intervals s = handle_list (timerRef s)
  /\ (List.length (intervals s) <= 1)%nat
  /\ (elapsedSec s <= elapsedSec (tick s) <= elapsedSec s + 1)%Z.
Proof.
  intros s.
  assert (H : timer_tracked s) by (apply run_timer_tracked; reflexivity).
  split; [exact H |].
  rewrite tick_elapsed, H.
  destruct (timerRef s); cbn; split; lia.
Qed.

(** ** Elapsed time under any schedule *)

Lemma startTimer_status (s : Tracker) : status (startTimer s) = status s.
Proof.
  unfold startTimer, clearTimer. destruct (timerRef s); reflexivity.
Qed.

Lemma step_paused_disarmed (e : Event) (s : Tracker) :
  timer_tracked s ->
  (status s = paused -> timerRef s = None) ->
  status (step e s) = paused -> timerRef (step e s) = None.
Proof.
  intros H Hp.
  destruct e as [| | | | a b | | i p | i c | i | h c | |]; cbn [step].
  - destruct (canStart s); exact Hp.
  - destruct (canPause s); [| exact Hp]. intros _.
    unfold pauseRun. cbn [timerRef setStatus].
    exact (proj2 (cleanup_tracked s H)).
  - destruct (canResume s); exact Hp.
  - destruct (canStop s); [| exact Hp].
    unfold stopRun. pose proof (proj2 (cleanup_tracked s H)) as E2.
    destruct (status s); [discriminate | |];
      destruct (orb _ _); try discriminate; intros _; exact E2.
  - destruct (dialog s); [discriminate | exact Hp].
  - destruct (dialog s); [discriminate | exact Hp].
  - destruct (nth_error (inflight s) i) as [[who | | who] |]; try exact Hp.
    destruct p; cbn [requestLocationPermission_end negb];
      try exact Hp; destruct who; exact Hp.
  - destruct (nth_error (inflight s) i) as [[who | | who] |]; exact Hp.
  - destruct (nth_error (inflight s) i) as [[who | | who] |]; try exact Hp.
    destruct who;
      [unfold startRun_subscribed | unfold resumeRun_subscribed];
      unfold watchPositionAsync; rewrite startTimer_status; discriminate.
  - destruct (subscriber h s) as [who |]; [| exact Hp].
    destruct (onLocation_frame who c s) as (F1 & _ & _ & F4 & _).
    rewrite F1, F4. exact Hp.
  - destruct (tick_keeps s) as (F1 & _ & _ & _ & _ & _ & _ & _ & F9 & _).
    rewrite F1, F9. exact Hp.
  - destruct (mounted s); [| exact Hp]. intros _.
    unfold unmount. cbn [timerRef setMounted].
    exact (proj2 (cleanup_tracked s H)).
Qed.

Lemma run_paused_disarmed (es : list Event) (s : Tracker) :
  timer_tracked s ->
  (status s = paused -> timerRef s = None) ->
  status (run es s) = paused -> timerRef (run es s) = None.
Proof.
  revert s. induction es as [| e tl IH]; intros s H Hp; [exact Hp |].
  apply IH.
  - apply step_timer_tracked, H.
  - apply step_paused_disarmed; assumption.
Qed.

Lemma ticks_while_armed (n : nat) (s : Tracker) :
  List.length (intervals s) = 1%nat ->
  elapsedSec (run (repeat Tick n) s) = (elapsedSec s + Z.of_nat n)%Z
  /\ status (run (repeat Tick n) s) = status s.
Proof.
  revert s. induction n as [| n IH]; intros s H.
  - split; [cbn; lia | reflexivity].
  - change (run (repeat Tick (S n)) s) with (run (repeat Tick n) (tick s)).
    destruct (tick_keeps s) as (F1 & _ & _ & _ & _ & _ & _ & F8 & _).
    destruct (IH (tick s)) as [E1 E2]; [rewrite F8; exact H |].
    rewrite E1, E2, F1, tick_elapsed, H. split; [lia | reflexivity].
Qed.

Lemma pause_running_screen (route : list LatLng) (d : R) (sub : Handle)
    (rn : list Run.t) (pu : list SummaryParams) :
  step PressPause (running_screen route d sub rn pu)
  = paused_screen route d (S (S sub)) rn pu.
Proof.
  change (step PressPause (running_screen route d sub rn pu))
    with (pauseRun (running_screen route d sub rn pu)).
  unfold pauseRun, running_screen. rewrite cleanup_running. reflexivity.
Qed.

Lemma stop_while_resuming (route : list LatLng) (d : R) (next : Handle)
    (t : Z) (rn : list Run.t) (pu : list SummaryParams) :
  hasRoute (paused_screen route d next rn pu) = true -> 10 <= d ->
  run [PressResume; PressStop; PermissionResult 0 granted; WatchResult 0;
       PressSave t t] (paused_screen route d next rn pu)
  = mkTracker idle [] 0%Z 0 None false (Some next) (Some (S next))
      (Run.mk (JS.toString t) (ISODate.toISOString t) d 0%Z :: rn)
      [(next, FromResumeRun)] [S next] (S (S next)) [] [] None
      (mkParams d 0%Z route :: pu) true.
Proof.
  intros Hr Hd.
  set (s1 := step PressResume (paused_screen route d next rn pu)).
  change (run [PressResume; PressStop; PermissionResult 0 granted;
               WatchResult 0; PressSave t t]
            (paused_screen route d next rn pu))
    with (run [PermissionResult 0 granted; WatchResult 0; PressSave t t]
            (stopRun s1)).
  rewrite (stopRun_valid s1); [| discriminate | exact Hr | exact Hd].
  generalize (stopRun_summary s1). intros sm. reflexivity.
Qed.

(** C6, the schedule the code mishandles.  Under every order of events no
    interval is armed while the status is paused, so paused time is never
    counted; but when Stop is pressed while a resume is still waiting for its
    permission, [resumeRun] arms a fresh interval after [stopRun] has cleared
    the timer, Save resets the session without clearing it, and from then on
    every second is counted although the status is idle. *)
Theorem idle_ticks_counted_after_stop_during_resume
    (stored : list Run.t) (t : Z) (n : nat) (es : list Event) :
  let s := run (stop_during_resume t) (initialTracker stored) in
  let any := run es (initialTracker stored) in
  status s = idle
  /\ elapsedSec s = 0%Z
  /\ timerRef s = Some 3%nat
  /\ intervals s = [3%nat]
  /\ canStart s = true
  /\ map Run.durationSec (runs s) = 0%Z :: map Run.durationSec stored
  /\ status (step Tick s) = idle
  /\ elapsedSec (step Tick s) = 1%Z
  /\ status (run (repeat Tick n) s) = idle
  /\ elapsedSec (run (repeat Tick n) s) = Z.of_nat n
  /\ (status any = paused ->
      timerRef any = None /\ intervals any = []
      /\ elapsedSec (step Tick any) = elapsedSec any).
Proof.
  intros s any.
  assert (E : s = mkTracker idle [] 0%Z 0 None false (Some 2%nat) (Some 3%nat)
                    (Run.mk (JS.toString t) (ISODate.toISOString t)
                       (0 + haversineMeters origin one_degree_east) 0%Z
                     :: stored)
                    [(2%nat, FromResumeRun)] [3%nat] 4%nat [] [] None
                    [mkParams (0 + haversineMeters origin one_degree_east)
                       0%Z [origin; one_degree_east]] true).
  { subst s.
    change (stop_during_resume t) with
      ([PressStart; PermissionResult 0 granted; PositionResult 0 origin;
        WatchResult 0]
       ++ [LocationUpdate 0%nat one_degree_east]
       ++ [PressPause]
       ++ [PressResume; PressStop; PermissionResult 0 granted; WatchResult 0;
           PressSave t t]).
    change (initialTracker stored) with (idle_screen 0%nat stored []).
    rewrite !run_app, start_from_idle.
    change (run [LocationUpdate 0%nat one_degree_east]
              (running_screen [origin] 0 0%nat stored []))
      with (step (LocationUpdate 0%nat one_degree_east)
              (running_screen [origin] 0 0%nat stored [])).
    rewrite first_fix.
    change (run [PressPause] ?x) with (step PressPause x).
    rewrite pause_running_screen.
    apply stop_while_resuming.
    - reflexivity.
    - pose proof equator_degree_positive. lra. }
  clearbody s. subst s.
  repeat (split; [reflexivity |]).
  split.
  { apply (ticks_while_armed n). reflexivity. }
  split.
  { match goal with
    | |- elapsedSec (run _ ?x) = _ =>
        destruct (ticks_while_armed n x) as [E _]; [reflexivity |]
    end.
    rewrite E. reflexivity. }
  intros Hp.
  assert (Ht : timer_tracked any) by (apply run_timer_tracked; reflexivity).
  assert (Hn : timerRef any = None).
  { apply run_paused_disarmed; [reflexivity | discriminate | exact Hp]. }
  assert (Hi : intervals any = []) by (rewrite Ht, Hn; reflexivity).
  repeat split; try assumption.
  change (step Tick any) with (tick any).
  rewrite tick_elapsed, Hi. cbn. lia.
Qed.


(** ** The stored runs *)

Lemma step_runs (e : Event) (s : Tracker) :
  runs (step e s) = runs s
  \/ exists (a b : Z) (d : SaveDialog),
       e = PressSave a b /\ dialog s = Some d
       /\ runs (step e s)
          = Run.mk (JS.toString a) (ISODate.toISOString b)
              (dlg_distanceMeters d) (dlg_elapsedSec d) :: runs s.
Proof.
  destruct e as [| | | | a b | | i p | i c | i | h c | |]; cbn [step].
  - left. destruct (canStart s); reflexivity.
  - left. destruct (canPause s); [| reflexivity].
    apply pauseRun_keeps.
  - left. destruct (canResume s); reflexivity.
  - left. destruct (canStop s); [| reflexivity].
    unfold stopRun.
    pose proof (cleanup_frame s) as (_ & _ & _ & _ & F5 & _).
    destruct (status s); [reflexivity | |]; destruct (orb _ _); exact F5.
  - destruct (dialog s) as [d |] eqn:E; [| left; reflexivity].
    right. exists a, b, d. repeat split.
  - left. destruct (dialog s); reflexivity.
  - left. destruct (nth_error (inflight s) i) as [[who | | who] |];
      try reflexivity.
    destruct p, who; reflexivity.
  - left. destruct (nth_error (inflight s) i) as [[who | | who] |];
      reflexivity.
  - left. destruct (nth_error (inflight s) i) as [[who | | who] |];
      try reflexivity.
    destruct s as [st rc el dm ir rp ws tr rn sb iv nh inf al dg pu mo].
    destruct who, tr; reflexivity.
  - left. destruct (subscriber h s) as [who |]; [| reflexivity].
    apply onLocation_frame.
  - left. apply tick_keeps.
  - left. destruct (mounted s); [| reflexivity]. apply unmount_keeps.
Qed.

(** X5.  Nothing ever removes, reorders or rewrites a stored run: after any
    sequence of events the collection is the earlier one with new records in
    front, at most one per press of Save; an event other than Save leaves it
    as it is. *)
Theorem stored_runs_only_grow (es : list Event) (s : Tracker) :
  (exists newer : list Run.t,
      runs (run es s) = newer ++ runs s
      /\ (List.length newer <= count_saves es)%nat)
  /\ (count_saves es = O -> runs (run es s) = runs s).
Proof.
  assert (H : exists newer : list Run.t,
             runs (run es s) = newer ++ runs s
             /\ (List.length newer <= count_saves es)%nat).
  { revert s. induction es as [| e tl IH]; intros s.
    - exists []. split; [reflexivity | cbn; lia].
    - change (run (e :: tl) s) with (run tl (step e s)).
      destruct (IH (step e s)) as (newer & E & L).
      destruct (step_runs e s) as [Hsame | (a & b & d & -> & _ & Hnew)].
      + exists newer. rewrite E, Hsame. split; [reflexivity |].
        destruct e; cbn [count_saves]; lia.
      + exists (newer ++ [Run.mk (JS.toString a) (ISODate.toISOString b)
                           (dlg_distanceMeters d) (dlg_elapsedSec d)]).
        rewrite E, Hnew, <- app_assoc. split; [reflexivity |].
        rewrite length_app. cbn [count_saves List.length]. lia. }
  split; [exact H |].
  intros H0. destruct H as (newer & E & L).
  rewrite H0 in L. destruct newer; [exact E | cbn in L; lia].
Qed.

(** ** Discarding and confirming *)

Lemma stop_then_discard (s : Tracker) :
  canStop s = true -> hasRoute s = true -> 10 <= distanceMeters s ->
  let s' := run stop_and_discard s in
  runs s' = runs s /\ pushed s' = pushed s
  /\ status s' = idle /\ routeCoords s' = [] /\ distanceMeters s' = 0
  /\ elapsedSec s' = 0%Z /\ dialog s' = None.
Proof.
  intros Hcan Hr Hd.
  destruct (canStop_active s Hcan) as (Hs & _).
  unfold stop_and_discard. cbn [run fold_left step]. rewrite Hcan.
  rewrite (stopRun_valid s Hs Hr Hd).
  cbn [dialog setDialog].
  pose proof (cleanup_frame s) as (F1 & F2 & F3 & F4 & F5 & F6 & F7 & F8 & F9).
  unfold onDiscard.
  cbn [resetSession setInitialRegion setDistanceMeters setElapsedSec
       setRouteCoords setStatus setDialog runs pushed dialog status
       routeCoords distanceMeters elapsedSec].
  repeat split; assumption.
Qed.

(** X6.  Discarding a run that passed the minimum-distance check stores
    nothing and hands nothing to the summary page: the runs and the pushed
    parameters are as before, and the session is idle with an empty route
    and zeroed distance and time; the alert is closed. *)
Theorem discard_persists_nothing (s : Tracker) :
  canStop s = true -> hasRoute s = true -> 10 <= distanceMeters s ->
  let s' := run stop_and_discard s in
  runs s' = runs s /\ pushed s' = pushed s
  /\ status s' = idle /\ routeCoords s' = [] /\ distanceMeters s' = 0
  /\ elapsedSec s' = 0%Z /\ dialog s' = None
  /\ canStart s' = negb (isRequestingPerms s).
Proof.
  intros Hcan Hr Hd s'.
  destruct (stop_then_discard s Hcan Hr Hd) as (D1 & D2 & D3 & D4 & D5 & D6 & D7).
  fold s' in D1, D2, D3, D4, D5, D6, D7.
  repeat (split; [assumption |]).
  destruct (canStop_active s Hcan) as (Hs & Hdg & Hm).
  unfold canStart, noDialog. rewrite D3, D7.
  assert (Em : mounted s' = mounted s /\ isRequestingPerms s' = isRequestingPerms s).
  { unfold s', stop_and_discard. cbn [run fold_left step]. rewrite Hcan.
    rewrite (stopRun_valid s Hs Hr Hd). cbn [dialog setDialog].
    unfold onDiscard, clearTimer, stopLocationUpdates.
    destruct (watchSubRef s); cbn; destruct (timerRef s); split; reflexivity. }
  destruct Em as [-> ->]. rewrite Hm.
  destruct (isRequestingPerms s); reflexivity.
Qed.

Lemma discard_persists_nothing_witness :
  runs (run stop_and_discard ten_minute_session) = []
  /\ status (run stop_and_discard ten_minute_session) = idle
  /\ distanceMeters (run stop_and_discard ten_minute_session) = 0.
Proof.
  destruct ten_minute_session_valid as (V1 & V2 & V3).
  destruct (discard_persists_nothing ten_minute_session V1 V2 V3)
    as (W1 & _ & W3 & _ & W5 & _).
  repeat split; assumption.
Defined.

(** X7.  Stopping a run that passes the minimum-distance check, in a state
    reached with handlers run to completion, freezes the session until the
    alert is answered: status, route, distance and elapsed time are kept,
    the subscription and the interval are closed, ticks and positions change
    nothing, and Start, Pause, Resume and Stop are all disabled. *)
Theorem valid_stop_freezes_session (stored : list Run.t) (l : list Action) :
  let s := perform l (initialTracker stored) in
  canStop s = true -> hasRoute s = true -> 10 <= distanceMeters s ->
  let s' := step PressStop s in
  status s' = status s /\ routeCoords s' = routeCoords s
  /\ distanceMeters s' = distanceMeters s /\ elapsedSec s' = elapsedSec s
  /\ runs s' = runs s
  /\ subscriptions s' = [] /\ intervals s' = []
  /\ tick s' = s'
  /\ (forall (h : Handle) (c : LatLng), step (LocationUpdate h c) s' = s')
  /\ canStart s' = false /\ canPause s' = false
  /\ canResume s' = false /\ canStop s' = false.
Proof.
  intros s Hcan Hr Hd s'.
  assert (Hs : settled s) by apply perform_settled, initial_settled.
  destruct (canStop_active s Hcan) as (Hact & _).
  assert (E : s' = setDialog
                (Some (mkSaveDialog (stopRun_summary s) (distanceMeters s)
                         (elapsedSec s) (routeCoords s)))
                (setTimerRef None (setIntervals []
                   (setWatchSubRef None (setSubscriptions [] s))))).
  { unfold s'. cbn [step]. rewrite Hcan, (stopRun_valid s Hact Hr Hd).
    rewrite (cleanup_settled s Hs). reflexivity. }
  clearbody s'. subst s'.
  repeat (split; [reflexivity |]).
  unfold canStart, canPause, canResume, canStop, noDialog.
  cbn [dialog setDialog]. rewrite !andb_false_r. repeat split.
Qed.

Lemma valid_stop_freezes_session_witness :
  status (step PressStop (perform one_fix_actions (initialTracker [])))
  = running
  /\ intervals (step PressStop (perform one_fix_actions (initialTracker [])))
     = []
  /\ canPause (step PressStop (perform one_fix_actions (initialTracker [])))
     = false.
Proof.
  assert (H1 : canStop (perform one_fix_actions (initialTracker [])) = true)
    by (rewrite one_fix_state; reflexivity).
  assert (H2 : hasRoute (perform one_fix_actions (initialTracker [])) = true)
    by (rewrite one_fix_state; reflexivity).
  assert (H3 : 10 <= distanceMeters
                       (perform one_fix_actions (initialTracker []))).
  { rewrite one_fix_state. cbn [running_screen distanceMeters].
    pose proof equator_degree_positive. lra. }
  destruct (valid_stop_freezes_session [] one_fix_actions H1 H2 H3)
    as (W1 & _ & _ & _ & _ & _ & W7 & _ & _ & _ & W11 & _).
  split; [| split; [exact W7 | exact W11]].
  rewrite W1, one_fix_state. reflexivity.
Defined.

(** ** Unmounting *)

Lemma act_torn_down (a : Action) (s : Tracker) :
  torn_down s -> torn_down (act a s).
Proof.
  intros [Hm Hsb Hiv Hw Ht].
  destruct a as [p c | | p | | t1 t2 | | h c | |]; cbn [act step].
  - unfold canStart. rewrite Hm. constructor; assumption.
  - unfold canPause. rewrite Hm. constructor; assumption.
  - unfold canResume. rewrite Hm. constructor; assumption.
  - unfold canStop. rewrite Hm. constructor; assumption.
  - destruct (dialog s); constructor; assumption.
  - destruct (dialog s); constructor; assumption.
  - unfold subscriber. rewrite Hsb. constructor; assumption.
  - unfold tick. rewrite Hiv. constructor; assumption.
  - rewrite Hm. constructor; assumption.
Qed.

Lemma perform_torn_down (l : list Action) (s : Tracker) :
  torn_down s -> torn_down (perform l s).
Proof.
  revert s. induction l as [| a tl IH]; intros s H; [exact H |].
  apply IH, act_torn_down, H.
Qed.

(** X8.  The unmount cleanup, in a state reached with handlers run to
    completion, closes the subscription and disarms the interval, and they
    stay closed whatever follows: no later tick advances the time and no
    later position reaches the route. *)
Theorem unmount_releases_everything
    (stored : list Run.t) (l l' : list Action) :
  let s := unmount (perform l (initialTracker stored)) in
  subscriptions s = [] /\ intervals s = []
  /\ watchSubRef s = None /\ timerRef s = None
  /\ subscriptions (perform l' s) = [] /\ intervals (perform l' s) = []
  /\ tick (perform l' s) = perform l' s
  /\ (forall (h : Handle) (c : LatLng),
        step (LocationUpdate h c) (perform l' s) = perform l' s).
Proof.
  intros s.
  assert (Hs : settled (perform l (initialTracker stored)))
    by apply perform_settled, initial_settled.
  assert (Ht : torn_down s).
  { unfold s, unmount. rewrite (cleanup_settled _ Hs).
    constructor; reflexivity. }
  destruct Ht as [T1 T2 T3 T4 T5].
  destruct (perform_torn_down l' s (mkTornDown s T1 T2 T3 T4 T5))
    as [U1 U2 U3 U4 U5].
  repeat (split; [assumption |]).
  split.
  - unfold tick. rewrite U3. reflexivity.
  - intros h c. cbn [step]. unfold subscriber. rewrite U2. reflexivity.
Qed.

(** ** Pausing and resuming *)

(** X9.  Pause followed by a granted Resume, with handlers run to
    completion, keeps the route, the distance and the elapsed time and
    returns to running with exactly one new subscription; the first
    position it delivers is measured from the last point recorded before
    the pause. *)
Theorem resume_continues_session (stored : list Run.t) (l : list Action) :
  let s := perform l (initialTracker stored) in
  canPause s = true ->
  let s' := perform pause_and_resume s in
  status s' = running
  /\ routeCoords s' = routeCoords s
  /\ distanceMeters s' = distanceMeters s
  /\ elapsedSec s' = elapsedSec s
  /\ subscriptions s' = [(nextHandle s, FromResumeRun)]
  /\ (forall c : LatLng,
        distanceMeters (act (DoLocation (nextHandle s) c) s')
        = distanceMeters s
          + match routeCoords s with
            | [] => 0
            | _ :: _ => haversineMeters (last (routeCoords s) c) c
            end).
Proof.
  intros s Hcan s'.
  assert (Hs : settled s) by apply perform_settled, initial_settled.
  destruct (pauseRun_fields s Hs) as (P1 & P2 & P3 & P4 & P5 & P6 & P7 & P8).
  assert (Hd : dialog s = None /\ mounted s = true).
  { unfold canPause, noDialog in Hcan.
    destruct (dialog s), (mounted s), (status s); cbn in Hcan;
      try discriminate; split; reflexivity. }
  destruct Hd as [Hdg Hmo].
  destruct (pauseRun_keeps s) as (_ & _ & _ & _ & _ & K6 & K7).
  assert (Hsp : settled (pauseRun s)).
  { pose proof (act_settled DoPause s Hs) as H. cbn [act] in H.
    rewrite Hcan in H. exact H. }
  assert (Hres : canResume (pauseRun s) = true).
  { unfold canResume, noDialog. rewrite P1, K6, K7, Hdg, Hmo. reflexivity. }
  assert (E : s' = resumeRun granted (pauseRun s)).
  { unfold s', pause_and_resume. cbn [perform fold_left act].
    rewrite Hcan, Hres. reflexivity. }
  assert (Hn : status (pauseRun s) <> running)
    by (rewrite P1; discriminate).
  destruct (resumeRun_granted_fields (pauseRun s) Hsp Hn)
    as (R1 & R2 & R3 & R4 & R5 & R6).
  destruct (resumeRun_fields granted (pauseRun s))
    as (G1 & G2 & G3 & _).
  assert (Hh : nextHandle (pauseRun s) = nextHandle s).
  { unfold pauseRun, clearTimer, stopLocationUpdates.
    destruct (watchSubRef s); cbn; destruct (timerRef s); reflexivity. }
  rewrite Hh in R5.
  rewrite E.
  split; [exact R1 |]. split; [rewrite G3; exact P8 |].
  split; [rewrite G1; exact P7 |]. split; [rewrite G2; exact P6 |].
  split; [exact R5 |].
  intros c. cbn [act step]. unfold subscriber. rewrite R5.
  cbn [find fst]. rewrite Nat.eqb_refl.
  rewrite onLocation_increment, G1, G3, P7, P8.
  destruct (routeCoords s) as [| x tl]; [reflexivity |].
  pose proof (haversineMeters_range (last (x :: tl) c) c) as [H0 _].
  rewrite Rmax_right by exact H0. reflexivity.
Qed.

Lemma resume_continues_session_witness :
  status (perform pause_and_resume
            (perform [DoStart granted origin] (initialTracker [])))
  = running
  /\ routeCoords (perform pause_and_resume
                    (perform [DoStart granted origin] (initialTracker [])))
     = [origin].
Proof.
  assert (H : canPause (perform [DoStart granted origin] (initialTracker []))
              = true) by reflexivity.
  destruct (resume_continues_session [] [DoStart granted origin] H)
    as (W1 & W2 & _).
  split; [exact W1 |]. rewrite W2. reflexivity.
Defined.

(** ** Printing times and paces *)

Lemma Int_part_bounds (r : R) : IZR (Int_part r) <= r < IZR (Int_part r) + 1.
Proof. pose proof (base_Int_part r) as [H1 H2]. split; lra. Qed.

Lemma Int_part_nonneg (r : R) : 0 <= r -> (0 <= Int_part r)%Z.
Proof.
  intros H. pose proof (Int_part_bounds r) as [_ Hu].
  assert (Hlt : IZR (-1) < IZR (Int_part r)) by (simpl; lra).
  apply lt_IZR in Hlt. lia.
Qed.

(** X10.  For a pace that is not negative, [formatPace] prints the whole
    minutes and the remaining seconds rounded to the nearest second; the
    seconds printed lie between 0 and 60 inclusive, 60 being printed exactly
    when the remainder is 59.5 s or more; the pace printed is within half a
    second per kilometre of the pace given. *)
Theorem formatPace_rounds_to_nearest_second (minPerKm : R) :
  0 <= minPerKm ->
  let m := Int_part minPerKm in
  let s := JS.Math_round (minPerKm * 60 - 60 * IZR m) in
  formatPace minPerKm = append (two_digits m) (append ":" (two_digits s))
  /\ (0 <= m)%Z
  /\ (0 <= s <= 60)%Z
  /\ (s = 60%Z <-> 59.5 <= minPerKm * 60 - 60 * IZR m)
  /\ Rabs (IZR m * 60 + IZR s - minPerKm * 60) <= / 2.
Proof.
  intros Hp m s.
  pose proof (Int_part_bounds minPerKm) as [Hm1 Hm2]. fold m in Hm1, Hm2.
  pose proof (Int_part_bounds (minPerKm * 60 - 60 * IZR m + / 2)) as [Hs1 Hs2].
  change (Int_part (minPerKm * 60 - 60 * IZR m + / 2)) with s in Hs1, Hs2.
  assert (Hlo : (0 <= s)%Z).
  { assert (H : IZR (-1) < IZR s) by (simpl; lra). apply lt_IZR in H. lia. }
  assert (Hhi : (s <= 60)%Z).
  { assert (H : IZR s < IZR 61) by (simpl; lra). apply lt_IZR in H. lia. }
  split.
  { apply formatPace_fields; [split; assumption | exact Hp | split; assumption]. }
  split; [apply Int_part_nonneg; exact Hp |].
  split; [split; assumption |].
  split.
  - split.
    + intros E. rewrite E in Hs1. simpl in Hs1. lra.
    + intros H. assert (H59 : IZR 59 < IZR s) by (simpl; lra).
      apply lt_IZR in H59. lia.
  - apply Rabs_le. split; lra.
Qed.

Lemma formatPace_rounds_to_nearest_second_witness :
  0 <= 6.5
  /\ formatPace 6.5
     = append (two_digits (Int_part 6.5))
         (append ":" (two_digits (JS.Math_round
                                    (6.5 * 60 - 60 * IZR (Int_part 6.5))))).
Proof.
  assert (H : 0 <= 6.5) by lra.
  split; [exact H |].
  exact (proj1 (formatPace_rounds_to_nearest_second 6.5 H)).
Defined.

Lemma two_digits_table :
  forallb
    (fun k =>
       Nat.eqb (String.length (two_digits (Z.of_nat k))) 2
       && forallb
            (fun j =>
               implb (String.eqb (two_digits (Z.of_nat k))
                                 (two_digits (Z.of_nat j)))
                     (Nat.eqb k j))
            (seq 0 100))
    (seq 0 100) = true.
Proof. vm_compute. reflexivity. Qed.

Lemma two_digits_length (n : Z) :
  (0 <= n < 100)%Z -> String.length (two_digits n) = 2%nat.
Proof.
  intros Hn.
  pose proof two_digits_table as T. rewrite forallb_forall in T.
  specialize (T (Z.to_nat n)).
  rewrite Z2Nat.id in T by lia.
  assert (Hin : In (Z.to_nat n) (seq 0 100)) by (apply in_seq; lia).
  apply T in Hin. apply andb_true_iff in Hin. destruct Hin as [Hl _].
  apply Nat.eqb_eq in Hl. exact Hl.
Qed.

Lemma two_digits_inj (a b : Z) :
  (0 <= a < 100)%Z -> (0 <= b < 100)%Z ->
  two_digits a = two_digits b -> a = b.
Proof.
  intros Ha Hb E.
  pose proof two_digits_table as T. rewrite forallb_forall in T.
  specialize (T (Z.to_nat a)).
  rewrite Z2Nat.id in T by lia.
  assert (Hin : In (Z.to_nat a) (seq 0 100)) by (apply in_seq; lia).
  apply T in Hin. apply andb_true_iff in Hin. destruct Hin as [_ Hall].
  rewrite forallb_forall in Hall.
  specialize (Hall (Z.to_nat b)).
  rewrite Z2Nat.id in Hall by lia.
  assert (Hinb : In (Z.to_nat b) (seq 0 100)) by (apply in_seq; lia).
  apply Hall in Hinb. rewrite E, String.eqb_refl in Hinb.
  cbn [implb] in Hinb. apply Nat.eqb_eq in Hinb. lia.
Qed.

Lemma append_inj_prefix (a b x y : string) :
  String.length a = String.length b ->
  append a x = append b y -> a = b /\ x = y.
Proof.
  revert b. induction a as [| ch a IH]; intros [| ch' b] Hl E;
    cbn in Hl; try discriminate.
  - split; [reflexivity | exact E].
  - cbn in E. injection E as Ech E.
    destruct (IH b) as [-> ->]; [lia | exact E |].
    subst ch'. split; reflexivity.
Qed.

Lemma append_length (a b : string) :
  String.length (append a b) = (String.length a + String.length b)%nat.
Proof. induction a as [| ch a IH]; cbn; [reflexivity | rewrite IH; reflexivity]. Qed.

Lemma formatTime_fields (t : Z) :
  (0 <= t)%Z ->
  formatTime t
  = append (two_digits (t / 3600))
      (append ":" (append (two_digits (t mod 3600 / 60))
         (append ":" (two_digits (t mod 60))))).
Proof.
  intros Ht. unfold formatTime, two_digits.
  rewrite !Z.rem_mod_nonneg by lia. reflexivity.
Qed.

(** X11.  For a duration that is not negative, [formatTime] prints hours,
    minutes below 60 and seconds below 60 that add up to the duration;
    below one hundred hours the text has exactly eight characters, and two
    different durations never print the same text. *)
Theorem formatTime_is_faithful (t : Z) :
  (0 <= t)%Z ->
  let h := (t / 3600)%Z in
  let m := (t mod 3600 / 60)%Z in
  let s := (t mod 60)%Z in
  formatTime t
  = append (two_digits h) (append ":" (append (two_digits m)
      (append ":" (two_digits s))))
  /\ (0 <= h /\ 0 <= m < 60 /\ 0 <= s < 60 /\ t = 3600 * h + 60 * m + s)%Z
  /\ ((t < 360000)%Z ->
      String.length (formatTime t) = 8%nat
      /\ forall t' : Z, (0 <= t' < 360000)%Z ->
           formatTime t' = formatTime t -> t' = t).
Proof.
  intros Ht h m s.
  split; [apply formatTime_fields; exact Ht |].
  assert (Hf : forall u : Z, (0 <= u < 360000)%Z ->
             (0 <= u / 3600 < 100 /\ 0 <= u mod 3600 / 60 < 100
              /\ 0 <= u mod 60 < 100
              /\ u = 3600 * (u / 3600) + 60 * (u mod 3600 / 60) + u mod 60)%Z).
  { intros u Hu. Z.div_mod_to_equations. lia. }
  split.
  { unfold h, m, s. Z.div_mod_to_equations. lia. }
  intros Hlt.
  destruct (Hf t (conj Ht Hlt)) as (B1 & B2 & B3 & B4).
  split.
  - rewrite formatTime_fields by exact Ht.
    rewrite !append_length. rewrite !two_digits_length by assumption. reflexivity.
  - intros t' Ht' E.
    destruct (Hf t' Ht') as (C1 & C2 & C3 & C4).
    rewrite !formatTime_fields in E by lia.
    apply append_inj_prefix in E;
      [| rewrite !two_digits_length by assumption; reflexivity].
    destruct E as [Eh E]. cbn [append] in E. injection E as E.
    apply append_inj_prefix in E;
      [| rewrite !two_digits_length by assumption; reflexivity].
    destruct E as [Em E]. cbn [append] in E. injection E as E.
    apply two_digits_inj in Eh; try assumption.
    apply two_digits_inj in Em; try assumption.
    apply two_digits_inj in E; try assumption.
    lia.
Qed.

Lemma formatTime_is_faithful_witness :
  (0 <= 45296)%Z
  /\ formatTime 45296 = "12:34:56"%string
  /\ String.length (formatTime 45296) = 8%nat.
Proof.
  assert (H : (0 <= 45296)%Z) by lia.
  destruct (formatTime_is_faithful 45296 H) as (W1 & _ & W3).
  split; [exact H |]. split.
  - rewrite W1. reflexivity.
  - apply W3. lia.
Defined.

(** ** The summary page *)

Lemma widen_bounds (e : RunSummary.Extent) (c : LatLng) :
  let e' := RunSummary.widen e c in
  RunSummary.minLat e' <= RunSummary.minLat e
  /\ RunSummary.maxLat e <= RunSummary.maxLat e'
  /\ RunSummary.minLng e' <= RunSummary.minLng e
  /\ RunSummary.maxLng e <= RunSummary.maxLng e'
  /\ RunSummary.minLat e' <= latitude c <= RunSummary.maxLat e'
  /\ RunSummary.minLng e' <= longitude c <= RunSummary.maxLng e'.
Proof.
  unfold RunSummary.widen.
  cbn [RunSummary.minLat RunSummary.maxLat RunSummary.minLng RunSummary.maxLng].
  destruct (Rlt_dec (latitude c) (RunSummary.minLat e));
    destruct (Rgt_dec (latitude c) (RunSummary.maxLat e));
    destruct (Rlt_dec (longitude c) (RunSummary.minLng e));
    destruct (Rgt_dec (longitude c) (RunSummary.maxLng e));
    repeat split; lra.
Qed.

Lemma fold_widen_bounds (coords : list LatLng) (e : RunSummary.Extent) :
  let e' := fold_left RunSummary.widen coords e in
  RunSummary.minLat e' <= RunSummary.minLat e
  /\ RunSummary.maxLat e <= RunSummary.maxLat e'
  /\ RunSummary.minLng e' <= RunSummary.minLng e
  /\ RunSummary.maxLng e <= RunSummary.maxLng e'
  /\ forall c : LatLng, In c coords ->
       RunSummary.minLat e' <= latitude c <= RunSummary.maxLat e'
       /\ RunSummary.minLng e' <= longitude c <= RunSummary.maxLng e'.
Proof.
  revert e. induction coords as [| c0 tl IH]; intros e.
  - cbn. split; [lra |]. split; [lra |]. split; [lra |]. split; [lra |].
    intros c [].
  - cbn [fold_left].
    destruct (IH (RunSummary.widen e c0)) as (A1 & A2 & A3 & A4 & A5).
    destruct (widen_bounds e c0) as (B1 & B2 & B3 & B4 & B5 & B6).
    cbv zeta in *.
    split; [lra |]. split; [lra |]. split; [lra |]. split; [lra |].
    intros c [E | Hin].
    + subst c. lra.
    + apply (A5 c Hin).
Qed.

Lemma extent_encloses (coords : list LatLng) :
  coords <> [] ->
  exists e : RunSummary.Extent,
    RunSummary.extent coords = Some e
    /\ forall c : LatLng, In c coords ->
         RunSummary.minLat e <= latitude c <= RunSummary.maxLat e
         /\ RunSummary.minLng e <= longitude c <= RunSummary.maxLng e.
Proof.
  intros Hne. destruct coords as [| c0 tl]; [contradiction |].
  eexists. split; [reflexivity |].
  apply fold_widen_bounds.
Qed.

(** X12.  [computeRegionFromCoords] throws on an empty route and on any
    other route returns a region, at least 0.014 degrees wide and high, that
    contains every coordinate with a margin: each point is no further from
    the centre than 1/1.4 of half the extent of the region. *)
Theorem computeRegion_encloses_route (coords : list LatLng) :
  RunSummary.computeRegionFromCoords [] = None
  /\ (coords <> [] ->
      exists r : Region,
        RunSummary.computeRegionFromCoords coords = Some r
        /\ 0.014 <= latitudeDelta r /\ 0.014 <= longitudeDelta r
        /\ forall c : LatLng, In c coords ->
             2.8 * Rabs (latitude c - rg_latitude r) <= latitudeDelta r
             /\ 2.8 * Rabs (longitude c - rg_longitude r)
                <= longitudeDelta r).
Proof.
  split; [reflexivity |].
  intros Hne. destruct (extent_encloses coords Hne) as (e & He & Hin).
  unfold RunSummary.computeRegionFromCoords. rewrite He.
  eexists. split; [reflexivity |].
  cbn [latitudeDelta longitudeDelta rg_latitude rg_longitude].
  pose proof (Rmax_l (RunSummary.maxLat e - RunSummary.minLat e) 0.01).
  pose proof (Rmax_r (RunSummary.maxLat e - RunSummary.minLat e) 0.01).
  pose proof (Rmax_l (RunSummary.maxLng e - RunSummary.minLng e) 0.01).
  pose proof (Rmax_r (RunSummary.maxLng e - RunSummary.minLng e) 0.01).
  split; [lra |]. split; [lra |].
  intros c Hc. destruct (Hin c Hc) as [[L1 L2] [G1 G2]].
  split.
  - assert (Ha : Rabs (latitude c - (RunSummary.minLat e + RunSummary.maxLat e) / 2)
                 <= (RunSummary.maxLat e - RunSummary.minLat e) / 2)
      by (apply Rabs_le; split; lra).
    lra.
  - assert (Ha : Rabs (longitude c - (RunSummary.minLng e + RunSummary.maxLng e) / 2)
                 <= (RunSummary.maxLng e - RunSummary.minLng e) / 2)
      by (apply Rabs_le; split; lra).
    lra.
Qed.

Lemma computeRegion_encloses_route_witness :
  [origin; one_degree_east] <> []
  /\ exists r : Region,
       RunSummary.computeRegionFromCoords [origin; one_degree_east] = Some r
       /\ 0.014 <= latitudeDelta r.
Proof.
  assert (H : [origin; one_degree_east] <> []) by discriminate.
  split; [exact H |].
  destruct (proj2 (computeRegion_encloses_route [origin; one_degree_east]) H)
    as (r & R1 & R2 & _).
  exists r. split; assumption.
Defined.

Lemma unit_fraction (v lo hi : R) :
  lo <= v <= hi ->
  0 <= (v - lo) / RunSummary.or_else (hi - lo) 0.0001 <= 1.
Proof.
  intros [H1 H2]. unfold RunSummary.or_else.
  destruct (Req_dec_T (hi - lo) 0) as [E | N].
  - replace (v - lo) with 0 by lra. unfold Rdiv. rewrite Rmult_0_l. lra.
  - assert (Hpos : 0 < hi - lo) by lra.
    split.
    + apply Rmult_le_pos; [lra |]. left. apply Rinv_0_lt_compat. exact Hpos.
    + apply (Rmult_le_reg_r (hi - lo)); [exact Hpos |].
      unfold Rdiv. rewrite Rmult_assoc, Rinv_l by lra. lra.
Qed.

(** X13.  [buildSvgPath] throws on an empty route; on any other route it
    draws one point per coordinate and every point lies inside the padded
    square, between 8 and 92 on both axes, also when all the coordinates
    share a latitude or a longitude. *)
Theorem svg_points_stay_in_the_box (show : R -> string) (coords : list LatLng) :
  RunSummary.buildSvgPath show [] = None
  /\ (coords <> [] ->
      exists points : list (R * R),
        RunSummary.svg_points coords = Some points
        /\ RunSummary.buildSvgPath show coords
           = Some (String.concat " " (RunSummary.svg_segments show true points))
        /\ List.length points = List.length coords
        /\ List.length (RunSummary.svg_segments show true points)
           = List.length coords
        /\ forall x y : R, In (x, y) points ->
             8 <= x <= 92 /\ 8 <= y <= 92).
Proof.
  split; [reflexivity |].
  intros Hne. destruct (extent_encloses coords Hne) as (e & He & Hin).
  unfold RunSummary.buildSvgPath, RunSummary.svg_points. rewrite He.
  eexists. split; [reflexivity |]. split; [reflexivity |].
  split; [apply length_map |].
  split.
  { rewrite <- (length_map
                  (fun c : LatLng =>
                     (8 + (longitude c - RunSummary.minLng e)
                          / RunSummary.or_else
                              (RunSummary.maxLng e - RunSummary.minLng e) 0.0001
                          * (100 - 8 * 2),
                      8 + (1 - (latitude c - RunSummary.minLat e)
                               / RunSummary.or_else
                                   (RunSummary.maxLat e - RunSummary.minLat e)
                                   0.0001)
                          * (100 - 8 * 2))) coords).
    generalize true.
    induction (map _ coords) as [| [x y] tl IH]; intros b;
      [reflexivity | cbn; rewrite IH; reflexivity]. }
  intros x y Hxy. apply in_map_iff in Hxy.
  destruct Hxy as (c & Ec & Hc). injection Ec as <- <-.
  destruct (Hin c Hc) as [HL HG].
  pose proof (unit_fraction (longitude c) _ _ HG) as [X1 X2].
  pose proof (unit_fraction (latitude c) _ _ HL) as [Y1 Y2].
  split; split; nra.
Qed.

Lemma svg_points_stay_in_the_box_witness :
  [origin; one_degree_east] <> []
  /\ exists points : list (R * R),
       RunSummary.svg_points [origin; one_degree_east] = Some points
       /\ List.length points = 2%nat.
Proof.
  assert (H : [origin; one_degree_east] <> []) by discriminate.
  split; [exact H |].
  destruct (proj2 (svg_points_stay_in_the_box (fun _ => EmptyString)
                     [origin; one_degree_east]) H)
    as (pts & P1 & _ & P3 & _).
  exists pts. split; [exact P1 | exact P3].
Defined.

Lemma summary_formatters_agree :
  (forall t : Z, RunSummary.formatTime t = formatTime t)
  /\ (forall p : R, RunSummary.formatPace p = formatPace p).
Proof. split; reflexivity. Qed.

(** X14.  After a run is stopped and saved, the summary page derives from
    the parameters it receives the same time, distance and pace texts that
    the confirmation alert showed, has a route to draw and a region to show
    it in. *)
Theorem summary_page_shows_saved_run (s : Tracker) (nowId nowDate : Z) :
  canStop s = true -> hasRoute s = true -> 10 <= distanceMeters s ->
  exists p : SummaryParams,
    pushed (run (stop_and_save nowId nowDate) s) = p :: pushed s
    /\ stopRun_summary s
       = append "Distance: " (append (RunSummary.formattedDistance p)
           (append " km" (append JS.newline (append "Time: "
           (append (RunSummary.formattedTime p) (append JS.newline
           (append "Pace: " (append (RunSummary.formattedPace p)
           " /km"))))))))
    /\ RunSummary.formattedPace p
       = formatPace (IZR (elapsedSec s) / 60 / (distanceMeters s / 1000))
    /\ RunSummary.hasRoute p = true
    /\ RunSummary.region p <> None.
Proof.
  intros Hcan Hr Hd.
  destruct (stop_then_save s nowId nowDate Hcan Hr Hd) as (_ & S2 & _).
  exists (mkParams (distanceMeters s) (elapsedSec s) (routeCoords s)).
  split; [exact S2 |].
  assert (Hpos : 0 < distanceMeters s / 1000) by lra.
  split.
  { unfold stopRun_summary, RunSummary.formattedDistance,
      RunSummary.formattedTime, RunSummary.formattedPace,
      RunSummary.paceMinPerKm, RunSummary.distanceKm, formattedTime.
    cbn [p_distanceMeters p_durationSec].
    destruct (Rlt_dec 0 (distanceMeters s / 1000)) as [_ | Hn];
      [reflexivity | contradiction]. }
  split.
  { unfold RunSummary.formattedPace, RunSummary.paceMinPerKm,
      RunSummary.distanceKm.
    cbn [p_distanceMeters p_durationSec].
    destruct (Rlt_dec 0 (distanceMeters s / 1000)) as [_ | Hn];
      [reflexivity | contradiction]. }
  split; [exact Hr |].
  unfold RunSummary.region. cbn [p_coords].
  unfold hasRoute in Hr.
  destruct (routeCoords s) as [| c0 tl] eqn:E; [discriminate |].
  destruct (extent_encloses (c0 :: tl)) as (e & He & _); [discriminate |].
  unfold RunSummary.computeRegionFromCoords. rewrite He. discriminate.
Qed.

Lemma summary_page_shows_saved_run_witness :
  exists p : SummaryParams,
    pushed (run (stop_and_save 1700000000000 1700000000000)
              ten_minute_session) = [p]
    /\ RunSummary.hasRoute p = true.
Proof.
  destruct ten_minute_session_valid as (V1 & V2 & V3).
  destruct (summary_page_shows_saved_run ten_minute_session
              1700000000000 1700000000000 V1 V2 V3)
    as (p & P1 & _ & _ & P4 & _).
  exists p. split; [exact P1 | exact P4].
Defined.

(** ** The run utilities *)

Lemma utility_haversine_agrees (a b : LatLng) :
  RunUtils.haversineMeters a b = haversineMeters a b.
Proof.
  unfold RunUtils.haversineMeters, haversineMeters. cbv zeta.
  replace (6371 * 10 ^ 3) with 6371000 by (simpl; ring). reflexivity.
Qed.




(** ** The calorie estimate *)

Lemma Int_part_monotone (x y : R) : x <= y -> (Int_part x <= Int_part y)%Z.
Proof.
  intros H.
  pose proof (Int_part_bounds x) as [X1 X2].
  pose proof (Int_part_bounds y) as [Y1 Y2].
  assert (Hlt : IZR (Int_part x) < IZR (Int_part y + 1)).
  { rewrite plus_IZR. simpl. lra. }
  apply lt_IZR in Hlt. lia.
Qed.

Lemma MET_of_speed_range (v : R) : 4 <= MET_of_speed v <= 12.5.
Proof.
  unfold MET_of_speed.
  repeat match goal with |- context [Rlt_dec ?a ?b] => destruct (Rlt_dec a b) end;
    split; lra.
Qed.

Lemma MET_of_speed_monotone (u v : R) :
  u <= v -> MET_of_speed u <= MET_of_speed v.
Proof.
  intros H. unfold MET_of_speed.
  repeat match goal with |- context [Rlt_dec ?a ?b] => destruct (Rlt_dec a b) end;
    lra.
Qed.

Lemma estimateRunCalories_positive_case (w d t : R) :
  0 < w -> 0 < d -> 0 < t ->
  estimateRunCalories w d t
  = JS.Math_round (MET_of_speed ((d / 1000) / (t / 3600)) * w * (t / 3600)).
Proof.
  intros Hw Hd Ht. unfold estimateRunCalories.
  destruct (Rle_dec t 0); [lra |].
  destruct (Rle_dec d 0); [lra |].
  destruct (Rle_dec w 0); [lra |]. reflexivity.
Qed.

Lemma estimateRunCalories_nonneg (w d t : R) :
  (0 <= estimateRunCalories w d t)%Z.
Proof.
  unfold estimateRunCalories.
  destruct (Rle_dec t 0); [lia |].
  destruct (Rle_dec d 0); [lia |].
  destruct (Rle_dec w 0); [lia |].
  cbv zeta. unfold JS.Math_round.
  pose proof (MET_of_speed_range ((d / 1000) / (t / 3600))) as [M1 M2].
  assert (Hp : 0 <= MET_of_speed ((d / 1000) / (t / 3600)) * w * (t / 3600))
    by (repeat apply Rmult_le_pos; lra).
  apply Int_part_nonneg. lra.
Qed.

(** X16.  [estimateRunCalories] is 0 as soon as the weight, the distance or
    the duration is not positive; otherwise it is a whole number of
    kilocalories that is not negative and lies within one half of MET times
    weight times hours for a MET between 4 and 12.5, hence between
    4 * kg * h - 1/2 and 12.5 * kg * h + 1/2. *)
Theorem estimateRunCalories_bounds (weightKg distanceMeters durationSec : R) :
  (weightKg <= 0 \/ distanceMeters <= 0 \/ durationSec <= 0 ->
   estimateRunCalories weightKg distanceMeters durationSec = 0%Z)
  /\ (0 <= estimateRunCalories weightKg distanceMeters durationSec)%Z
  /\ (0 < weightKg -> 0 < distanceMeters -> 0 < durationSec ->
      let hours := durationSec / 3600 in
      4 * weightKg * hours - / 2
      <= IZR (estimateRunCalories weightKg distanceMeters durationSec)
      <= 12.5 * weightKg * hours + / 2).
Proof.
  split.
  { intros H. unfold estimateRunCalories.
    destruct (Rle_dec durationSec 0); [reflexivity |].
    destruct (Rle_dec distanceMeters 0); [reflexivity |].
    destruct (Rle_dec weightKg 0); [reflexivity |].
    exfalso. destruct H as [H | [H | H]]; lra. }
  split; [apply estimateRunCalories_nonneg |].
  intros Hw Hd Ht hours.
  rewrite (estimateRunCalories_positive_case _ _ _ Hw Hd Ht).
  fold hours.
  pose proof (MET_of_speed_range (distanceMeters / 1000 / hours)) as [M1 M2].
  unfold JS.Math_round.
  pose proof (Int_part_bounds
                (MET_of_speed (distanceMeters / 1000 / hours)
                 * weightKg * hours + / 2)) as [B1 B2].
  assert (Hh : 0 < hours) by (unfold hours; lra).
  assert (Hwh : 0 < weightKg * hours) by (apply Rmult_lt_0_compat; lra).
  split; nra.
Qed.

Lemma estimateRunCalories_bounds_witness :
  0 < 80 /\ 0 < 5000 /\ 0 < 1800
  /\ 4 * 80 * (1800 / 3600) - / 2 <= IZR (estimateRunCalories 80 5000 1800)
     <= 12.5 * 80 * (1800 / 3600) + / 2.
Proof.
  assert (H1 : 0 < 80) by lra. assert (H2 : 0 < 5000) by lra.
  assert (H3 : 0 < 1800) by lra.
  split; [exact H1 |]. split; [exact H2 |]. split; [exact H3 |].
  exact (proj2 (proj2 (estimateRunCalories_bounds 80 5000 1800)) H1 H2 H3).
Defined.

(** X17.  Over the same duration, a heavier runner or a longer distance
    never lowers the estimate: [estimateRunCalories] is monotone in the
    weight and in the distance. *)
Theorem estimateRunCalories_monotone (w1 w2 d1 d2 t : R) :
  w1 <= w2 -> d1 <= d2 ->
  (estimateRunCalories w1 d1 t <= estimateRunCalories w2 d2 t)%Z.
Proof.
  intros Hw Hd.
  destruct (Rle_dec t 0) as [Ht | Ht].
  { unfold estimateRunCalories. destruct (Rle_dec t 0); [lia | contradiction]. }
  destruct (Rle_dec d1 0) as [Hd1 | Hd1].
  { replace (estimateRunCalories w1 d1 t) with 0%Z.
    - apply estimateRunCalories_nonneg.
    - unfold estimateRunCalories. destruct (Rle_dec t 0); [reflexivity |].
      destruct (Rle_dec d1 0); [reflexivity | contradiction]. }
  destruct (Rle_dec w1 0) as [Hw1 | Hw1].
  { replace (estimateRunCalories w1 d1 t) with 0%Z.
    - apply estimateRunCalories_nonneg.
    - unfold estimateRunCalories. destruct (Rle_dec t 0); [reflexivity |].
      destruct (Rle_dec d1 0); [reflexivity |].
      destruct (Rle_dec w1 0); [reflexivity | contradiction]. }
  rewrite !estimateRunCalories_positive_case by lra.
  unfold JS.Math_round. apply Int_part_monotone.
  assert (Hh : 0 < t / 3600) by lra.
  assert (Hv : d1 / 1000 / (t / 3600) <= d2 / 1000 / (t / 3600)).
  { unfold Rdiv. apply Rmult_le_compat_r.
    - left. apply Rinv_0_lt_compat. exact Hh.
    - lra. }
  pose proof (MET_of_speed_monotone _ _ Hv) as Hm.
  pose proof (MET_of_speed_range (d1 / 1000 / (t / 3600))) as [M1 _].
  assert (H1 : MET_of_speed (d1 / 1000 / (t / 3600)) * w1
               <= MET_of_speed (d2 / 1000 / (t / 3600)) * w2)
    by (apply Rmult_le_compat; lra).
  assert (H2 : MET_of_speed (d1 / 1000 / (t / 3600)) * w1 * (t / 3600)
               <= MET_of_speed (d2 / 1000 / (t / 3600)) * w2 * (t / 3600))
    by (apply Rmult_le_compat_r; lra).
  lra.
Qed.

Lemma estimateRunCalories_monotone_witness :
  70 <= 80 /\ 5000 <= 6000
  /\ (estimateRunCalories 70 5000 1800 <= estimateRunCalories 80 6000 1800)%Z.
Proof.
  assert (H1 : 70 <= 80) by lra. assert (H2 : 5000 <= 6000) by lra.
  split; [exact H1 |]. split; [exact H2 |].
  exact (estimateRunCalories_monotone 70 80 5000 6000 1800 H1 H2).
Defined.

(** ** Badges *)

Lemma some_run_at_least_app (bound : R) (more runs : list Run.t) :
  Badges.some_run_at_least bound runs = true ->
  Badges.some_run_at_least bound (more ++ runs) = true.
Proof.
  unfold Badges.some_run_at_least. intros H.
  rewrite existsb_app, H. apply orb_true_r.
Qed.

Lemma some_run_at_least_weaken (lo hi : R) (runs : list Run.t) :
  lo <= hi ->
  Badges.some_run_at_least hi runs = true ->
  Badges.some_run_at_least lo runs = true.
Proof.
  unfold Badges.some_run_at_least. intros Hle H.
  apply existsb_exists in H. destruct H as (r & Hin & Hr).
  apply existsb_exists. exists r. split; [exact Hin |].
  destruct (Rge_dec (Run.distanceMeters r) hi); [| discriminate].
  destruct (Rge_dec (Run.distanceMeters r) lo); [reflexivity | lra].
Qed.

Lemma unlocked_rules (name : string) (stats : Badges.StatsShape)
    (runs : list Run.t) :
  Badges.unlocked name stats runs
  = (String.eqb "first_run" name && Nat.leb 1 (List.length runs))
    || (String.eqb "streak_5" name && Z.geb (Badges.weeklyStreak stats) 5)
    || (String.eqb "distance_5k" name && Badges.some_run_at_least 5000 runs)
    || (String.eqb "distance_10k" name && Badges.some_run_at_least 10000 runs).
Proof.
  unfold Badges.unlocked, Badges.ACHIEVEMENTS.
  cbn [existsb Badges.id Badges.rule]. rewrite orb_false_r, !orb_assoc.
  reflexivity.
Qed.

(** X18.  The rules of the badge table never lock a badge again: a badge
    unlocked for some runs and streak stays unlocked when runs are added in
    front and the streak does not drop.  The 10 km badge implies the 5 km
    badge, which implies the first-run badge. *)
Theorem badges_stay_unlocked (name : string) (stats stats' : Badges.StatsShape)
    (runs more : list Run.t) :
  (Badges.weeklyStreak stats <= Badges.weeklyStreak stats')%Z ->
  (Badges.unlocked name stats runs = true ->
   Badges.unlocked name stats' (more ++ runs) = true)
  /\ (Badges.unlocked "distance_10k" stats runs = true ->
      Badges.unlocked "distance_5k" stats runs = true)
  /\ (Badges.unlocked "distance_5k" stats runs = true ->
      Badges.unlocked "first_run" stats runs = true).
Proof.
  intros Hs. split; [| split].
  - rewrite !unlocked_rules. intros H.
    repeat rewrite orb_true_iff in H. repeat rewrite orb_true_iff.
    destruct H as [[[H | H] | H] | H];
      apply andb_true_iff in H; destruct H as [H1 H2]; rewrite H1.
    + left. left. left. cbn [andb]. apply Nat.leb_le in H2. apply Nat.leb_le.
      rewrite length_app. lia.
    + left. left. right. cbn [andb]. rewrite Z.geb_le in *. lia.
    + left. right. cbn [andb]. apply some_run_at_least_app. exact H2.
    + right. cbn [andb]. apply some_run_at_least_app. exact H2.
  - rewrite !unlocked_rules. cbn. rewrite !orb_false_r.
    apply some_run_at_least_weaken. lra.
  - rewrite !unlocked_rules. cbn. rewrite !orb_false_r.
    unfold Badges.some_run_at_least. intros H.
    apply existsb_exists in H. destruct H as (r & Hin & _).
    destruct runs; [contradiction | reflexivity].
Qed.

Lemma badges_stay_unlocked_witness :
  (0 <= 3)%Z
  /\ Badges.unlocked "first_run" (Badges.mkStats 3)
       ([Run.mk "2" "2024-01-02T00:00:00.000Z" 1200 400%Z]
        ++ [Run.mk "1" "2024-01-01T00:00:00.000Z" 800 300%Z]) = true.
Proof.
  assert (H : (0 <= 3)%Z) by lia.
  split; [exact H |].
  apply (proj1 (badges_stay_unlocked "first_run" (Badges.mkStats 0)
                  (Badges.mkStats 3)
                  [Run.mk "1" "2024-01-01T00:00:00.000Z" 800 300%Z]
                  [Run.mk "2" "2024-01-02T00:00:00.000Z" 1200 400%Z] H)).
  reflexivity.
Defined.

(** ** Streaks *)

Lemma block_in_prefix (bs : list bool) (x : bool) (start k : nat) :
  (start + k <= List.length bs)%nat ->
  all_true_block (bs ++ [x]) start k <-> all_true_block bs start k.
Proof.
  intros Hle. unfold all_true_block. rewrite length_app. cbn [List.length].
  split; intros [H1 H2]; (split; [lia |]); intros j Hj.
  - rewrite <- (H2 j Hj). symmetry. apply app_nth1. lia.
  - rewrite <- (H2 j Hj). apply app_nth1. lia.
Qed.

Lemma nth_last_appended (bs : list bool) (x : bool) :
  nth (List.length bs) (bs ++ [x]) false = x.
Proof. rewrite app_nth2 by lia. rewrite Nat.sub_diag. reflexivity. Qed.

Lemma streak_state_step (bs : list bool) (st : nat * nat) (x : bool) :
  streak_state bs st -> streak_state (bs ++ [x]) (turn_on_bool st x).
Proof.
  destruct st as [L C]. intros [[Ha HaC] Hb [s0 Hc] Hd]. cbn [fst snd] in *.
  assert (HCL : (C <= L)%nat) by (apply (Hd _ _ Ha)).
  set (n := List.length bs) in *.
  assert (Hlen : List.length (bs ++ [x]) = S n)
    by (rewrite length_app; cbn; unfold n; lia).
  destruct x; cbn [turn_on_bool].
  - (* the day counts *)
    assert (Ha' : all_true_block (bs ++ [true]) (S n - S C) (S C)).
    { split; [rewrite Hlen; lia |]. intros j Hj.
      destruct (Nat.eq_dec j C) as [-> | Hne].
      - replace (S n - S C + C)%nat with n by lia. apply nth_last_appended.
      - destruct Ha as [_ Ha]. rewrite app_nth1 by (fold n; lia).
        replace (S n - S C + j)%nat with (n - C + j)%nat by lia.
        apply Ha. lia. }
    assert (Hb' : forall k : nat, (k <= S n)%nat ->
               all_true_block (bs ++ [true]) (S n - k) k -> (k <= S C)%nat).
    { intros k Hk [_ Hblk]. destruct k as [| k]; [lia |].
      assert (Hk' : (k <= C)%nat); [| lia].
      apply Hb; [lia |]. split; [lia |]. intros j Hj.
      specialize (Hblk j ltac:(lia)).
      rewrite app_nth1 in Hblk by (fold n; lia).
      replace (n - k + j)%nat with (S n - S k + j)%nat by lia. exact Hblk. }
    constructor; cbn [fst snd]; rewrite ?Hlen.
    + split; [exact Ha' | lia].
    + exact Hb'.
    + destruct (Nat.ltb L (S C)) eqn:E.
      * exists (S n - S C)%nat. exact Ha'.
      * exists s0. apply block_in_prefix; [apply Hc | exact Hc].
    + intros s k Hblk.
      assert (Hgoal : (k <= L \/ k <= S C)%nat).
      { destruct (le_lt_dec (s + k) n) as [Hin | Hout].
        - left. apply (Hd s). apply (block_in_prefix bs true); assumption.
        - right. destruct Hblk as [Hlen' Hblk]. rewrite Hlen in Hlen'.
          apply Hb'; [lia |].
          replace (S n - k)%nat with s by lia.
          split; [rewrite Hlen; lia | exact Hblk]. }
      destruct (Nat.ltb L (S C)) eqn:E;
        [apply Nat.ltb_lt in E | apply Nat.ltb_ge in E]; lia.
  - (* the day does not count *)
    assert (Hnone : forall s k : nat,
               all_true_block (bs ++ [false]) s k -> (n < s + k)%nat ->
               k = O).
    { intros s k [Hlen' Hblk] Hout. rewrite Hlen in Hlen'.
      destruct k as [| k]; [reflexivity |].
      specialize (Hblk (n - s)%nat ltac:(lia)).
      replace (s + (n - s))%nat with n in Hblk by lia.
      unfold n in Hblk. rewrite nth_last_appended in Hblk. discriminate. }
    assert (EL : (if Nat.ltb L C then C else L) = L).
    { destruct (Nat.ltb L C) eqn:E; [apply Nat.ltb_lt in E; lia | reflexivity]. }
    rewrite EL.
    constructor; cbn [fst snd]; rewrite ?Hlen.
    + split; [| lia]. split; [rewrite Hlen; lia | intros j Hj; lia].
    + intros k Hk Hblk.
      destruct k as [| k]; [lia |].
      specialize (Hnone _ _ Hblk ltac:(lia)). discriminate.
    + exists s0. apply block_in_prefix; [apply Hc | exact Hc].
    + intros s k Hblk.
      destruct (le_lt_dec (s + k) n) as [Hin | Hout].
      * apply (Hd s). apply (block_in_prefix bs false); assumption.
      * rewrite (Hnone _ _ Hblk Hout). lia.
Qed.

Lemma streak_state_fold (bs : list bool) :
  streak_state bs (fold_left turn_on_bool bs (O, O)).
Proof.
  induction bs as [| x bs IH] using rev_ind.
  - constructor; cbn [fst snd fold_left List.length].
    + split; [| lia]. split; [cbn; lia | intros j Hj; lia].
    + intros k Hk _. lia.
    + exists O. split; [cbn; lia | intros j Hj; lia].
    + intros s k [Hlen _]. cbn in Hlen. lia.
  - rewrite fold_left_app. cbn [fold_left].
    apply streak_state_step. exact IH.
Qed.

Section StreakProperties.

Variable dayKey : nat -> string.

Lemma has_day_In (days : list string) (key : string) :
  AppContext.has_day days key = true <-> In key days.
Proof.
  unfold AppContext.has_day. rewrite existsb_exists. split.
  - intros (d & Hin & E). apply String.eqb_eq in E. subst d. exact Hin.
  - intros Hin. exists key. split; [exact Hin | apply String.eqb_refl].
Qed.

Lemma streak_turns_on_bools (days : list string) (idx : list nat)
    (st : nat * nat) :
  fold_left (AppContext.streak_turn dayKey days) idx st
  = fold_left turn_on_bool
      (map (fun i => AppContext.has_day days (dayKey i)) idx) st.
Proof.
  revert st. induction idx as [| i tl IH]; intros st; [reflexivity |].
  cbn [fold_left map]. rewrite IH. reflexivity.
Qed.

Lemma nth_hits (days : list string) (i : nat) :
  (i < 365)%nat ->
  nth i (map (fun i => AppContext.has_day days (dayKey i)) (seq 0 365)) false
  = AppContext.has_day days (dayKey i).
Proof.
  intros Hi.
  rewrite (nth_indep _ false (AppContext.has_day days (dayKey 0)))
    by (rewrite length_map, length_seq; exact Hi).
  rewrite (map_nth (fun i => AppContext.has_day days (dayKey i))).
  rewrite seq_nth by exact Hi. reflexivity.
Qed.

Lemma block_of_days (runs : list Run.t) (start k : nat) :
  all_true_block
    (map (fun i => AppContext.has_day (map AppContext.run_day runs) (dayKey i))
       (seq 0 365)) start k
  <-> (start + k <= 365)%nat
      /\ forall j : nat, (j < k)%nat ->
           AppContext.ran_on dayKey runs (start + j).
Proof.
  unfold all_true_block, AppContext.ran_on.
  rewrite length_map, length_seq.
  split; intros [H1 H2]; (split; [exact H1 |]); intros j Hj.
  - apply has_day_In. rewrite <- nth_hits by lia. apply H2. exact Hj.
  - rewrite nth_hits by lia. apply has_day_In. apply H2. exact Hj.
Qed.

(** X19.  [computeLongestStreak] is 0 without runs; otherwise it is the
    length of the longest stretch of consecutive days with a run among the
    365 days that end today: some stretch of that length exists, and no
    stretch in the window is longer; it never exceeds 365. *)
Theorem computeLongestStreak_is_longest_stretch (runs : list Run.t) :
  AppContext.computeLongestStreak dayKey [] = O
  /\ (AppContext.computeLongestStreak dayKey runs <= 365)%nat
  /\ (runs <> [] ->
      (exists start : nat,
          (start + AppContext.computeLongestStreak dayKey runs <= 365)%nat
          /\ forall j : nat,
               (j < AppContext.computeLongestStreak dayKey runs)%nat ->
               AppContext.ran_on dayKey runs (start + j))
      /\ forall start k : nat,
           (start + k <= 365)%nat ->
           (forall j : nat, (j < k)%nat ->
              AppContext.ran_on dayKey runs (start + j)) ->
           (k <= AppContext.computeLongestStreak dayKey runs)%nat).
Proof.
  split; [reflexivity |].
  destruct runs as [| r0 tl]; [split; [cbn; lia | intros H; contradiction] |].
  set (runs := r0 :: tl).
  assert (E : AppContext.computeLongestStreak dayKey runs
              = fst (fold_left turn_on_bool
                       (map (fun i => AppContext.has_day
                                        (map AppContext.run_day runs) (dayKey i))
                          (seq 0 365)) (O, O))).
  { unfold runs, AppContext.computeLongestStreak.
    rewrite streak_turns_on_bools. reflexivity. }
  rewrite E.
  destruct (streak_state_fold
              (map (fun i => AppContext.has_day
                               (map AppContext.run_day runs) (dayKey i))
                 (seq 0 365))) as [_ _ [s0 Hc] Hd].
  assert (Hreach := proj1 (block_of_days runs s0 _) Hc).
  split; [lia |].
  intros _. split.
  - exists s0. exact Hreach.
  - intros start k Hk Hall. apply (Hd start).
    apply block_of_days. split; assumption.
Qed.

Lemma streak_loop_spec (days : list string) (idx : list nat) (acc : nat) :
  let w := HomeTab.streak_loop dayKey days idx acc in
  (acc <= w <= acc + List.length idx)%nat
  /\ (forall j : nat, (j < w - acc)%nat ->
        AppContext.has_day days (dayKey (nth j idx O)) = true)
  /\ ((w - acc < List.length idx)%nat ->
      AppContext.has_day days (dayKey (nth (w - acc) idx O)) = false).
Proof.
  revert acc. induction idx as [| i tl IH]; intros acc; cbn [HomeTab.streak_loop].
  - cbn. split; [lia |]. split; intros; lia.
  - destruct (AppContext.has_day days (dayKey i)) eqn:Hi.
    + destruct (IH (S acc)) as (B & Hall & Hstop). cbv zeta in *.
      set (w := HomeTab.streak_loop dayKey days tl (S acc)) in *.
      split; [cbn [List.length]; lia |]. split.
      * intros j Hj. destruct j as [| j]; [exact Hi |].
        cbn [nth]. apply Hall. lia.
      * intros Hlt. cbn [List.length] in Hlt.
        replace (w - acc)%nat with (S (w - S acc)) by lia.
        cbn [nth]. apply Hstop. lia.
    + cbv zeta. rewrite Nat.sub_diag. split; [cbn [List.length]; lia |].
      split; [intros j Hj; lia |]. intros _. exact Hi.
Qed.

(** X20.  [weeklyStreakSafe] on the home tab counts the days in a row with a
    run going back from today: each of its first days has a run, the day it
    stops at (within the 365-day window) has none, and it never exceeds the
    longest streak that [computeLongestStreak] reports for the same runs. *)
Theorem weeklyStreakSafe_counts_back_from_today (runs : list Run.t) :
  let w := HomeTab.weeklyStreakSafe dayKey runs in
  (w <= 365)%nat
  /\ (forall j : nat, (j < w)%nat -> AppContext.ran_on dayKey runs j)
  /\ (runs <> [] -> (w < 365)%nat -> ~ AppContext.ran_on dayKey runs w)
  /\ (w <= AppContext.computeLongestStreak dayKey runs)%nat.
Proof.
  intros w.
  destruct runs as [| r0 tl].
  { unfold w. cbn. split; [lia |]. split; [intros j Hj; lia |].
    split; [intros H; contradiction | lia]. }
  set (runs := r0 :: tl) in *.
  destruct (streak_loop_spec (map AppContext.run_day runs) (seq 0 365) O)
    as (B & Hall & Hstop).
  change (HomeTab.streak_loop dayKey (map AppContext.run_day runs)
            (seq 0 365) O) with w in B, Hall, Hstop.
  cbv zeta in Hall, Hstop.
  clearbody w.
  rewrite length_seq in B, Hstop. rewrite Nat.sub_0_r in Hall, Hstop.
  assert (Hran : forall j : nat, (j < w)%nat -> AppContext.ran_on dayKey runs j).
  { intros j Hj. apply has_day_In.
    specialize (Hall j Hj). rewrite seq_nth in Hall by lia.
    rewrite Nat.add_0_l in Hall. exact Hall. }
  split; [lia |]. split; [exact Hran |]. split.
  - intros _ Hlt Hr. apply has_day_In in Hr.
    specialize (Hstop Hlt). rewrite seq_nth in Hstop by lia.
    rewrite Nat.add_0_l in Hstop. rewrite Hr in Hstop. discriminate.
  - assert (E : AppContext.computeLongestStreak dayKey runs
                = fst (fold_left turn_on_bool
                         (map (fun i => AppContext.has_day
                                          (map AppContext.run_day runs)
                                          (dayKey i)) (seq 0 365)) (O, O))).
    { unfold runs, AppContext.computeLongestStreak.
      rewrite streak_turns_on_bools. reflexivity. }
    rewrite E.
    destruct (streak_state_fold
                (map (fun i => AppContext.has_day
                                 (map AppContext.run_day runs) (dayKey i))
                   (seq 0 365))) as [_ _ _ Hd].
    apply (Hd O). apply block_of_days. split; [lia |].
    intros j Hj. apply Hran. exact Hj.
Qed.

End StreakProperties.

(** ** Achievements of the application context *)

Section AchievementProperties.

Variable dayKey : nat -> string.
Variable getTime : string -> Z.

Lemma insert_by_time_perm (r : Run.t) (l : list Run.t) :
  Permutation (AppContext.insert_by_time getTime r l) (r :: l).
Proof.
  induction l as [| x tl IH]; cbn [AppContext.insert_by_time].
  - apply Permutation_refl.
  - destruct (Z.leb _ _); [apply Permutation_refl |].
    apply perm_trans with (x :: r :: tl);
      [apply perm_skip; exact IH | apply perm_swap].
Qed.

Lemma sort_by_time_perm (runs : list Run.t) :
  Permutation (AppContext.sort_by_time getTime runs) runs.
Proof.
  induction runs as [| r tl IH]; [apply Permutation_refl |].
  cbn [AppContext.sort_by_time fold_right].
  apply perm_trans with (r :: AppContext.sort_by_time getTime tl);
    [apply insert_by_time_perm | apply perm_skip; exact IH].
Qed.

Lemma insert_by_time_sorted (r : Run.t) (l : list Run.t) :
  StronglySorted (by_time getTime) l ->
  StronglySorted (by_time getTime) (AppContext.insert_by_time getTime r l).
Proof.
  induction l as [| x tl IH]; intros Hs; cbn [AppContext.insert_by_time].
  - constructor; [constructor | constructor].
  - inversion Hs as [| ? ? Htl Hall]; subst.
    destruct (Z.leb (getTime (Run.dateISO r)) (getTime (Run.dateISO x))) eqn:E.
    + apply Z.leb_le in E. constructor; [exact Hs |].
      constructor; [exact E |].
      apply Forall_impl with (P := by_time getTime x); [| exact Hall].
      intros a Ha. unfold by_time in *. lia.
    + apply Z.leb_gt in E. constructor; [apply IH; exact Htl |].
      apply (Permutation_Forall
               (Permutation_sym (insert_by_time_perm r tl))).
      constructor; [unfold by_time; lia | exact Hall].
Qed.

Lemma sort_by_time_sorted (runs : list Run.t) :
  StronglySorted (by_time getTime) (AppContext.sort_by_time getTime runs).
Proof.
  induction runs as [| r tl IH]; [constructor |].
  cbn [AppContext.sort_by_time fold_right].
  apply insert_by_time_sorted. exact IH.
Qed.

Lemma fold_total (l : list Run.t) (a : R) :
  fold_left (fun sum r => sum + Run.distanceMeters r) l a
  = a + total_distance l.
Proof.
  revert a. induction l as [| r tl IH]; intros a; cbn [fold_left total_distance fold_right].
  - ring.
  - rewrite IH. fold (total_distance tl). ring.
Qed.

Lemma total_distance_perm (l l' : list Run.t) :
  Permutation l l' -> total_distance l = total_distance l'.
Proof.
  induction 1 as [| x l l' Hp IH | x y l | l l' l'' Hp1 IH1 Hp2 IH2].
  - reflexivity.
  - change (Run.distanceMeters x + total_distance l
            = Run.distanceMeters x + total_distance l').
    rewrite IH. reflexivity.
  - change (Run.distanceMeters y + (Run.distanceMeters x + total_distance l)
            = Run.distanceMeters x + (Run.distanceMeters y + total_distance l)).
    ring.
  - rewrite IH1. exact IH2.
Qed.

Lemma existsb_perm {A : Type} (f : A -> bool) (l l' : list A) :
  Permutation l l' -> existsb f l = existsb f l'.
Proof.
  intros Hp. apply eq_true_iff_eq. rewrite !existsb_exists.
  split; intros (x & Hin & Hx); exists x; split; try exact Hx.
  - apply (Permutation_in _ Hp Hin).
  - apply (Permutation_in _ (Permutation_sym Hp) Hin).
Qed.

Lemma find_isSome {A : Type} (f : A -> bool) (l : list A) :
  match find f l with Some _ => true | None => false end = existsb f l.
Proof.
  induction l as [| x tl IH]; [reflexivity |].
  cbn [find existsb]. destruct (f x); [reflexivity | exact IH].
Qed.

Lemma longest_streak_perm (l l' : list Run.t) :
  Permutation l l' ->
  AppContext.computeLongestStreak dayKey l
  = AppContext.computeLongestStreak dayKey l'.
Proof.
  intros Hp.
  destruct l as [| a tl]; destruct l' as [| a' tl'].
  - reflexivity.
  - apply Permutation_nil in Hp. discriminate.
  - apply Permutation_sym, Permutation_nil in Hp. discriminate.
  - unfold AppContext.computeLongestStreak.
    rewrite !streak_turns_on_bools. do 2 f_equal.
    apply map_ext. intros i. unfold AppContext.has_day.
    apply existsb_perm, Permutation_map, Hp.
Qed.

Lemma sort_by_time_empty (runs : list Run.t) :
  AppContext.sort_by_time getTime runs = [] <-> runs = [].
Proof.
  split; intros H.
  - pose proof (sort_by_time_perm runs) as Hp. rewrite H in Hp.
    apply Permutation_nil in Hp. exact Hp.
  - subst runs. reflexivity.
Qed.

(** X21.  [computeAchievements] always returns the five achievements in the
    same order, and whether each is unlocked does not depend on the order in
    which the runs are stored: first run, some run of at least 5000 m, a
    total of at least 10000 m, a longest streak of at least 3, of at least
    7 days.  A 7-day streak achievement is never unlocked without the 3-day
    one. *)
Theorem computeAchievements_flags (runs : list Run.t) :
  let result := AppContext.computeAchievements dayKey getTime runs in
  map AppContext.id result
  = [AppContext.first_run; AppContext.first_5k; AppContext.ten_k_total;
     AppContext.streak_3; AppContext.streak_7]
  /\ map AppContext.unlocked result
     = [Nat.ltb 0 (List.length runs);
        existsb (fun r => AppContext.at_least 5000 (Run.distanceMeters r)) runs;
        AppContext.at_least 10000 (total_distance runs);
        Nat.leb 3 (AppContext.computeLongestStreak dayKey runs);
        Nat.leb 7 (AppContext.computeLongestStreak dayKey runs)]
  /\ (Nat.leb 7 (AppContext.computeLongestStreak dayKey runs) = true ->
      Nat.leb 3 (AppContext.computeLongestStreak dayKey runs) = true).
Proof.
  intros result. split; [reflexivity |]. split.
  - unfold result, AppContext.computeAchievements. clear result.
    cbn [map AppContext.unlocked].
    pose proof (sort_by_time_perm runs) as Hp.
    rewrite find_isSome, (existsb_perm _ _ _ Hp).
    rewrite fold_total, Rplus_0_l, (total_distance_perm _ _ Hp).
    rewrite (longest_streak_perm _ _ Hp).
    f_equal.
    destruct (AppContext.sort_by_time getTime runs) as [| h t] eqn:E.
    + apply (proj1 (sort_by_time_empty runs)) in E. rewrite E. reflexivity.
    + destruct runs; [discriminate | reflexivity].
  - intros H. apply Nat.leb_le in H. apply Nat.leb_le. lia.
Qed.


Lemma find_earliest {A : Type} (le : A -> A -> Prop) (f : A -> bool)
    (l : list A) (x : A) :
  (forall a : A, le a a) ->
  StronglySorted le l -> find f l = Some x ->
  In x l /\ f x = true
  /\ forall y : A, In y l -> f y = true -> le x y.
Proof.
  intros Hrefl Hs. induction Hs as [| a tl Htl IH Hall]; intros Hf.
  - discriminate.
  - cbn [find] in Hf. destruct (f a) eqn:Ea.
    + injection Hf as <-. split; [left; reflexivity |]. split; [exact Ea |].
      intros y [<- | Hy] _; [apply Hrefl |].
      rewrite Forall_forall in Hall. apply Hall. exact Hy.
    + destruct (IH Hf) as (Hin & Hfx & Hmin).
      split; [right; exact Hin |]. split; [exact Hfx |].
      intros y [<- | Hy] Hfy; [rewrite Ea in Hfy; discriminate |].
      apply Hmin; assumption.
Qed.

Lemma last_is_latest {A : Type} (le : A -> A -> Prop) (l : list A) (z : A) :
  (forall a : A, le a a) ->
  StronglySorted le l -> nth_error l (List.length l - 1) = Some z ->
  In z l /\ forall y : A, In y l -> le y z.
Proof.
  intros Hrefl Hs. induction Hs as [| a tl Htl IH Hall]; intros Hn.
  - discriminate.
  - destruct tl as [| b tl'].
    + cbn in Hn. injection Hn as <-. split; [left; reflexivity |].
      intros y [<- | []]. apply Hrefl.
    + assert (Hn' : nth_error (b :: tl') (List.length (b :: tl') - 1) = Some z).
      { cbn [List.length Nat.sub] in Hn. cbn [nth_error] in Hn.
        cbn [List.length Nat.sub]. rewrite Nat.sub_0_r. exact Hn. }
      destruct (IH Hn') as (Hin & Hmax).
      split; [right; exact Hin |].
      intros y [<- | Hy]; [| apply Hmax; exact Hy].
      rewrite Forall_forall in Hall. apply Hall. exact Hin.
Qed.

Lemma at_least_true (bound x : R) :
  AppContext.at_least bound x = true <-> bound <= x.
Proof.
  unfold AppContext.at_least. destruct (Rge_dec x bound); split; intros H;
    try reflexivity; try discriminate; lra.
Qed.

Lemma by_time_refl (a : Run.t) : by_time getTime a a.
Proof. unfold by_time. lia. Qed.

Lemma last_date_defined (l : list Run.t) (flag : bool) :
  (flag = true -> l <> []) ->
  (flag = true <->
   (if flag && Nat.ltb 0 (List.length l)
    then option_map Run.dateISO (nth_error l (List.length l - 1))
    else None) <> None).
Proof.
  intros Hne. destruct flag.
  - split; [intros _ | reflexivity].
    destruct l as [| a tl]; [exfalso; apply Hne; reflexivity |].
    change (true && Nat.ltb 0 (List.length (a :: tl))) with true. cbv iota.
    destruct (nth_error (a :: tl) (List.length (a :: tl) - 1)) eqn:E.
    + cbn [option_map]. discriminate.
    + apply nth_error_None in E. cbn [List.length] in E. lia.
  - split; [discriminate | intros H; contradiction].
Qed.

(** X22.  In the result of [computeAchievements] an achievement is unlocked
    exactly when it carries a date.  The date of the first-run achievement
    is that of a run no later than any other; the date of the first-5K
    achievement is that of the earliest run of at least 5000 m; the dates of
    the total and streak achievements are that of a run no earlier than any
    other. *)
Theorem computeAchievements_dates (runs : list Run.t) :
  exists a1 a2 a3 a4 a5 : AppContext.Achievement,
    AppContext.computeAchievements dayKey getTime runs = [a1; a2; a3; a4; a5]
    /\ (forall a : AppContext.Achievement,
          In a [a1; a2; a3; a4; a5] ->
          (AppContext.unlocked a = true <-> AppContext.unlockedAt a <> None))
    /\ (forall d : string, AppContext.unlockedAt a1 = Some d ->
          exists r : Run.t,
            In r runs /\ Run.dateISO r = d
            /\ forall r' : Run.t, In r' runs -> by_time getTime r r')
    /\ (forall d : string, AppContext.unlockedAt a2 = Some d ->
          exists r : Run.t,
            In r runs /\ Run.dateISO r = d /\ 5000 <= Run.distanceMeters r
            /\ forall r' : Run.t, In r' runs ->
                 5000 <= Run.distanceMeters r' -> by_time getTime r r')
    /\ (forall (a : AppContext.Achievement) (d : string),
          In a [a3; a4; a5] -> AppContext.unlockedAt a = Some d ->
          exists r : Run.t,
            In r runs /\ Run.dateISO r = d
            /\ forall r' : Run.t, In r' runs -> by_time getTime r' r).
Proof.
  pose proof (sort_by_time_perm runs) as Hp.
  pose proof (sort_by_time_sorted runs) as Hs.
  unfold AppContext.computeAchievements. cbv zeta.
  set (sorted := AppContext.sort_by_time getTime runs) in *.
  do 5 eexists. split; [reflexivity |].
  assert (Hlast : forall d : string,
             option_map Run.dateISO
               (nth_error sorted (List.length sorted - 1)) = Some d ->
             exists r : Run.t,
               In r runs /\ Run.dateISO r = d
               /\ forall r' : Run.t, In r' runs -> by_time getTime r' r).
  { intros d Hd.
    destruct (nth_error sorted (List.length sorted - 1)) as [z |] eqn:E;
      [| discriminate].
    injection Hd as Hd.
    destruct (last_is_latest (by_time getTime) sorted z by_time_refl Hs E)
      as (Hin & Hmax).
    exists z. split; [apply (Permutation_in _ Hp Hin) |].
    split; [exact Hd |]. intros r' Hr'. apply Hmax.
    apply (Permutation_in _ (Permutation_sym Hp) Hr'). }
  assert (Htotal : AppContext.at_least 10000
                     (fold_left (fun sum r => sum + Run.distanceMeters r)
                        sorted 0) = true -> sorted <> []).
  { intros H E. rewrite E in H. cbn [fold_left] in H.
    apply at_least_true in H. lra. }
  assert (Hstreak : forall k : nat, (1 <= k)%nat ->
             Nat.leb k (AppContext.computeLongestStreak dayKey sorted) = true ->
             sorted <> []).
  { intros k Hk H E. rewrite E in H. cbn in H.
    apply Nat.leb_le in H. lia. }
  split.
  { intros a [<- | [<- | [<- | [<- | [<- | []]]]]];
      cbn [AppContext.unlocked AppContext.unlockedAt].
    - destruct (hd_error sorted); cbn; split; intros H;
        try reflexivity; try discriminate; contradiction.
    - destruct (find _ sorted); cbn; split; intros H;
        try reflexivity; try discriminate; contradiction.
    - apply last_date_defined. exact Htotal.
    - apply last_date_defined. apply (Hstreak 3%nat). lia.
    - apply last_date_defined. apply (Hstreak 7%nat). lia. }
  split.
  { cbn [AppContext.unlockedAt]. intros d Hd.
    destruct sorted as [| h t] eqn:E; [discriminate |].
    cbn in Hd. injection Hd as Hd.
    exists h. split; [apply (Permutation_in _ Hp); left; reflexivity |].
    split; [exact Hd |]. intros r' Hr'.
    apply (Permutation_in _ (Permutation_sym Hp)) in Hr'.
    inversion Hs as [| ? ? _ Hall]; subst.
    destruct Hr' as [<- | Hr']; [apply by_time_refl |].
    rewrite Forall_forall in Hall. apply Hall. exact Hr'. }
  split.
  { cbn [AppContext.unlockedAt]. intros d Hd.
    destruct (find (fun r => AppContext.at_least 5000 (Run.distanceMeters r))
                sorted) as [x |] eqn:E; [| discriminate].
    injection Hd as Hd.
    destruct (find_earliest (by_time getTime) _ sorted x by_time_refl Hs E)
      as (Hin & Hfx & Hmin).
    exists x. split; [apply (Permutation_in _ Hp Hin) |].
    split; [exact Hd |]. split; [apply at_least_true; exact Hfx |].
    intros r' Hr' H5. apply Hmin.
    - apply (Permutation_in _ (Permutation_sym Hp) Hr').
    - apply at_least_true. exact H5. }
  intros a d [<- | [<- | [<- | []]]]; cbn [AppContext.unlockedAt];
    intros Hd;
    match type of Hd with
    | (if ?c then _ else _) = _ => destruct c; [apply Hlast; exact Hd | discriminate]
    end.
Qed.

End AchievementProperties.

(** ** What every schedule keeps *)

Lemma step_dialog_elapsed (e : Event) (s : Tracker) :
  (dialog (step e s) = dialog s
   \/ dialog (step e s) = None
   \/ (e = PressStop /\ hasRoute s = true /\ 10 <= distanceMeters s
       /\ dialog (step e s)
          = Some (mkSaveDialog (stopRun_summary s) (distanceMeters s)
                    (elapsedSec s) (routeCoords s))))
  /\ (elapsedSec (step e s) = elapsedSec s
      \/ elapsedSec (step e s) = 0%Z
      \/ (elapsedSec s <= elapsedSec (step e s))%Z).
Proof.
  destruct e as [| | | | a b | | i p | i c | i | h c | |]; cbn [step].
  - destruct (canStart s); split; left; reflexivity.
  - destruct (canPause s); [| split; left; reflexivity].
    destruct (pauseRun_keeps s) as (_ & _ & K3 & _ & _ & K6 & _).
    split; left; assumption.
  - destruct (canResume s); split; left; reflexivity.
  - destruct (canStop s); [| split; left; reflexivity].
    destruct (stopRun_cases s)
      as [(_ & _ & _ & R4 & R5) | (_ & _ & _ & _ & R5 & R6 & R7 & R8)].
    + split; [left; exact R5 | right; left; exact R4].
    + split; [right; right; repeat split; assumption | left; exact R5].
  - destruct (dialog s) as [d |] eqn:E.
    + split; [right; left; reflexivity | right; left; reflexivity].
    + split; left; [exact E | reflexivity].
  - destruct (dialog s) as [d |] eqn:E.
    + split; [right; left; reflexivity | right; left; reflexivity].
    + split; left; [exact E | reflexivity].
  - destruct (nth_error (inflight s) i) as [[who | | who] |];
      try (split; left; reflexivity).
    destruct p, who; split; left; reflexivity.
  - destruct (nth_error (inflight s) i) as [[who | | who] |];
      split; left; reflexivity.
  - destruct (nth_error (inflight s) i) as [[who | | who] |];
      try (split; left; reflexivity).
    destruct s as [st rc el dm ir rp ws tr rn sb iv nh inf al dg pu mo].
    destruct who, tr; split; left; reflexivity.
  - destruct (subscriber h s) as [who |]; [| split; left; reflexivity].
    destruct (onLocation_frame who c s) as (_ & F2 & _ & _ & _ & _ & F7 & _).
    split; left; assumption.
  - destruct (tick_keeps s) as (_ & _ & _ & _ & F5 & _).
    split; [left; exact F5 |]. right. right. rewrite tick_elapsed. lia.
  - destruct (mounted s); [| split; left; reflexivity].
    destruct (unmount_keeps s) as (_ & _ & K3 & _ & _ & K6 & _).
    split; left; assumption.
Qed.

Lemma step_sound (stored : list Run.t) (e : Event) (s : Tracker) :
  sound stored s -> sound stored (step e s).
Proof.
  intros [Hd He Hr].
  destruct (step_dialog_elapsed e s) as [Dg El].
  constructor.
  - intros d Hd'.
    destruct Dg as [Dg | [Dg | (_ & Hroute & Hdist & Dg)]];
      rewrite Dg in Hd'.
    + apply Hd. exact Hd'.
    + discriminate.
    + injection Hd' as <-.
      cbn [dlg_distanceMeters dlg_routeCoords dlg_elapsedSec].
      unfold hasRoute in Hroute. apply Nat.ltb_lt in Hroute.
      repeat split; [exact Hdist | lia | exact He].
  - destruct El as [El | [El | El]]; lia.
  - intros r Hin.
    destruct (step_runs e s) as [Hsame | (a & b & d & _ & Hdg & Hnew)].
    + rewrite Hsame in Hin. apply Hr. exact Hin.
    + rewrite Hnew in Hin. destruct Hin as [<- | Hin]; [| apply Hr; exact Hin].
      right. cbn [Run.distanceMeters Run.durationSec].
      destruct (Hd d Hdg) as (H1 & _ & H3). split; assumption.
Qed.

Lemma run_sound (stored : list Run.t) (es : list Event) (s : Tracker) :
  sound stored s -> sound stored (run es s).
Proof.
  revert s. induction es as [| e tl IH]; intros s H; [exact H |].
  apply IH, step_sound, H.
Qed.

Lemma initial_sound (stored : list Run.t) :
  sound stored (initialTracker stored).
Proof.
  constructor.
  - intros d H. discriminate.
  - cbn. lia.
  - intros r Hin. left. exact Hin.
Qed.

(** X23.  Whatever the order in which events are delivered, every run the
    screen adds to the stored collection passed the minimum-distance check:
    it has at least 10 m and a duration that is not negative; and the
    elapsed time shown is never negative. *)
Theorem stored_runs_passed_the_check (stored : list Run.t) (es : list Event) :
  let s := run es (initialTracker stored) in
  (forall r : Run.t, In r (runs s) ->
     In r stored
     \/ (10 <= Run.distanceMeters r /\ (0 <= Run.durationSec r)%Z))
  /\ (0 <= elapsedSec s)%Z
  /\ (forall d : SaveDialog, dialog s = Some d ->
        10 <= dlg_distanceMeters d
        /\ (2 <= List.length (dlg_routeCoords d))%nat).
Proof.
  intros s.
  destruct (run_sound stored es _ (initial_sound stored)) as [Hd He Hr].
  split; [exact Hr |]. split; [exact He |].
  intros d H. destruct (Hd d H) as (H1 & H2 & _). split; assumption.
Qed.

(** ** Every position adds a leg *)

Lemma act_route_started (a : Action) (s : Tracker) :
  settled s -> route_started s -> route_started (act a s).
Proof.
  intros Hs Hrs. unfold route_started in *.
  destruct a as [p c | | p | | t1 t2 | | h c | |]; cbn [act].
  - destruct (canStart s) eqn:Hc; [| exact Hrs].
    destruct (startRun_fields p c s) as (_ & _ & _ & _ & _ & F6).
    destruct p; destruct F6 as [F6 F7]; rewrite F6, F7;
      [discriminate | exact Hrs | exact Hrs].
  - destruct (canPause s) eqn:Hc; [| exact Hrs].
    destruct (pauseRun_keeps s) as (_ & _ & _ & K4 & _). rewrite K4.
    intros _. apply Hrs.
    unfold canPause in Hc. destruct (status s); try discriminate;
      rewrite andb_false_r in Hc; discriminate.
  - destruct (canResume s) eqn:Hc; [| exact Hrs].
    destruct (resumeRun_fields p s) as (_ & _ & F3 & _). rewrite F3.
    intros _. apply Hrs.
    unfold canResume in Hc. destruct (status s); try discriminate;
      rewrite andb_false_r in Hc; discriminate.
  - destruct (canStop s); [| exact Hrs].
    destruct (stopRun_cases s) as [(R1 & _) | (R1 & Hn & R3 & _)].
    + rewrite R1. intros H. contradiction.
    + rewrite R3. intros _. apply Hrs. exact Hn.
  - destruct (dialog s) as [d |] eqn:E.
    + destruct (reset_after_dialog s (PressSave t1 t2)) as (R1 & _);
        [left; eauto | rewrite E; discriminate |].
      rewrite R1. intros H. contradiction.
    + cbn [step]. rewrite E. exact Hrs.
  - destruct (dialog s) as [d |] eqn:E.
    + destruct (reset_after_dialog s PressDiscard) as (R1 & _);
        [right; reflexivity | rewrite E; discriminate |].
      rewrite R1. intros H. contradiction.
    + cbn [step]. rewrite E. exact Hrs.
  - cbn [step]. destruct (subscriber h s) as [who |]; [| exact Hrs].
    rewrite onLocation_route. intros _ H.
    apply app_eq_nil in H. destruct H as [_ H]. discriminate.
  - destruct (tick_keeps s) as (F1 & F2 & _). rewrite F1, F2. exact Hrs.
  - cbn [step]. destruct (mounted s); [| exact Hrs].
    destruct (unmount_keeps s) as (F1 & _ & _ & F4 & _).
    rewrite F1, F4. exact Hrs.
Qed.

Lemma perform_route_started (l : list Action) (s : Tracker) :
  settled s -> route_started s -> route_started (perform l s).
Proof.
  revert s. induction l as [| a tl IH]; intros s Hs Hr; [exact Hr |].
  apply IH; [apply act_settled; exact Hs | apply act_route_started; assumption].
Qed.

(** X24.  With handlers run to completion, a position is only ever
    delivered to a running session whose route already has a point, so the
    empty-route branch of the callback is never taken: every position
    delivered adds exactly one point and exactly the great-circle leg from
    the previous point to the distance. *)
Theorem every_position_adds_a_leg
    (stored : list Run.t) (l : list Action) (h : Handle) (c : LatLng) :
  let s := perform l (initialTracker stored) in
  match subscriber h s with
  | None => step (LocationUpdate h c) s = s
  | Some _ =>
      status s = running
      /\ routeCoords s <> []
      /\ routeCoords (step (LocationUpdate h c) s) = routeCoords s ++ [c]
      /\ distanceMeters (step (LocationUpdate h c) s)
         = distanceMeters s + haversineMeters (last (routeCoords s) c) c
  end.
Proof.
  intros s.
  assert (Hs : settled s) by apply perform_settled, initial_settled.
  assert (Hr : route_started s).
  { apply perform_route_started; [apply initial_settled |].
    intros H. exfalso. apply H. reflexivity. }
  cbn [step]. destruct (subscriber h s) as [who |] eqn:E; [| reflexivity].
  pose proof (subscriber_running h who s Hs E) as Hrun.
  assert (Hne : routeCoords s <> []) by (apply Hr; rewrite Hrun; discriminate).
  split; [exact Hrun |]. split; [exact Hne |].
  split; [apply onLocation_route |].
  rewrite onLocation_increment.
  destruct (routeCoords s) as [| x tl]; [contradiction |].
  pose proof (haversineMeters_range (last (x :: tl) c) c) as [H0 _].
  rewrite Rmax_right by exact H0. reflexivity.
Qed.

(** ** The home tab *)

Lemma filter_nonempty {A : Type} (f : A -> bool) (l : list A) :
  (0 < List.length (filter f l))%nat <-> exists x : A, In x l /\ f x = true.
Proof.
  split.
  - intros H. destruct (filter f l) as [| x tl] eqn:E; [cbn in H; lia |].
    assert (Hin : In x (filter f l)) by (rewrite E; left; reflexivity).
    apply filter_In in Hin. exists x. exact Hin.
  - intros (x & Hin & Hx).
    assert (Hf : In x (filter f l)) by (apply filter_In; split; assumption).
    destruct (filter f l); [contradiction | cbn; lia].
Qed.

Lemma filter_length_le {A : Type} (f : A -> bool) (l : list A) :
  (List.length (filter f l) <= List.length l)%nat.
Proof.
  induction l as [| x tl IH]; [cbn; lia |].
  cbn [filter]. destruct (f x); cbn [List.length]; lia.
Qed.

(** X25.  On the home tab, when the key of today has its ten characters and
    is the key the streak loop starts from, the streak is at least 1
    exactly when at least one workout is counted for today; the count of
    today's workouts never exceeds the number of stored runs. *)
Theorem streak_starts_with_a_workout_today
    (dayKey : nat -> string) (todayKey : string) (runs : list Run.t) :
  String.length todayKey = 10%nat -> dayKey O = todayKey ->
  ((0 < HomeTab.dailyWorkoutsSafe todayKey runs)%nat
   <-> (0 < HomeTab.weeklyStreakSafe dayKey runs)%nat)
  /\ (HomeTab.dailyWorkoutsSafe todayKey runs <= List.length runs)%nat.
Proof.
  intros Hlen Hkey. split; [| apply filter_length_le].
  unfold HomeTab.dailyWorkoutsSafe. rewrite filter_nonempty.
  assert (Hday : (exists r : Run.t,
                     In r runs
                     /\ String.prefix todayKey (Run.dateISO r) = true)
                 <-> AppContext.has_day (map AppContext.run_day runs)
                       (dayKey O) = true).
  { rewrite has_day_In, Hkey, in_map_iff. unfold AppContext.run_day.
    split; intros (r & H1 & H2); exists r.
    - apply prefix_correct in H2. rewrite Hlen in H2. split; assumption.
    - split; [exact H2 |]. apply prefix_correct. rewrite Hlen. exact H1. }
  rewrite Hday.
  destruct runs as [| r0 tl].
  { cbn. split; [discriminate | lia]. }
  unfold HomeTab.weeklyStreakSafe.
  change (seq 0 365) with (O :: seq 1 364).
  cbn [HomeTab.streak_loop].
  destruct (AppContext.has_day (map AppContext.run_day (r0 :: tl)) (dayKey O)).
  - pose proof (streak_loop_spec dayKey
                  (map AppContext.run_day (r0 :: tl)) (seq 1 364) 1) as (B & _).
    cbv zeta in B. split; [intros _; lia | reflexivity].
  - split; [discriminate | lia].
Qed.

Lemma streak_starts_with_a_workout_today_witness :
  String.length "2024-01-02" = 10%nat
  /\ (0 < HomeTab.dailyWorkoutsSafe "2024-01-02"
            [Run.mk "2" "2024-01-02T07:00:00.000Z" 1200 400%Z])%nat
  /\ (0 < HomeTab.weeklyStreakSafe (fun _ => "2024-01-02"%string)
            [Run.mk "2" "2024-01-02T07:00:00.000Z" 1200 400%Z])%nat.
Proof.
  assert (H1 : String.length "2024-01-02" = 10%nat) by reflexivity.
  assert (H2 : (fun _ : nat => "2024-01-02"%string) O = "2024-01-02"%string)
    by reflexivity.
  destruct (streak_starts_with_a_workout_today
              (fun _ => "2024-01-02"%string) "2024-01-02"
              [Run.mk "2" "2024-01-02T07:00:00.000Z" 1200 400%Z] H1 H2)
    as [Hiff _].
  assert (Hd : (0 < HomeTab.dailyWorkoutsSafe "2024-01-02"
                      [Run.mk "2" "2024-01-02T07:00:00.000Z" 1200 400%Z])%nat)
    by (unfold HomeTab.dailyWorkoutsSafe; cbn; lia).
  split; [exact H1 |]. split; [exact Hd |].
  apply Hiff. exact Hd.
Defined.

(** X26.  Saving a run from the tracker unlocks the first-run achievement:
    in the achievements computed from the stored runs after the save, the
    first one is the first-run achievement, unlocked and dated; the badge of
    the table with the same name is unlocked as well. *)
Theorem saving_unlocks_first_run
    (dayKey : nat -> string) (getTime : string -> Z)
    (stats : Badges.StatsShape) (s : Tracker) (nowId nowDate : Z) :
  canStop s = true -> hasRoute s = true -> 10 <= distanceMeters s ->
  let stored := runs (run (stop_and_save nowId nowDate) s) in
  (exists a : AppContext.Achievement,
      hd_error (AppContext.computeAchievements dayKey getTime stored) = Some a
      /\ AppContext.id a = AppContext.first_run
      /\ AppContext.unlocked a = true
      /\ AppContext.unlockedAt a <> None)
  /\ Badges.unlocked "first_run" stats stored = true.
Proof.
  intros Hcan Hr Hd stored.
  destruct (stop_then_save s nowId nowDate Hcan Hr Hd) as (S1 & _).
  fold stored in S1.
  assert (Hne : stored <> []) by (rewrite S1; discriminate).
  split.
  - unfold AppContext.computeAchievements. cbv zeta. cbn [hd_error].
    eexists. split; [reflexivity |].
    cbn [AppContext.id AppContext.unlocked AppContext.unlockedAt].
    destruct (AppContext.sort_by_time getTime stored) as [| h t] eqn:E.
    + apply (proj1 (sort_by_time_empty getTime stored)) in E. contradiction.
    + cbn. repeat split. discriminate.
  - rewrite unlocked_rules. rewrite S1. reflexivity.
Qed.

Lemma saving_unlocks_first_run_witness :
  Badges.unlocked "first_run" (Badges.mkStats 0)
    (runs (run (stop_and_save 1700000000000 1700000000000)
             ten_minute_session)) = true.
Proof.
  destruct ten_minute_session_valid as (V1 & V2 & V3).
  exact (proj2 (saving_unlocks_first_run (fun _ => EmptyString) (fun _ => 0%Z)
                  (Badges.mkStats 0) ten_minute_session
                  1700000000000 1700000000000 V1 V2 V3)).
Defined.
